(** * ParkPulse backend: the ledger-interaction layer

    A shallow embedding of [blockchain.py] (class [FlowBlockchainService]) and
    [close_proposals.py] (class [ProposalCloser]), and the properties of the
    end-date normalisation, the fixed-point codec, the sealing poll, the
    summary generator, the read-path decoder, the rate-limit retry and the
    closure sweep.

    Python values are modelled as the interpreter has them: [float] is IEEE
    binary64 (the reference implementation [SpecFloat] with precision 53),
    [int] is [Z], [str] is a sequence of code points, a [dict] is a [gmap],
    an exception is the message [str(e)] gives.  Calls that leave the
    process (ledger RPC, the summarizer, the clock) are answers supplied by
    an environment record, and the calls made are collected in a trace. *)

From Stdlib Require Import ZArith QArith Qround String Ascii List Lia Bool DecimalString.
From Stdlib Require Import Floats.SpecFloat.
From stdpp Require Import gmap strings list.

Set Warnings "-register-all".
Local Open Scope Z_scope.

(* ===================================================================== *)
(** * The Python runtime *)
(* ===================================================================== *)

Module Py.

(** ** binary64 *)

Definition float := spec_float.
Definition prec : Z := 53.
Definition emax : Z := 1024.

Definition fadd : float -> float -> float := SFadd prec emax.
Definition fsub : float -> float -> float := SFsub prec emax.
Definition fmul : float -> float -> float := SFmul prec emax.
Definition fdiv : float -> float -> float := SFdiv prec emax.
Definition fleb : float -> float -> bool := SFleb.
Definition fltb : float -> float -> bool := SFltb.
Definition feqb : float -> float -> bool := SFeqb.
(** [a > b] *)
Definition fgtb (a b : float) : bool :=
  match SFcompare a b with Some Gt => true | _ => false end.

(** The float nearest to an integer (round to nearest, ties to even). *)
Definition float_of_Z (z : Z) : float := binary_normalize prec emax z 0 false.

(** [x != 0.0], the truth value of a float ([nan] is true, [-0.0] false). *)
Definition float_truthy (x : float) : bool :=
  match x with S754_zero _ => false | _ => true end.

(** Truncation toward zero of a finite float; [None] on [inf] and [nan]. *)
Definition ftrunc (x : float) : option Z :=
  match x with
  | S754_zero _ => Some 0
  | S754_finite s m e =>
      let a := match e with
               | Z0 => Zpos m
               | Zpos p => Z.shiftl (Zpos m) (Zpos p)
               | Zneg p => Z.shiftr (Zpos m) (Zpos p)
               end in
      Some (if s then Z.opp a else a)
  | S754_infinity _ | S754_nan => None
  end.

(** ** str: a sequence of code points *)

Definition pystr := list N.

(** A literal of the source (ASCII) as a [str]. *)
Definition u (s : string) : pystr :=
  List.map N_of_ascii (list_ascii_of_string s).

(** [str.isspace] of one code point. *)
Definition isspace (c : N) : bool :=
  ((9 <=? c) && (c <=? 13) || (28 <=? c) && (c <=? 32) || (c =? 133)
   || (c =? 160) || (c =? 5760) || (8192 <=? c) && (c <=? 8202)
   || (c =? 8232) || (c =? 8233) || (c =? 8239) || (c =? 8287)
   || (c =? 12288))%N.

Fixpoint lstrip (s : pystr) : pystr :=
  match s with
  | c :: s' => if isspace c then lstrip s' else s
  | [] => []
  end.

(** [s.strip()] *)
Definition strip (s : pystr) : pystr := rev (lstrip (rev (lstrip s))).

(** [s.lower()] on the ASCII letters.  Of the other code points only U+0130
    and U+212A lower to something that holds an ASCII letter ("i" followed
    by U+0307, and "k"), and neither can take part in an occurrence of
    "rate limited", the one text the source looks for in a lowered string. *)
Definition lower_char (c : N) : N :=
  if ((65 <=? c) && (c <=? 90))%N then (c + 32)%N else c.
Definition lower (s : pystr) : pystr := List.map lower_char s.

Fixpoint startswith (p s : pystr) : bool :=
  match p, s with
  | [], _ => true
  | a :: p', b :: s' => (a =? b)%N && startswith p' s'
  | _ :: _, [] => false
  end.

(** [p in s] *)
Fixpoint contains (p s : pystr) : bool :=
  startswith p s || match s with [] => false | _ :: s' => contains p s' end.

(** ** Exceptions: a computation returns or raises [msg = str(e)] *)

Inductive res (A : Type) : Type :=
| Ok (a : A)
| Raise (msg : pystr).
Arguments Ok {A} a.
Arguments Raise {A} msg.

#[export] Instance res_ret : MRet res := fun _ a => Ok a.
#[export] Instance res_bind : MBind res := fun _ _ f m =>
  match m with Ok a => f a | Raise e => Raise e end.

(** ** Objects *)

(** [PObj attrs] is an instance of a class of the Flow SDK, given by its
    attributes ([value], [fields], [id], [rawValue], ...). *)
Inductive pyobj : Type :=
| PNone
| PBool (b : bool)
| PInt (z : Z)
| PFloat (f : float)
| PStr (s : pystr)
| PList (l : list pyobj)
| PDict (d : gmap string pyobj)
| PObj (attrs : gmap string pyobj).

(** [bool(o)] *)
Definition truthy (o : pyobj) : bool :=
  match o with
  | PNone => false
  | PBool b => b
  | PInt z => negb (z =? 0)
  | PFloat f => float_truthy f
  | PStr s => match s with [] => false | _ => true end
  | PList l => match l with [] => false | _ => true end
  | PDict d => negb (bool_decide (d = ∅))
  | PObj _ => true
  end.

(** [getattr(o, name, None)] and [hasattr(o, name)], for the attribute
    names the source asks for ([value], [fields], [rawValue]): no built-in
    type has one of them. *)
Definition getattr (o : pyobj) (name : string) : option pyobj :=
  match o with PObj attrs => attrs !! name | _ => None end.
Definition hasattr (o : pyobj) (name : string) : bool :=
  match getattr o name with Some _ => true | None => false end.

Definition is_none (o : pyobj) : bool :=
  match o with PNone => true | _ => false end.

(** [d.get(k, default)] *)
Definition dict_get (d : gmap string pyobj) (k : string) (dflt : pyobj) : pyobj :=
  default dflt (d !! k).

(** What the interpreter and the libraries decide and the source only calls. *)
Class Platform := {
  (** [int(s)] of a [str]; [None] when it raises [ValueError] *)
  int_of_str : pystr -> option Z;
  (** [float(s)] of a [str] *)
  float_of_str : pystr -> option float;
  (** [str(o)] of an object that is not a [str] *)
  repr : pyobj -> pystr;
  (** [f"{x:.4f}"] *)
  format_4f : float -> pystr;
  (** whether [datetime.fromtimestamp(t)] returns (the year is in range) *)
  fromtimestamp_ok : float -> bool;
  (** the elements [for x in o] runs through, for [o] other than a [list];
      [None] when [o] is not iterable *)
  iter_other : pyobj -> option (list pyobj)
}.

Section Builtins.
Context `{Platform}.

(** [str(o)] *)
Definition py_str (o : pyobj) : pystr :=
  match o with PStr s => s | _ => repr o end.

(** [int(o)].  The message for a text or an object that is refused is
    given without the literal or the type name that CPython appends. *)
Definition py_int (o : pyobj) : res Z :=
  match o with
  | PInt z => Ok z
  | PBool b => Ok (if b then 1 else 0)
  | PFloat f =>
      match ftrunc f with
      | Some z => Ok z
      | None =>
          Raise (match f with
                 | S754_nan => u "cannot convert float NaN to integer"
                 | _ => u "cannot convert float infinity to integer"
                 end)
      end
  | PStr s =>
      match int_of_str s with
      | Some z => Ok z
      | None => Raise (u "invalid literal for int() with base 10")
      end
  | PNone | PList _ | PDict _ | PObj _ =>
      Raise (u "int() argument must be a string, a bytes-like object or a real number")
  end.

(** [float(o)].  The message for a text or an object that is refused is
    given without the literal or the type name that CPython appends. *)
Definition py_float (o : pyobj) : res float :=
  match o with
  | PFloat f => Ok f
  | PInt z =>
      match float_of_Z z with
      | S754_infinity _ => Raise (u "int too large to convert to float")
      | f => Ok f
      end
  | PBool b => Ok (float_of_Z (if b then 1 else 0))
  | PStr s =>
      match float_of_str s with
      | Some f => Ok f
      | None => Raise (u "could not convert string to float")
      end
  | PNone | PList _ | PDict _ | PObj _ =>
      Raise (u "float() argument must be a string or a real number")
  end.

(** [for x in o] *)
Definition py_iter (o : pyobj) : res (list pyobj) :=
  match o with
  | PList l => Ok l
  | _ =>
      match iter_other o with
      | Some l => Ok l
      | None => Raise (u "object is not iterable")
      end
  end.

(** [[f(x) for x in l]], which stops at the first exception. *)
Fixpoint map_res {A B : Type} (f : A -> res B) (l : list A) : res (list B) :=
  match l with
  | [] => Ok []
  | x :: l' => y ← f x; ys ← map_res f l'; Ok (y :: ys)
  end.

End Builtins.

End Py.
Export Py.

(** The constant [1e8] of the source. *)
Definition f1e8 : float := Eval vm_compute in float_of_Z 100000000.

(* ===================================================================== *)
(** * Struct codec: the fixed-point conversions *)
(* ===================================================================== *)

Module Codec.

Section Conversions.
Context `{Platform}.

(** [int(x * 1e8)], the raw value handed to [cadence.UFix64] for every
    fixed-point argument of the create transaction. *)
Definition to_ufix64 (x : float) : res Z := py_int (PFloat (fmul x f1e8)).

(** [ufix64_to_float] of [_parse_proposal_result]. *)
Definition ufix64_to_float (value : pyobj) : res float :=
  if is_none value then Ok (S754_zero false)
  else f ← py_float value; Ok (fdiv f f1e8).

(** [uint64_to_int] of [_parse_proposal_result]. *)
Definition uint64_to_int (value : pyobj) : res Z :=
  if is_none value then Ok 0 else py_int value.

End Conversions.

(** The two conversions over exact decimals, as the specification words
    them: [decimalToUfix64(x) = floor(x * 1e8)], [ufix64ToDecimal(raw) =
    raw / 1e8]. *)
Definition spec_decimalToUfix64 (x : Q) : Z := Qfloor (x * inject_Z 100000000).
Definition spec_ufix64ToDecimal (raw : Z) : Q := inject_Z raw / inject_Z 100000000.

(** The float written [0.29] in Python: [0x1.28f5c28f5c28fp-2]. *)
Definition f0_29 : float := S754_finite false 5224175567749775 (-54).

End Codec.

(* ===================================================================== *)
(** * The ledger boundary: values exchanged with the Flow access node *)
(* ===================================================================== *)

Module Ledger.

(** An argument of a transaction or script, tagged with its Cadence type:
    [cadence.String(v)], [cadence.UFix64(raw)], [cadence.UInt64(n)],
    [cadence.Address(a)]. *)
Inductive cadence_arg : Type :=
| CString (v : pyobj)
| CUFix64 (raw : Z)
| CUInt64 (n : Z)
| CAddress (a : pystr).

(** The Cadence texts of the source, each a template in the contract
    address. *)
Inductive code : Type :=
| CreateProposalTx (contract_addr : pystr)
| UpdateProposalStatusTx (contract_addr : pystr)
| GetProposalScript (contract_addr : pystr)
| GetAllActiveProposalsScript (contract_addr : pystr)
| GetTotalProposalsScript (contract_addr : pystr).

(** [InMemorySigner(hash_algo=SHA3_256, sign_algo=ECDSA_P256, private_key_hex=...)] *)
Record Signer : Type := { signer_private_key_hex : pystr }.

Record ProposalKey : Type := {
  key_address : pystr;
  key_id : Z;
  key_sequence_number : Z
}.

Record Tx : Type := {
  tx_code : code;
  reference_block_id : pystr;
  payer : pystr;
  proposal_key : ProposalKey;
  authorizers : list pystr;
  arguments : list cadence_arg;
  envelope_signature : option (pystr * Z * Signer)
}.

Record account_key : Type := { sequence_number : Z }.
Record Account : Type := { balance : Z; keys : list account_key }.

(** The answer of [client.get_transaction_result]. *)
Record tx_result_response : Type := {
  status : Z;
  status_code : Z;
  error_message : pystr
}.

(** A call that leaves the process. *)
Inductive event : Type :=
| Ping
| Summarize
| GetAccount (address : pystr)
| GetLatestBlock
| SendTransaction (tx : Tx)
| Sleep (seconds : Z)
| GetTransactionResult (tx_id : pystr)
| ExecuteScript (script : code) (args : list cadence_arg).

(** A computation that makes calls and returns or raises. *)
Definition io (A : Type) : Type := list event * res A.

#[export] Instance io_ret : MRet io := fun _ a => ([], Ok a).
#[export] Instance io_bind : MBind io := fun _ _ f m =>
  match m with
  | (t, Ok a) => let '(t', r) := f a in (t ++ t', r)
  | (t, Raise e) => (t, Raise e)
  end.

(** One call and the answer the environment gives to it. *)
Definition call {A : Type} (e : event) (answer : res A) : io A := ([e], answer).

(** A step without a call. *)
Definition pure {A : Type} (r : res A) : io A := ([], r).

(** [try: body / except Exception as e: handler(str(e))] *)
Definition try_except {A : Type} (body : io A) (handler : pystr -> io A) : io A :=
  match body with
  | (t, Ok a) => (t, Ok a)
  | (t, Raise e) => let '(t', r) := handler e in (t ++ t', r)
  end.

(** [d[k]]; a missing key raises [KeyError(k)], whose [str] is the quoted key. *)
Definition getitem (d : gmap string pyobj) (k : string) : res pyobj :=
  match d !! k with
  | Some v => Ok v
  | None => Raise (u "'" ++ u k ++ u "'")
  end.

(** [o.get], defined when [o] is a [dict].  The message is given without
    the type name that CPython puts before it. *)
Definition as_dict (o : pyobj) : res (gmap string pyobj) :=
  match o with
  | PDict d => Ok d
  | _ => Raise (u "object has no attribute 'get'")
  end.

(** A decoded Cadence value that carries [value]: [UInt64], [UFix64],
    [String], [Address], [Optional], [Array]. *)
Definition cadence_value (v : pyobj) : pyobj := PObj {[ "value" := v ]}.

(** A decoded Cadence struct: the type identifier in [id], the fields in
    the dictionary [fields]. *)
Definition cadence_struct (type_id : pystr) (fields : gmap string pyobj) : pyobj :=
  PObj (<["id" := PStr type_id]> {[ "fields" := PDict fields ]}).

(** A decoded Cadence enum: a struct with the one field [rawValue], which
    the object also has as an attribute. *)
Definition cadence_enum (type_id : pystr) (raw : Z) : pyobj :=
  PObj (<["rawValue" := cadence_value (PInt raw)]>
          (<["id" := PStr type_id]>
             {[ "fields" := PDict {[ "rawValue" := cadence_value (PInt raw) ]} ]})).

(** [o] is an object without [value] whose [fields] is the dictionary
    [fields]: a decoded struct, whatever other attributes it has. *)
Definition is_struct (o : pyobj) (fields : gmap string pyobj) : Prop :=
  exists attrs, o = PObj attrs /\ attrs !! "value" = None
                /\ attrs !! "fields" = Some (PDict fields).

(** [o] is an object whose [value] is [v]: an optional that holds [v]. *)
Definition is_optional (o v : pyobj) : Prop :=
  exists attrs, o = PObj attrs /\ attrs !! "value" = Some v.

(** What the Flow SDK decides. *)
Class FlowSdk := {
  (** [InMemorySigner(..., private_key_hex=k)], which decodes the hex key *)
  in_memory_signer : pyobj -> res Signer;
  (** [Address.from_hex(s)] *)
  address_from_hex : pystr -> res pystr
}.

End Ledger.
Export Ledger.

(* ===================================================================== *)
(** * [FlowBlockchainService]: configuration *)
(* ===================================================================== *)

Module Service.

(** [s.replace('0x', '')] *)
Fixpoint strip_0x (s : pystr) : pystr :=
  match s with
  | 48%N :: 120%N :: s' => strip_0x s'
  | c :: s' => c :: strip_0x s'
  | [] => []
  end.

(** [os.getenv(name, default)] *)
Definition getenv (environ : gmap string pystr) (name : string) (dflt : pystr) : pystr :=
  default dflt (environ !! name).

Record network_entry : Type := { host : pystr; port : pystr; explorer : pystr }.

Record FlowBlockchainService : Type := {
  network : pystr;
  private_key_hex : option pystr;
  address : pystr;
  contract_name : pystr;
  contract_address : pystr;
  access_node_host : pystr;
  access_node_port : pystr;
  explorer_base_url : pystr;
  signer : option Signer
}.

Section Init.
Context `{FlowSdk}.

Definition network_config (environ : gmap string pystr) (network : pystr) : network_entry :=
  let testnet :=
    {| host := getenv environ "FLOW_ACCESS_NODE_HOST" (u "access.devnet.nodes.onflow.org");
       port := getenv environ "FLOW_ACCESS_NODE_PORT" (u "9000");
       explorer := u "https://testnet.flowdiver.io" |} in
  if bool_decide (network = u "mainnet") then
    {| host := getenv environ "FLOW_ACCESS_NODE_HOST" (u "access.mainnet.nodes.onflow.org");
       port := getenv environ "FLOW_ACCESS_NODE_PORT" (u "9000");
       explorer := u "https://flowdiver.io" |}
  else if bool_decide (network = u "emulator") then
    {| host := getenv environ "FLOW_ACCESS_NODE_HOST" (u "localhost");
       port := getenv environ "FLOW_ACCESS_NODE_PORT" (u "3569");
       explorer := u "http://localhost:8701" |}
  else testnet.

(** [FlowBlockchainService.__init__].  [FLOW_SDK_AVAILABLE] is whether the
    import of the SDK succeeded. *)
Definition init (environ : gmap string pystr) (FLOW_SDK_AVAILABLE : bool)
  : FlowBlockchainService :=
  let network := getenv environ "FLOW_NETWORK" (u "testnet") in
  let private_key_hex := environ !! "FLOW_PRIVATE_KEY" in
  let address := strip_0x (getenv environ "FLOW_ADDRESS" []) in
  let contract_name := getenv environ "FLOW_CONTRACT_NAME" (u "CommunityVoting") in
  let contract_address := strip_0x (getenv environ "FLOW_CONTRACT_ADDRESS" address) in
  let config := network_config environ network in
  let signer :=
    match private_key_hex with
    | Some k =>
        if truthy (PStr k) && FLOW_SDK_AVAILABLE then
          match in_memory_signer (PStr k) with
          | Ok s => Some s
          | Raise _ => None
          end
        else None
    | None => None
    end in
  {| network := network;
     private_key_hex := private_key_hex;
     address := address;
     contract_name := contract_name;
     contract_address := contract_address;
     access_node_host := host config;
     access_node_port := port config;
     explorer_base_url := explorer config;
     signer := signer |}.

End Init.

End Service.

(* ===================================================================== *)
(** * Submission: end-date normalisation *)
(* ===================================================================== *)

Module EndDate.

(** A naive [datetime]. *)
Record datetime : Type := {
  year : Z; month : Z; day : Z;
  hour : Z; minute : Z; second : Z; microsecond : Z
}.

(** What the [datetime] module decides. *)
Class Calendar := {
  (** [datetime.strptime(s, "%B %d, %Y")]; [None] when it raises *)
  strptime_BdY : pystr -> option datetime;
  (** [d.timestamp()] of a naive datetime, in the local time zone; [None]
      when it raises *)
  timestamp : datetime -> option float
}.

(** [30 * 24 * 3600] and [buffer_time = 3600], as the floats the additions
    turn them into. *)
Definition thirty_days : float := Eval vm_compute in float_of_Z (30 * 24 * 3600).
Definition buffer_time : float := Eval vm_compute in float_of_Z 3600.

Section Normalize.
Context `{Calendar}.

(** [parsed_date.replace(hour=23, minute=59, second=59)] *)
Definition end_of_day (parsed_date : datetime) : datetime :=
  {| year := year parsed_date; month := month parsed_date; day := day parsed_date;
     hour := 23; minute := 59; second := 59;
     microsecond := microsecond parsed_date |}.

(** The [try] block of lines 113-117: the timestamp of the end of the
    parsed day, [None] when anything in it raises. *)
Definition parsed_end_timestamp (end_date_str : pyobj) : option float :=
  match end_date_str with
  | PStr s =>
      match strptime_BdY s with
      | Some parsed_date => timestamp (end_of_day parsed_date)
      | None => None
      end
  | _ => None
  end.

(** Lines 112-120.  [clock k] is what the [k]-th evaluation of
    [datetime.now().timestamp()] returns; the result is the end timestamp
    and the number of clock reads made. *)
Definition initial_end_timestamp (clock : nat -> float) (end_date_str : pyobj)
  : float * nat :=
  match parsed_end_timestamp end_date_str with
  | Some end_timestamp => (end_timestamp, 0%nat)
  | None => (fadd (clock 0%nat) thirty_days, 1%nat)
  end.

(** Lines 130-132. *)
Definition apply_buffer (end_timestamp current_time : float) : float :=
  if fleb end_timestamp (fadd current_time buffer_time)
  then fadd (fadd current_time thirty_days) buffer_time
  else end_timestamp.

(** Lines 112-134: the end timestamp submitted to the ledger. *)
Definition normalize_end_date (clock : nat -> float) (end_date_str : pyobj) : float :=
  let '(end_timestamp, reads) := initial_end_timestamp clock end_date_str in
  let current_time := clock reads in
  apply_buffer end_timestamp current_time.

End Normalize.

End EndDate.

(* ===================================================================== *)
(** * Submission: the summary stored on chain *)
(* ===================================================================== *)

Module Summary.

Definition filler : pystr :=
  u " Environmental impact assessment indicates significant changes.".

(** The block under "Ensure length constraints". *)
Definition ensure_length (summary : pystr) : pystr :=
  if (length summary <? 230)%nat then summary ++ filler
  else if (240 <? length summary)%nat then take 240 summary
  else summary.

(** A summarizer answer of 26 characters. *)
Definition short_answer : pystr := u "NDVI fell from 0.7 to 0.2.".

Section Generate.
Context `{Platform}.

(** The [except] branch: the templated string. *)
Definition fallback_summary (analysis_data : gmap string pyobj) : pystr :=
  let park_name := dict_get analysis_data "parkName" (PStr (u "Park")) in
  let ndvi_before := dict_get analysis_data "ndviBefore" (PInt 0) in
  let ndvi_after := dict_get analysis_data "ndviAfter" (PInt 0) in
  let pm25_increase := dict_get analysis_data "pm25IncreasePercent" (PInt 0) in
  py_str park_name ++ u ": NDVI " ++ py_str ndvi_before ++ [8594%N]
    ++ py_str ndvi_after ++ u ", PM2.5 +" ++ py_str pm25_increase ++ u "%".

(** [response.text.strip()] *)
Definition stripped_text (text : pyobj) : res pystr :=
  match text with
  | PStr s => Ok (strip s)
  | _ => Raise (u "object has no attribute 'strip'")
  end.

(** [_generate_blockchain_summary].  [response_text] is [response.text] of
    the summarizer, or the exception raised on the way to it. *)
Definition _generate_blockchain_summary (response_text : res pyobj)
    (full_summary : pyobj) (analysis_data : gmap string pyobj) : io pystr :=
  try_except
    (text ← call Summarize response_text;
     summary ← pure (stripped_text text);
     mret (ensure_length summary))
    (fun _ => mret (fallback_summary analysis_data)).

End Generate.

End Summary.

(* ===================================================================== *)
(** * Query service: the total-proposal counter *)
(* ===================================================================== *)

Module Counter.
Import Service.

Section Counter.
Context `{Platform}.

(** [self.contract_address if self.contract_address else self.address],
    with the [replace("0x", "")] of the template. *)
Definition contract_addr (self : FlowBlockchainService) : pystr :=
  strip_0x (if truthy (PStr (contract_address self))
            then contract_address self else address self).

(** [get_total_proposals].  [answer] is what the script execution gives:
    an exception, an empty result, or the decoded Cadence value. *)
Definition get_total_proposals (self : FlowBlockchainService)
    (answer : res (option pyobj)) : io Z :=
  try_except
    (result ← call (ExecuteScript (GetTotalProposalsScript (contract_addr self)) []) answer;
     match result with
     | Some cadence_value =>
         match getattr cadence_value "value" with
         | Some v => pure (py_int v)
         | None => pure (py_int cadence_value)
         end
     | None => mret 0
     end)
    (fun _ => mret 0).

End Counter.

End Counter.

(* ===================================================================== *)
(** * Submission orchestrator: [create_proposal_on_blockchain] *)
(* ===================================================================== *)

Module Submission.
Import Service EndDate Codec Summary Counter.

(** The dictionary returned to the caller: [success] false with [error] and,
    when known, [transaction_hash] and [explorer_url]; or [success] true. *)
Inductive submission_result : Type :=
| Failed (error : pystr) (transaction_hash : option pystr) (explorer_url : option pystr)
| Succeeded (transaction_hash : pystr) (proposal_id : Z) (status_code : Z)
            (explorer_url : pystr).

(** The answers of the world to one submission. *)
Record Env : Type := {
  ping : res unit;
  clock : nat -> float;
  summarizer : res pyobj;
  get_account_at_latest_block : res Account;
  get_latest_block : res pystr;
  send_transaction : Tx -> res pystr;
  (** the answer to the [k]-th poll, counted from 0 *)
  get_transaction_result : nat -> res tx_result_response;
  total_proposals_script : res (option pyobj)
}.

(** The environmental metrics of lines 137-142. *)
Record environmental_args : Type := {
  ndvi_before : float;
  ndvi_after : float;
  pm25_before : float;
  pm25_after : float;
  pm25_increase : float;
  vegetation_loss : float
}.

Record demographic_args : Type := {
  children : Z; adults : Z; seniors : Z; total_affected : Z
}.

(** The literal [0.001]. *)
Definition f0_001 : float := Eval vm_compute in fdiv (float_of_Z 1) (float_of_Z 1000).
Definition f100 : float := Eval vm_compute in float_of_Z 100.

Definition max_attempts : nat := 30.

Section Create.
Context `{Platform} `{FlowSdk} `{Calendar}.

(** Lines 137-142.  The [0] of the [else] branch meets [* 1e8] as [0.0]. *)
Definition prepare_environmental_data (analysis_data : gmap string pyobj)
  : res environmental_args :=
  ndvi_before ← py_float (dict_get analysis_data "ndviBefore" (PInt 0));
  ndvi_after ← py_float (dict_get analysis_data "ndviAfter" (PInt 0));
  pm25_before ← py_float (dict_get analysis_data "pm25Before" (PInt 0));
  pm25_after ← py_float (dict_get analysis_data "pm25After" (PInt 0));
  pm25_increase ← py_float (dict_get analysis_data "pm25IncreasePercent" (PInt 0));
  let vegetation_loss :=
    if float_truthy ndvi_before && float_truthy ndvi_after
    then fmul (fsub ndvi_before ndvi_after) f100
    else S754_zero false in
  Ok {| ndvi_before := ndvi_before; ndvi_after := ndvi_after;
        pm25_before := pm25_before; pm25_after := pm25_after;
        pm25_increase := pm25_increase; vegetation_loss := vegetation_loss |}.

(** Lines 145-149. *)
Definition prepare_demographics (analysis_data : gmap string pyobj)
  : res demographic_args :=
  demographics ← as_dict (dict_get analysis_data "demographics" (PDict ∅));
  children ← py_int (dict_get demographics "kids" (PInt 0));
  adults ← py_int (dict_get demographics "adults" (PInt 0));
  seniors ← py_int (dict_get demographics "seniors" (PInt 0));
  total_affected ← py_int (dict_get analysis_data "affectedPopulation10MinWalk" (PInt 0));
  Ok {| children := children; adults := adults; seniors := seniors;
        total_affected := total_affected |}.

(** The fifteen arguments of [tx.add_arguments], lines 253-269. *)
Definition transaction_arguments (proposal_data : gmap string pyobj)
    (description : pystr) (end_timestamp : float)
    (e : environmental_args) (d : demographic_args) (account_address : pystr)
  : res (list cadence_arg) :=
  park_name ← getitem proposal_data "parkName";
  park_id ← getitem proposal_data "parkId";
  end_date ← to_ufix64 end_timestamp;
  a_ndvi_before ← to_ufix64 (ndvi_before e);
  a_ndvi_after ← to_ufix64 (ndvi_after e);
  a_pm25_before ← to_ufix64 (pm25_before e);
  a_pm25_after ← to_ufix64 (pm25_after e);
  a_pm25_increase ← to_ufix64 (pm25_increase e);
  a_vegetation_loss ← to_ufix64 (vegetation_loss e);
  Ok [ CString park_name; CString park_id; CString (PStr description);
       CUFix64 end_date;
       CUFix64 a_ndvi_before; CUFix64 a_ndvi_after;
       CUFix64 a_pm25_before; CUFix64 a_pm25_after;
       CUFix64 a_pm25_increase; CUFix64 a_vegetation_loss;
       CUInt64 (children d); CUInt64 (adults d); CUInt64 (seniors d);
       CUInt64 (total_affected d);
       CAddress account_address ].

(** [is_connected] *)
Definition is_connected (env : Env) : io bool :=
  try_except (_ ← call Ping (ping env); mret true) (fun _ => mret false).

Definition explorer_url_of (self : FlowBlockchainService) (tx_id : pystr) : pystr :=
  explorer_base_url self ++ u "/transaction/" ++ tx_id.

(** The loop of lines 287-321.  [fuel] is [max_attempts - attempt]: the
    loop runs while [attempt < max_attempts]. *)
Fixpoint poll_loop (self : FlowBlockchainService) (env : Env) (tx_id : pystr)
    (fuel attempt : nat) : io submission_result :=
  match fuel with
  | O =>
      mret (Failed (u "Transaction timeout - please check explorer")
                   (Some tx_id) (Some (explorer_url_of self tx_id)))
  | S fuel' =>
      _ ← call (Sleep 2) (Ok tt);
      tx_result_response ← call (GetTransactionResult tx_id)
                                (get_transaction_result env attempt);
      if 4 <=? status tx_result_response then
        if truthy (PStr (error_message tx_result_response)) then
          mret (Failed (u "Transaction failed: " ++ error_message tx_result_response)
                       (Some tx_id) None)
        else
          proposal_id ← get_total_proposals self (total_proposals_script env);
          mret (Succeeded tx_id proposal_id (status_code tx_result_response)
                          (explorer_url_of self tx_id))
      else poll_loop self env tx_id fuel' (S attempt)
  end.

Definition poll_for_seal (self : FlowBlockchainService) (env : Env) (tx_id : pystr)
  : io submission_result :=
  poll_loop self env tx_id (max_attempts - 0) 0.

(** [n] turns of the loop: a sleep of two seconds, then one query. *)
Definition polls (tx_id : pystr) (n : nat) : list event :=
  concat (repeat [Sleep 2; GetTransactionResult tx_id] n).

(** The answers [first], ..., [first + n - 1] report a transaction that is
    not sealed. *)
Definition unsealed (env : Env) (first n : nat) : Prop :=
  forall k, (k < n)%nat ->
    exists r, get_transaction_result env (first + k) = Ok r /\ status r < 4.

(** The id [get_total_proposals] returns. *)
Definition total_proposals (self : FlowBlockchainService) (env : Env) : Z :=
  match snd (get_total_proposals self (total_proposals_script env)) with
  | Ok n => n
  | Raise _ => 0
  end.

(** [account.keys[0]] *)
Definition first_key (account : Account) : res account_key :=
  match keys account with
  | k :: _ => Ok k
  | [] => Raise (u "list index out of range")
  end.

(** The body of the [try] of [create_proposal_on_blockchain]. *)
Definition create_proposal_body (self : FlowBlockchainService) (env : Env)
    (proposal_data : gmap string pyobj) : io submission_result :=
  connected ← is_connected env;
  if negb connected then
    mret (Failed (u "Not connected to Flow blockchain") None None)
  else
  match truthy (PStr (address self)), signer self with
  | false, _ | _, None => mret (Failed (u "Flow account not configured") None None)
  | true, Some the_signer =>
      analysis_obj ← pure (getitem proposal_data "analysisData");
      end_date_str ← pure (getitem proposal_data "endDate");
      let end_timestamp := normalize_end_date (clock env) end_date_str in
      analysis_data ← pure (as_dict analysis_obj);
      e ← pure (prepare_environmental_data analysis_data);
      d ← pure (prepare_demographics analysis_data);
      full_summary ← pure (getitem proposal_data "proposalSummary");
      description ← _generate_blockchain_summary (summarizer env) full_summary analysis_data;
      account_address ← pure (address_from_hex (address self));
      account ← call (GetAccount account_address) (get_account_at_latest_block env);
      account_balance ← pure (py_float (PInt (balance account)));
      let balance := fdiv account_balance f1e8 in
      if fltb balance f0_001 then
        mret (Failed (u "Insufficient balance: " ++ format_4f balance ++ u " FLOW")
                     None None)
      else
        latest_block ← call GetLatestBlock (get_latest_block env);
        key0 ← pure (first_key account);
        args ← pure (transaction_arguments proposal_data description end_timestamp
                       e d account_address);
        let tx :=
          {| tx_code := CreateProposalTx (contract_addr self);
             reference_block_id := latest_block;
             payer := account_address;
             proposal_key := {| key_address := account_address; key_id := 0;
                                key_sequence_number := sequence_number key0 |};
             authorizers := [account_address];
             arguments := args;
             envelope_signature := Some (account_address, 0, the_signer) |} in
        tx_id ← call (SendTransaction tx) (send_transaction env tx);
        poll_for_seal self env tx_id
  end.

(** [create_proposal_on_blockchain]: every exception of the body becomes a
    failure result holding its message. *)
Definition create_proposal_on_blockchain (self : FlowBlockchainService) (env : Env)
    (proposal_data : gmap string pyobj) : io submission_result :=
  try_except (create_proposal_body self env proposal_data)
             (fun e => mret (Failed e None None)).

End Create.

End Submission.

(* ===================================================================== *)
(** * Query service: [_parse_proposal_result] and [get_proposal] *)
(* ===================================================================== *)

Module Query.
Import Service Codec Counter.

Record environmental_data : Type := {
  ndviBefore : float;
  ndviAfter : float;
  pm25Before : float;
  pm25After : float;
  pm25IncreasePercent : float;
  vegetationLossPercent : float
}.

Record demographics_data : Type := {
  children : Z;
  adults : Z;
  seniors : Z;
  totalAffectedPopulation : Z
}.

(** The dictionary [_parse_proposal_result] returns. *)
Record proposal : Type := {
  id : Z;
  parkName : pystr;
  parkId : pystr;
  description : pystr;
  yesVotes : Z;
  noVotes : Z;
  endDate : Z;
  creator : pystr;
  status : pystr;
  environmentalData : environmental_data;
  demographics : demographics_data
}.

(** [get_field_value] of [_parse_proposal_result]; [PNone] is [None]. *)
Definition get_field_value (struct : pyobj) (field_name : string) : pyobj :=
  match getattr struct "fields" with
  | Some (PDict fields) =>
      match fields !! field_name with
      | None => PNone
      | Some PNone => PNone
      | Some (PStr s) => PStr s
      | Some field_obj =>
          match getattr field_obj "value" with
          | Some v => v
          | None => field_obj
          end
      end
  | _ => PNone
  end.

(** [status_map.get(k, 'active')] *)
Definition status_map_get (k : Z) : pystr :=
  if k =? 0 then u "active"
  else if k =? 1 then u "passed"
  else if k =? 2 then u "rejected"
  else u "active".

Definition max_retries : nat := 3.

(** ["rate limited" in error_msg.lower()] *)
Definition rate_limited (error_msg : pystr) : bool :=
  contains (u "rate limited") (lower error_msg).

(** The calls of a query that is retried [retries] times: one script
    execution, then for each retry a sleep of twice the previous delay and
    one more execution. *)
Fixpoint attempts_trace (exec : event) (delay : Z) (retries : nat) : list event :=
  match retries with
  | O => [exec]
  | S k => exec :: Sleep delay :: attempts_trace exec (delay * 2) k
  end.

(** The record in which the field [name] has its default and every other
    field is as in [r]: [0], [0.0], the empty text, [active]; the [id] is
    touched only when the caller supplied none. *)
Definition without_field (name : string) (proposal_id : option Z) (r : proposal)
  : proposal :=
  let keep {A : Type} (n : string) (dflt x : A) : A :=
    if bool_decide (name = n) then dflt else x in
  {| id := match proposal_id with
           | Some _ => id r
           | None => keep "id" 0 (id r)
           end;
     parkName := keep "parkName" [] (parkName r);
     parkId := keep "parkId" [] (parkId r);
     description := keep "description" [] (description r);
     yesVotes := keep "yesVotes" 0 (yesVotes r);
     noVotes := keep "noVotes" 0 (noVotes r);
     endDate := keep "endDate" 0 (endDate r);
     creator := keep "creator" [] (creator r);
     status := keep "status" (u "active") (status r);
     environmentalData :=
       keep "environmentalData"
         {| ndviBefore := S754_zero false; ndviAfter := S754_zero false;
            pm25Before := S754_zero false; pm25After := S754_zero false;
            pm25IncreasePercent := S754_zero false;
            vegetationLossPercent := S754_zero false |}
         (environmentalData r);
     demographics :=
       keep "demographics"
         {| children := 0; adults := 0; seniors := 0; totalAffectedPopulation := 0 |}
         (demographics r) |}.

(** In [fields'] the field [name] of [fields] is missing, holds [None],
    or holds an empty optional. *)
Definition absent (fields fields' : gmap string pyobj) (name : string) : Prop :=
  fields' = delete name fields
  \/ fields' = <[name := PNone]> fields
  \/ fields' = <[name := cadence_value PNone]> fields.

(** The record of a struct without any field. *)
Definition zero_proposal (proposal_id : Z) : proposal :=
  {| id := proposal_id; parkName := []; parkId := []; description := [];
     yesVotes := 0; noVotes := 0; endDate := 0; creator := [];
     status := u "active";
     environmentalData :=
       {| ndviBefore := S754_zero false; ndviAfter := S754_zero false;
          pm25Before := S754_zero false; pm25After := S754_zero false;
          pm25IncreasePercent := S754_zero false;
          vegetationLossPercent := S754_zero false |};
     demographics :=
       {| children := 0; adults := 0; seniors := 0; totalAffectedPopulation := 0 |} |}.

Section Parse.
Context `{Platform}.

(** [str(v or '')] *)
Definition str_or_empty (v : pyobj) : pystr :=
  if truthy v then py_str v else [].

(** The body of the [try] of [_parse_proposal_result]: [Ok None] is the
    [return None] of the guards. *)
Definition parse_body (result : pyobj) (proposal_id : option Z)
  : res (option proposal) :=
  if negb (truthy result) then Ok None else
  match getattr result "value" with
  | Some PNone => Ok None
  | result_value =>
      let proposal_struct := default result result_value in
      if negb (truthy proposal_struct) then Ok None else
      proposal_id ← match proposal_id with
                    | Some i => Ok i
                    | None => uint64_to_int (get_field_value proposal_struct "id")
                    end;
      let park_name := str_or_empty (get_field_value proposal_struct "parkName") in
      let park_id := str_or_empty (get_field_value proposal_struct "parkId") in
      let description := str_or_empty (get_field_value proposal_struct "description") in
      yes_votes ← uint64_to_int (get_field_value proposal_struct "yesVotes");
      no_votes ← uint64_to_int (get_field_value proposal_struct "noVotes");
      end_date ← ufix64_to_float (get_field_value proposal_struct "endDate");
      let creator := str_or_empty (get_field_value proposal_struct "creator") in
      let status_enum := get_field_value proposal_struct "status" in
      let status_value :=
        match getattr status_enum "value" with
        | Some v => v
        | None =>
            if hasattr status_enum "rawValue"
            then get_field_value status_enum "rawValue"
            else status_enum
        end in
      status_key ← (if is_none status_value then Ok 0 else py_int status_value);
      let status := status_map_get status_key in
      let env_data := get_field_value proposal_struct "environmentalData" in
      e_ndviBefore ← ufix64_to_float (get_field_value env_data "ndviBefore");
      e_ndviAfter ← ufix64_to_float (get_field_value env_data "ndviAfter");
      e_pm25Before ← ufix64_to_float (get_field_value env_data "pm25Before");
      e_pm25After ← ufix64_to_float (get_field_value env_data "pm25After");
      e_pm25IncreasePercent ← ufix64_to_float (get_field_value env_data "pm25IncreasePercent");
      e_vegetationLossPercent ← ufix64_to_float (get_field_value env_data "vegetationLossPercent");
      let demo_data := get_field_value proposal_struct "demographics" in
      d_children ← uint64_to_int (get_field_value demo_data "children");
      d_adults ← uint64_to_int (get_field_value demo_data "adults");
      d_seniors ← uint64_to_int (get_field_value demo_data "seniors");
      d_total ← uint64_to_int (get_field_value demo_data "totalAffectedPopulation");
      end_date_int ← py_int (PFloat end_date);
      Ok (Some
        {| id := proposal_id;
           parkName := park_name;
           parkId := park_id;
           description := description;
           yesVotes := yes_votes;
           noVotes := no_votes;
           endDate := end_date_int;
           creator := creator;
           status := status;
           environmentalData :=
             {| ndviBefore := e_ndviBefore; ndviAfter := e_ndviAfter;
                pm25Before := e_pm25Before; pm25After := e_pm25After;
                pm25IncreasePercent := e_pm25IncreasePercent;
                vegetationLossPercent := e_vegetationLossPercent |};
           demographics :=
             {| children := d_children; adults := d_adults; seniors := d_seniors;
                totalAffectedPopulation := d_total |} |})
  end.

(** [_parse_proposal_result]: an exception of the body gives [None]. *)
Definition _parse_proposal_result (result : pyobj) (proposal_id : option Z)
  : option proposal :=
  match parse_body result proposal_id with
  | Ok r => r
  | Raise _ => None
  end.

(** [get_proposal]: the loop [for attempt in range(max_retries)] with its
    [retry_delay].  [answers attempt] is what the script execution of that
    attempt gives: an exception, an empty result, or the decoded value. *)
Fixpoint get_proposal_loop (self : FlowBlockchainService)
    (answers : nat -> res (option pyobj)) (proposal_id : Z)
    (attempts : list nat) (retry_delay : Z) : io (option proposal) :=
  match attempts with
  | [] => mret None
  | attempt :: rest =>
      try_except
        (result ← call (ExecuteScript (GetProposalScript (contract_addr self))
                                      [CUInt64 proposal_id])
                       (answers attempt);
         match result with
         | Some cadence_value =>
             mret (_parse_proposal_result cadence_value (Some proposal_id))
         | None => mret None
         end)
        (fun error_msg =>
           if rate_limited error_msg && (attempt <? max_retries - 1)%nat
           then
             _ ← call (Sleep retry_delay) (Ok tt);
             get_proposal_loop self answers proposal_id rest (retry_delay * 2)
           else mret None)
  end.

Definition get_proposal (self : FlowBlockchainService)
    (answers : nat -> res (option pyobj)) (proposal_id : Z) : io (option proposal) :=
  get_proposal_loop self answers proposal_id (seq 0 max_retries) 2.

End Parse.

End Query.

(* ===================================================================== *)
(** * Closure sweeper: [ProposalCloser] *)
(* ===================================================================== *)

Module Closer.
Import Service(strip_0x, getenv).

Record ProposalCloser : Type := {
  network : pystr;
  private_key_hex : option pystr;
  address : pystr;
  contract_address : pystr;
  access_node_host : pystr;
  access_node_port : pystr;
  signer : Signer
}.

(** The answers of the world to one close transaction. *)
Record CloseEnv : Type := {
  get_account_at_latest_block : res Account;
  get_latest_block : res pystr;
  send_transaction : Tx -> res pystr;
  get_transaction_result : nat -> res tx_result_response
}.

(** The answers of the world to one sweep.  [proposal_details k] and
    [closing k] answer the calls made for the [k]-th id of the list. *)
Record SweepEnv : Type := {
  active_proposals_script : res (option pyobj);
  now_timestamp : float;
  proposal_details : nat -> res (option pyobj);
  closing : nat -> CloseEnv
}.

(** The three counters of the sweep. *)
Record counts : Type := {
  closed_count : nat;
  skipped_count : nat;
  failed_count : nat
}.

Definition max_attempts : nat := 30.

Section Closer.
Context `{Platform} `{FlowSdk}.

(** [os.getenv(name)]: a [str] or [None]. *)
Definition getenv_obj (environ : gmap string pystr) (name : string) : pyobj :=
  match environ !! name with Some v => PStr v | None => PNone end.

Definition network_configs (network : pystr) : pystr * pystr :=
  if bool_decide (network = u "mainnet")
  then (u "access.mainnet.nodes.onflow.org", u "9000")
  else if bool_decide (network = u "emulator")
  then (u "localhost", u "3569")
  else (u "access.devnet.nodes.onflow.org", u "9000").

(** [ProposalCloser.__init__]: the signer is built from whatever
    [FLOW_PRIVATE_KEY] holds, and an exception of its constructor leaves
    [__init__]. *)
Definition init (environ : gmap string pystr) : res ProposalCloser :=
  let network := getenv environ "FLOW_NETWORK" (u "testnet") in
  let private_key_hex := environ !! "FLOW_PRIVATE_KEY" in
  let address := strip_0x (getenv environ "FLOW_ADDRESS" []) in
  let contract_address := strip_0x (getenv environ "FLOW_CONTRACT_ADDRESS" address) in
  let config := network_configs network in
  signer ← in_memory_signer (getenv_obj environ "FLOW_PRIVATE_KEY");
  Ok {| network := network;
        private_key_hex := private_key_hex;
        address := address;
        contract_address := contract_address;
        access_node_host := fst config;
        access_node_port := snd config;
        signer := signer |}.

(** [int(id.value) if hasattr(id, 'value') else int(id)] *)
Definition id_of (id : pyobj) : res Z :=
  match getattr id "value" with
  | Some v => py_int v
  | None => py_int id
  end.

(** [get_all_active_proposals] *)
Definition get_all_active_proposals (self : ProposalCloser)
    (answer : res (option pyobj)) : io (list Z) :=
  try_except
    (result ← call (ExecuteScript (GetAllActiveProposalsScript (contract_address self)) [])
                   answer;
     match result with
     | Some cadence_value =>
         match getattr cadence_value "value" with
         | Some v => pure (l ← py_iter v; map_res id_of l)
         | None =>
             if truthy cadence_value
             then pure (l ← py_iter cadence_value; map_res id_of l)
             else mret []
         end
     | None => mret []
     end)
    (fun _ => mret []).

(** [get_proposal_details]; [PNone] is [None]. *)
Definition get_proposal_details (self : ProposalCloser) (proposal_id : Z)
    (answer : res (option pyobj)) : io pyobj :=
  try_except
    (result ← call (ExecuteScript (GetProposalScript (contract_address self))
                                  [CUInt64 proposal_id])
                   answer;
     match result with
     | Some cadence_value => mret cadence_value
     | None => mret PNone
     end)
    (fun _ => mret PNone).

(** The loop of [close_proposal], lines 184-202. *)
Fixpoint seal_loop (env : CloseEnv) (tx_id : pystr) (fuel attempt : nat) : io bool :=
  match fuel with
  | O => mret false
  | S fuel' =>
      _ ← call (Sleep 2) (Ok tt);
      tx_result_response ← call (GetTransactionResult tx_id)
                                (get_transaction_result env attempt);
      if 4 <=? status tx_result_response then
        if truthy (PStr (error_message tx_result_response))
        then mret false else mret true
      else seal_loop env tx_id fuel' (S attempt)
  end.

(** [account.keys[0]] *)
Definition first_key (account : Account) : res account_key :=
  match keys account with
  | k :: _ => Ok k
  | [] => Raise (u "list index out of range")
  end.

(** [close_proposal] *)
Definition close_proposal (self : ProposalCloser) (env : CloseEnv) (proposal_id : Z)
  : io bool :=
  try_except
    (account_address ← pure (address_from_hex (address self));
     account ← call (GetAccount account_address) (get_account_at_latest_block env);
     latest_block ← call GetLatestBlock (get_latest_block env);
     key0 ← pure (first_key account);
     let tx :=
       {| tx_code := UpdateProposalStatusTx (contract_address self);
          reference_block_id := latest_block;
          payer := account_address;
          proposal_key := {| key_address := account_address; key_id := 0;
                             key_sequence_number := sequence_number key0 |};
          authorizers := [account_address];
          arguments := [CUInt64 proposal_id];
          envelope_signature := Some (account_address, 0, signer self) |} in
     tx_id ← call (SendTransaction tx) (send_transaction env tx);
     seal_loop env tx_id (max_attempts - 0) 0)
    (fun _ => mret false).

(** The two [fromtimestamp] calls of the log lines 247-248. *)
Definition log_dates (end_date current_time : float) : res unit :=
  if fromtimestamp_ok end_date && fromtimestamp_ok current_time
  then Ok tt else Raise (u "timestamp out of range for platform time_t").

Definition count_closed (c : counts) : counts :=
  {| closed_count := S (closed_count c); skipped_count := skipped_count c;
     failed_count := failed_count c |}.
Definition count_skipped (c : counts) : counts :=
  {| closed_count := closed_count c; skipped_count := S (skipped_count c);
     failed_count := failed_count c |}.
Definition count_failed (c : counts) : counts :=
  {| closed_count := closed_count c; skipped_count := skipped_count c;
     failed_count := S (failed_count c) |}.

(** Lines 240-244: the [value] of the [endDate] field of the fetched
    proposal; [None] on the two paths "Unexpected proposal structure" and
    "Could not extract end date from proposal". *)
Definition end_date_field_value (proposal : pyobj) : option pyobj :=
  let proposal_struct := default proposal (getattr proposal "value") in
  match getattr proposal_struct "fields" with
  | Some (PDict fields) =>
      let end_date_field := dict_get fields "endDate" PNone in
      if truthy end_date_field then getattr end_date_field "value" else None
  | _ => None
  end.

(** One turn of the loop of [close_all_active_proposals], lines 227-266,
    for the id at [position] of the list. *)
Definition sweep_step (self : ProposalCloser) (env : SweepEnv) (current_time : float)
    (position : nat) (proposal_id : Z) (c : counts) : io counts :=
  proposal ← get_proposal_details self proposal_id (proposal_details env position);
  if negb (truthy proposal) then mret (count_failed c) else
  match end_date_field_value proposal with
  | Some v =>
      raw ← pure (py_float v);
      let end_date := fdiv raw f1e8 in
      _ ← pure (log_dates end_date current_time);
      if fgtb current_time end_date then
        success ← close_proposal self (closing env position) proposal_id;
        if success : bool then mret (count_closed c) else mret (count_failed c)
      else mret (count_skipped c)
  | None => mret (count_failed c)
  end.

(** What [get_proposal_details] returns for an answer of the node. *)
Definition fetched (answer : res (option pyobj)) : pyobj :=
  match answer with
  | Ok (Some cadence_value) => cadence_value
  | _ => PNone
  end.

(** The end date of the proposal fetched with [answer] can be read: when
    the [endDate] field has a [value], it converts to a float and the two
    dates of the log lines are in the range of [fromtimestamp]. *)
Definition readable (current_time : float) (answer : res (option pyobj)) : Prop :=
  forall v,
    truthy (fetched answer) = true ->
    end_date_field_value (fetched answer) = Some v ->
    exists raw, py_float v = Ok raw /\ log_dates (fdiv raw f1e8) current_time = Ok tt.

(** Whether [close_proposal] reports success. *)
Definition close_succeeds (self : ProposalCloser) (env : CloseEnv) (proposal_id : Z)
  : bool :=
  match snd (close_proposal self env proposal_id) with
  | Ok b => b
  | Raise _ => false
  end.

(** The number of ids counted. *)
Definition counted (c : counts) : nat :=
  (closed_count c + skipped_count c + failed_count c)%nat.

(** [for proposal_id in active_proposals] *)
Fixpoint sweep_loop (self : ProposalCloser) (env : SweepEnv) (current_time : float)
    (position : nat) (active_proposals : list Z) (c : counts) : io counts :=
  match active_proposals with
  | [] => mret c
  | proposal_id :: rest =>
      c' ← sweep_step self env current_time position proposal_id c;
      sweep_loop self env current_time (S position) rest c'
  end.

(** [close_all_active_proposals].  The result is the three counts of the
    logged summary, [None] when the function returns before the loop
    because no active proposal was found. *)
Definition close_all_active_proposals (self : ProposalCloser) (env : SweepEnv)
  : io (option counts) :=
  active_proposals ← get_all_active_proposals self (active_proposals_script env);
  match active_proposals with
  | [] => mret None
  | _ :: _ =>
      let current_time := now_timestamp env in
      c ← sweep_loop self env current_time 0 active_proposals
            {| closed_count := 0; skipped_count := 0; failed_count := 0 |};
      mret (Some c)
  end.

(** [main]: build the closer, then sweep. *)
Definition main (environ : gmap string pystr) (env : SweepEnv) : io (option counts) :=
  closer ← pure (init environ);
  close_all_active_proposals closer env.

End Closer.

End Closer.

(* ===================================================================== *)
(** * A platform to run the model on *)
(* ===================================================================== *)

(** The examples evaluate the model on these instances.  They answer as
    CPython and the SDK do on the texts the examples hand them (decimal
    numerals, English dates, hexadecimal keys, UTC as the local zone) and
    are not used by any statement that quantifies over the platform. *)
Module Reference.
Import EndDate.

Definition is_digit (c : N) : bool := ((48 <=? c) && (c <=? 57))%N.

Fixpoint digits_value (acc : Z) (s : pystr) : option Z :=
  match s with
  | [] => Some acc
  | c :: s' =>
      if is_digit c then digits_value (acc * 10 + Z.of_N (c - 48)) s' else None
  end.

(** [int(s)] on an optionally signed decimal numeral between white space. *)
Definition int_of_str (s : pystr) : option Z :=
  match strip s with
  | [] => None
  | 45%N :: d :: r => Z.opp <$> digits_value 0 (d :: r)
  | 43%N :: d :: r => digits_value 0 (d :: r)
  | s' => if forallb is_digit s' then digits_value 0 s' else None
  end.

(** [float(s)] on a decimal numeral without fraction or exponent. *)
Definition float_of_str (s : pystr) : option float :=
  z ← int_of_str s;
  match float_of_Z z with
  | S754_infinity _ => None
  | f => Some f
  end.

Definition str_of_Z (z : Z) : pystr := u (NilZero.string_of_int (Z.to_int z)).

(** [str(o)] of integers, booleans and [None].  Floats and the objects of
    the SDK are not printed: they get a placeholder, and the examples do
    not print them. *)
Definition repr (o : pyobj) : pystr :=
  match o with
  | PInt z => str_of_Z z
  | PBool b => if b then u "True" else u "False"
  | PNone => u "None"
  | _ => u "<object>"
  end.

(** The integer nearest to [m * 2^e * 10^4], ties to even. *)
Definition scaled_4 (m : positive) (e : Z) : Z :=
  match e with
  | Zneg p =>
      let num := Zpos m * 10000 in
      let den := Z.shiftl 1 (Zpos p) in
      let q := num / den in
      let r := num mod den in
      if 2 * r <? den then q
      else if den <? 2 * r then q + 1
      else if Z.even q then q else q + 1
  | _ => Z.shiftl (Zpos m) e * 10000
  end.

Definition pad4 (s : pystr) : pystr := repeat 48%N (4 - length s) ++ s.

(** [f"{x:.4f}"] of a finite float. *)
Definition format_4f (x : float) : pystr :=
  match x with
  | S754_zero s => (if s then u "-" else []) ++ u "0.0000"
  | S754_finite s m e =>
      let n := scaled_4 m e in
      (if s then u "-" else []) ++ str_of_Z (n / 10000) ++ u "."
        ++ pad4 (str_of_Z (n mod 10000))
  | S754_infinity s => if s then u "-inf" else u "inf"
  | S754_nan => u "nan"
  end.

(** [fromtimestamp] accepts the years 1 to 9999. *)
Definition fromtimestamp_ok (t : float) : bool :=
  fleb (float_of_Z (-62135596800)) t && fleb t (float_of_Z 253402300799).

Definition iter_other (o : pyobj) : option (list pyobj) :=
  match o with
  | PStr s => Some (List.map (fun c => PStr [c]) s)
  | _ => None
  end.

#[export] Instance platform : Platform := {|
  Py.int_of_str := int_of_str;
  Py.float_of_str := float_of_str;
  Py.repr := repr;
  Py.format_4f := format_4f;
  Py.fromtimestamp_ok := fromtimestamp_ok;
  Py.iter_other := iter_other
|}.

Definition is_hex (c : N) : bool :=
  (is_digit c || (97 <=? c) && (c <=? 102) || (65 <=? c) && (c <=? 70))%N.

(** [InMemorySigner]: [bytes.fromhex] refuses what is not a [str] of
    hexadecimal digits, and the P-256 key has 32 bytes. *)
Definition in_memory_signer (private_key_hex : pyobj) : res Signer :=
  match private_key_hex with
  | PStr k =>
      if forallb is_hex k && (length k =? 64)%nat
      then Ok {| signer_private_key_hex := k |}
      else Raise (u "Invalid length of private key")
  | _ => Raise (u "fromhex() argument must be str, not NoneType")
  end.

(** [Address.from_hex]: at most 8 bytes of hexadecimal digits. *)
Definition address_from_hex (s : pystr) : res pystr :=
  if forallb is_hex s && Nat.even (length s) && (length s <=? 16)%nat
  then Ok (repeat 48%N (16 - length s) ++ lower s)
  else Raise (u "non-hexadecimal number found in fromhex() arg").

#[export] Instance sdk : FlowSdk := {|
  Ledger.in_memory_signer := in_memory_signer;
  Ledger.address_from_hex := address_from_hex
|}.

Definition month_names : list string :=
  ["january"; "february"; "march"; "april"; "may"; "june"; "july"; "august";
   "september"; "october"; "november"; "december"]%string.

Fixpoint match_month (names : list string) (index : Z) (s : pystr)
  : option (Z * pystr) :=
  match names with
  | [] => None
  | n :: names' =>
      if startswith (u n) (lower s) then Some (index, drop (length (u n)) s)
      else match_month names' (index + 1) s
  end.

(** One or more white-space characters. *)
Definition spaces1 (s : pystr) : option pystr :=
  match s with
  | c :: s' => if isspace c then Some (lstrip s') else None
  | [] => None
  end.

(** The day of the month: [3[0-1]|[1-2]\d|0[1-9]|[1-9]] before a comma. *)
Definition match_day (s : pystr) : option (Z * pystr) :=
  match s with
  | a :: b :: 44%N :: s' =>
      if is_digit a && is_digit b then
        let d := Z.of_N (a - 48) * 10 + Z.of_N (b - 48) in
        if (1 <=? d) && (d <=? 31) then Some (d, s') else None
      else None
  | a :: 44%N :: s' =>
      if is_digit a && negb (a =? 48)%N then Some (Z.of_N (a - 48), s') else None
  | _ => None
  end.

Definition match_year (s : pystr) : option Z :=
  match s with
  | [a; b; c; d] => if forallb is_digit s then digits_value 0 s else None
  | _ => None
  end.

Definition is_leap (y : Z) : bool :=
  (y mod 4 =? 0) && (negb (y mod 100 =? 0) || (y mod 400 =? 0)).

Definition days_in_month (y m : Z) : Z :=
  if m =? 2 then (if is_leap y then 29 else 28)
  else if (m =? 4) || (m =? 6) || (m =? 9) || (m =? 11) then 30 else 31.

(** [datetime.strptime(s, "%B %d, %Y")] *)
Definition strptime_BdY (s : pystr) : option datetime :=
  '(m, s1) ← match_month month_names 1 s;
  s2 ← spaces1 s1;
  '(d, s3) ← match_day s2;
  s4 ← spaces1 s3;
  y ← match_year s4;
  if (1 <=? y) && (d <=? days_in_month y m)
  then Some {| year := y; month := m; day := d;
               hour := 0; minute := 0; second := 0; microsecond := 0 |}
  else None.

(** Days from 1970-01-01 to a date of the proleptic Gregorian calendar. *)
Definition days_from_civil (y m d : Z) : Z :=
  let y' := if m <=? 2 then y - 1 else y in
  let era := y' / 400 in
  let yoe := y' - era * 400 in
  let doy := (153 * (if 2 <? m then m - 3 else m + 9) + 2) / 5 + d - 1 in
  let doe := yoe * 365 + yoe / 4 - yoe / 100 + doy in
  era * 146097 + doe - 719468.

(** [d.timestamp()] with UTC as the local time zone.  The library looks a
    day back from the date, and raises when that leaves year 1. *)
Definition timestamp (d : datetime) : option float :=
  let seconds := days_from_civil (year d) (month d) (day d) * 86400
                 + hour d * 3600 + minute d * 60 + second d in
  if seconds - 86400 <? days_from_civil 1 1 1 * 86400 then None
  else Some (fadd (float_of_Z seconds)
                  (fdiv (float_of_Z (microsecond d)) (float_of_Z 1000000))).

#[export] Instance calendar : Calendar := {|
  EndDate.strptime_BdY := strptime_BdY;
  EndDate.timestamp := timestamp
|}.

End Reference.

(* ===================================================================== *)
(** * Example data *)
(* ===================================================================== *)

Module Examples.
Import Reference.

(** The float written as the decimal [n / d]. *)
Definition decimal (n d : Z) : float := fdiv (float_of_Z n) (float_of_Z d).

(** The clock: 2025-11-03 15:25:25 UTC, one second later at each reading. *)
Definition example_clock (k : nat) : float := float_of_Z (1762183525 + Z.of_nat k).

Definition example_key : pystr :=
  u "6b1f0c2d3e4a59687766554433221100ffeeddccbbaa99887766554433221100".

Definition example_environ : gmap string pystr :=
  list_to_map [ ("FLOW_NETWORK"%string, u "testnet");
                ("FLOW_PRIVATE_KEY"%string, example_key);
                ("FLOW_ADDRESS"%string, u "0x0123456789abcdef") ].

(** The same configuration without a private key. *)
Definition keyless_environ : gmap string pystr :=
  delete "FLOW_PRIVATE_KEY" example_environ.

Definition example_service : Service.FlowBlockchainService :=
  Service.init example_environ true.

(** The draft of the scenario of the specification, with an end date. *)
Definition example_analysis : gmap string pyobj :=
  list_to_map
    [ ("parkName"%string, PStr (u "Rock Creek Park"));
      ("ndviBefore"%string, PFloat (decimal 70 100));
      ("ndviAfter"%string, PFloat (decimal 20 100));
      ("pm25Before"%string, PFloat (decimal 8 1));
      ("pm25After"%string, PFloat (decimal 14 1));
      ("pm25IncreasePercent"%string, PFloat (decimal 75 1));
      ("vegetationLossPercent"%string, PFloat (decimal 50 1));
      ("demographics"%string,
        PDict (list_to_map [ ("kids"%string, PInt 1200);
                             ("adults"%string, PInt 3000);
                             ("seniors"%string, PInt 800) ]));
      ("affectedPopulation10MinWalk"%string, PInt 5000) ].

Definition example_proposal_data : gmap string pyobj :=
  list_to_map
    [ ("parkName"%string, PStr (u "Rock Creek Park"));
      ("parkId"%string, PStr (u "rock-creek"));
      ("proposalSummary"%string, PStr (u "COMMUNITY PROPOSAL: PARK PROTECTION INITIATIVE"));
      ("endDate"%string, PStr (u "November 30, 2025"));
      ("analysisData"%string, PDict example_analysis) ].

Definition pending : tx_result_response :=
  {| status := 1; status_code := 0; error_message := [] |}.
Definition sealed : tx_result_response :=
  {| status := 4; status_code := 0; error_message := [] |}.
Definition reverted : tx_result_response :=
  {| status := 4; status_code := 1; error_message := u "panic: proposal not found" |}.

(** A world in which the transaction is sealed at the third poll and the
    counter reads 12. *)
Definition example_env : Submission.Env :=
  {| Submission.ping := Ok tt;
     Submission.clock := example_clock;
     Submission.summarizer := Ok (PStr Summary.short_answer);
     Submission.get_account_at_latest_block :=
       Ok {| balance := 1000000000; keys := [ {| sequence_number := 7 |} ] |};
     Submission.get_latest_block := Ok (u "b10c");
     Submission.send_transaction := fun _ => Ok (u "abc123");
     Submission.get_transaction_result :=
       fun k => Ok (if (k <? 2)%nat then pending else sealed);
     Submission.total_proposals_script := Ok (Some (cadence_value (PInt 12))) |}.

(** A world in which the transaction is never sealed. *)
Definition stalled_env : Submission.Env :=
  {| Submission.ping := Ok tt;
     Submission.clock := example_clock;
     Submission.summarizer := Ok (PStr Summary.short_answer);
     Submission.get_account_at_latest_block :=
       Ok {| balance := 1000000000; keys := [ {| sequence_number := 7 |} ] |};
     Submission.get_latest_block := Ok (u "b10c");
     Submission.send_transaction := fun _ => Ok (u "abc123");
     Submission.get_transaction_result := fun _ => Ok pending;
     Submission.total_proposals_script := Ok (Some (cadence_value (PInt 12))) |}.

Fixpoint first_sent (t : list event) : option Tx :=
  match t with
  | SendTransaction tx :: _ => Some tx
  | _ :: t' => first_sent t'
  | [] => None
  end.

(** The transaction the example submission sends. *)
Definition example_tx : option Tx :=
  Eval vm_compute in
    first_sent (fst (Submission.create_proposal_on_blockchain
                       example_service example_env example_proposal_data)).

(** The type tag the codec leaves in the place of the id. *)
Definition type_tag : pystr := u "A.0x01.CommunityVoting.Proposal".

(** The fields of a proposal as the node returns them, the [id] overwritten
    by the type tag. *)
Definition example_fields : gmap string pyobj :=
  list_to_map
    [ ("id"%string, PStr type_tag);
      ("parkName"%string, cadence_value (PStr (u "Rock Creek Park")));
      ("parkId"%string, cadence_value (PStr (u "rock-creek")));
      ("description"%string, cadence_value (PStr Summary.short_answer));
      ("yesVotes"%string, cadence_value (PInt 14));
      ("noVotes"%string, cadence_value (PInt 3));
      ("endDate"%string, cadence_value (PInt 176454719900000000));
      ("creator"%string, cadence_value (PStr (u "0x0123456789abcdef")));
      ("status"%string, cadence_enum (u "A.0x01.CommunityVoting.ProposalStatus") 1);
      ("environmentalData"%string,
        cadence_struct (u "A.0x01.CommunityVoting.EnvironmentalData")
          (list_to_map [ ("ndviBefore"%string, cadence_value (PInt 70000000));
                         ("ndviAfter"%string, cadence_value (PInt 20000000));
                         ("pm25Before"%string, cadence_value (PInt 800000000));
                         ("pm25After"%string, cadence_value (PInt 1400000000));
                         ("pm25IncreasePercent"%string, cadence_value (PInt 7500000000));
                         ("vegetationLossPercent"%string, cadence_value (PInt 4999999999)) ]));
      ("demographics"%string,
        cadence_struct (u "A.0x01.CommunityVoting.Demographics")
          (list_to_map [ ("children"%string, cadence_value (PInt 1200));
                         ("adults"%string, cadence_value (PInt 3000));
                         ("seniors"%string, cadence_value (PInt 800));
                         ("totalAffectedPopulation"%string, cadence_value (PInt 5000)) ])) ].

Definition example_struct (fields : gmap string pyobj) : pyobj :=
  cadence_value (cadence_struct type_tag fields).

(** A node that is rate limited twice and then answers. *)
Definition throttled_answers (attempt : nat) : res (option pyobj) :=
  if (attempt <? 2)%nat then Raise (u "GRPC error: Rate Limited, slow down")
  else Ok (Some (example_struct example_fields)).

(** A node that is rate limited at every attempt. *)
Definition always_throttled (attempt : nat) : res (option pyobj) :=
  Raise (u "rate limited").

(** A node that refuses the connection. *)
Definition unreachable_answers (attempt : nat) : res (option pyobj) :=
  Raise (u "connection refused").

(** The closer and the sweep of the scenario of the specification: the end
    date of A has passed, that of B has not, C is not fetched. *)
Definition example_closer : Closer.ProposalCloser :=
  {| Closer.network := u "testnet";
     Closer.private_key_hex := Some example_key;
     Closer.address := u "0123456789abcdef";
     Closer.contract_address := u "0123456789abcdef";
     Closer.access_node_host := u "access.devnet.nodes.onflow.org";
     Closer.access_node_port := u "9000";
     Closer.signer := {| signer_private_key_hex := example_key |} |}.

Definition proposal_ending (raw : Z) : pyobj :=
  example_struct (<["endDate" := cadence_value (PInt raw)]> example_fields).

Definition sealing_close_env : Closer.CloseEnv :=
  {| Closer.get_account_at_latest_block :=
       Ok {| balance := 1000000000; keys := [ {| sequence_number := 8 |} ] |};
     Closer.get_latest_block := Ok (u "b10d");
     Closer.send_transaction := fun _ => Ok (u "def456");
     Closer.get_transaction_result := fun _ => Ok sealed |}.

Definition example_sweep : Closer.SweepEnv :=
  {| Closer.active_proposals_script :=
       Ok (Some (cadence_value
                   (PList [cadence_value (PInt 1); cadence_value (PInt 2);
                           cadence_value (PInt 3)])));
     Closer.now_timestamp := example_clock 0;
     Closer.proposal_details := fun k =>
       match k with
       | O => Ok (Some (proposal_ending 176209919900000000))
       | S O => Ok (Some (proposal_ending 176454719900000000))
       | _ => Raise (u "connection refused")
       end;
     Closer.closing := fun _ => sealing_close_env |}.

End Examples.

(* ===================================================================== *)
(** * The rest of [FlowBlockchainService] and its callers in [main.py] *)
(* ===================================================================== *)

Module Account.
Import Service.

Section Balance.
Context `{Platform} `{FlowSdk}.

(** [get_balance].  [answer] is what [get_account_at_latest_block] gives. *)
Definition get_balance (self : FlowBlockchainService) (answer : res Ledger.Account)
  : io float :=
  if negb (truthy (PStr (address self))) then mret (S754_zero false)
  else
    try_except
      (account_address ← pure (address_from_hex (address self));
       account ← call (GetAccount account_address) answer;
       account_balance ← pure (py_float (PInt (balance account)));
       mret (fdiv account_balance f1e8))
      (fun _ => mret (S754_zero false)).

End Balance.

End Account.

Module Listing.
Import Service Counter.

Section Listing.
Context `{Platform}.

(** [int(id.value) if hasattr(id, 'value') else int(id)] *)
Definition id_of (id : pyobj) : res Z :=
  match getattr id "value" with
  | Some v => py_int v
  | None => py_int id
  end.

(** [FlowBlockchainService.get_all_active_proposals] *)
Definition get_all_active_proposals (self : FlowBlockchainService)
    (answer : res (option pyobj)) : io (list Z) :=
  try_except
    (result ← call (ExecuteScript (GetAllActiveProposalsScript (contract_addr self)) [])
                   answer;
     match result with
     | Some cadence_value =>
         match getattr cadence_value "value" with
         | Some v => pure (l ← py_iter v; map_res id_of l)
         | None =>
             if truthy cadence_value
             then pure (l ← py_iter cadence_value; map_res id_of l)
             else mret []
         end
     | None => mret []
     end)
    (fun _ => mret []).

End Listing.

End Listing.

(** The endpoints of [main.py] that use the service. *)
Module Api.
Import Service Query.

(** What [GET /api/proposals] returns: [success] false with [error], or
    [success] true with [proposals] and [count]. *)
Inductive listing_result : Type :=
| ListingFailed (error : pystr)
| Listed (proposals : list proposal) (count : nat).

(** The answers of the world to one request for the list: [fetch k] answers
    the attempts of the query for the [k]-th active id. *)
Record ListingEnv : Type := {
  environ : gmap string pystr;
  FLOW_SDK_AVAILABLE : bool;
  ping : res unit;
  active_proposals_script : res (option pyobj);
  fetch : nat -> nat -> res (option pyobj)
}.

Section Endpoints.
Context `{Platform} `{FlowSdk}.

(** [is_connected], for the answer to the ping. *)
Definition is_connected (ping : res unit) : io bool :=
  try_except (_ ← call Ping ping; mret true) (fun _ => mret false).

(** The loop of [get_proposals]: a proposal is appended when the query
    returns one. *)
Fixpoint collect (self : FlowBlockchainService) (env : ListingEnv) (position : nat)
    (active_proposal_ids : list Z) : io (list proposal) :=
  match active_proposal_ids with
  | [] => mret []
  | proposal_id :: rest =>
      proposal_data ← try_except
                        (get_proposal self (fetch env position) proposal_id)
                        (fun _ => mret None);
      proposals ← collect self env (S position) rest;
      mret (match proposal_data with
            | Some p => p :: proposals
            | None => proposals
            end)
  end.

(** [get_proposals] *)
Definition get_proposals (env : ListingEnv) : io listing_result :=
  try_except
    (let blockchain_service := Service.init (environ env) (FLOW_SDK_AVAILABLE env) in
     connected ← is_connected (ping env);
     if negb connected then mret (ListingFailed (u "Flow blockchain not connected"))
     else
       active_proposal_ids ←
         Listing.get_all_active_proposals blockchain_service (active_proposals_script env);
       proposals ← collect blockchain_service env 0 active_proposal_ids;
       mret (Listed proposals (length proposals)))
    (fun e => mret (ListingFailed e)).

(** What [GET /api/proposals/{proposal_id}] returns: [success] false with
    [error], or [success] true with [proposal]. *)
Inductive details_result : Type :=
| DetailsFailed (error : pystr)
| Details (proposal : proposal).

(** [get_proposal_details]; [answers] are the answers to the attempts of
    the query. *)
Definition get_proposal_details (environ : gmap string pystr)
    (FLOW_SDK_AVAILABLE : bool) (ping : res unit)
    (answers : nat -> res (option pyobj)) (proposal_id : Z) : io details_result :=
  try_except
    (let blockchain_service := Service.init environ FLOW_SDK_AVAILABLE in
     connected ← is_connected ping;
     if negb connected then mret (DetailsFailed (u "Flow blockchain not connected"))
     else
       proposal ← get_proposal blockchain_service answers proposal_id;
       match proposal with
       | Some p => mret (Details p)
       | None => mret (DetailsFailed (u "Proposal not found"))
       end)
    (fun e => mret (DetailsFailed e)).

(** [create_proposal]; [ping] answers the check of the endpoint, [env] the
    calls of the submission, which checks the connection again. *)
Definition create_proposal `{EndDate.Calendar} (environ : gmap string pystr)
    (FLOW_SDK_AVAILABLE : bool) (ping : res unit) (env : Submission.Env)
    (proposal_data : gmap string pyobj) : io Submission.submission_result :=
  try_except
    (let blockchain_service := Service.init environ FLOW_SDK_AVAILABLE in
     connected ← is_connected ping;
     if negb connected
     then mret (Submission.Failed (u "Flow blockchain not connected") None None)
     else Submission.create_proposal_on_blockchain blockchain_service env proposal_data)
    (fun e => mret (Submission.Failed e None None)).

End Endpoints.

End Api.

(** ** Vocabulary of the statements about traces *)

Module Trace.

(** The transactions of the [SendTransaction] calls of a trace. *)
Fixpoint sent_transactions (t : list event) : list Tx :=
  match t with
  | SendTransaction tx :: t' => tx :: sent_transactions t'
  | _ :: t' => sent_transactions t'
  | [] => []
  end.

(** The ids the [getProposal] script was executed for. *)
Fixpoint fetched_ids (t : list event) : list Z :=
  match t with
  | ExecuteScript (GetProposalScript _) [CUInt64 n] :: t' => n :: fetched_ids t'
  | _ :: t' => fetched_ids t'
  | [] => []
  end.

(** The seconds slept. *)
Fixpoint slept (t : list event) : Z :=
  match t with
  | Sleep s :: t' => s + slept t'
  | _ :: t' => slept t'
  | [] => 0
  end.

(** The calls of a submission up to the sending of the transaction. *)
Definition before_send (account_address : pystr) : list event :=
  [Ping; Summarize; GetAccount account_address; GetLatestBlock].

(** A decoded array of [UInt64]. *)
Definition cadence_ids (ids : list Z) : pyobj :=
  cadence_value (PList (List.map (fun n => cadence_value (PInt n)) ids)).

End Trace.

(* ===================================================================== *)
(** * The sweep as the specification words it *)
(* ===================================================================== *)

(** Modelled from the spec: section 4.6, steps 2 to 5, to be compared with
    [Closer.sweep_loop].  For each id the details are fetched; an id whose
    details are not fetched or whose end date is not extracted is failed;
    an id with [now > endDate] gets a close transaction and is closed when
    the transaction succeeds and failed when it does not; any other id is
    skipped and no close transaction is issued for it. *)
Module SweepSpec.
Import Closer.





Section Spec.
Context `{Platform} `{FlowSdk}.






End Spec.

End SweepSpec.

(* ===================================================================== *)
(** * Further scenarios *)
(* ===================================================================== *)

Module Scenarios.
Import Reference Examples.

(** A world in which the second poll of the submission raises. *)
Definition poll_failing_env : Submission.Env :=
  {| Submission.ping := Ok tt;
     Submission.clock := example_clock;
     Submission.summarizer := Ok (PStr Summary.short_answer);
     Submission.get_account_at_latest_block :=
       Ok {| balance := 1000000000; keys := [ {| sequence_number := 7 |} ] |};
     Submission.get_latest_block := Ok (u "b10c");
     Submission.send_transaction := fun _ => Ok (u "abc123");
     Submission.get_transaction_result :=
       fun k => match k with
                | O => Ok pending
                | _ => Raise (u "deadline exceeded")
                end;
     Submission.total_proposals_script := Ok (Some (cadence_value (PInt 12))) |}.

(** A request for the list when two ids are active and the second is not
    found. *)
Definition example_listing : Api.ListingEnv :=
  {| Api.environ := example_environ;
     Api.FLOW_SDK_AVAILABLE := true;
     Api.ping := Ok tt;
     Api.active_proposals_script := Ok (Some (Trace.cadence_ids [7; 8]));
     Api.fetch := fun k _ =>
       match k with
       | O => Ok (Some (example_struct example_fields))
       | _ => Ok None
       end |}.

(** A sweep in which the end date of the second proposal holds a text. *)
Definition garbled_sweep : Closer.SweepEnv :=
  {| Closer.active_proposals_script := Ok (Some (Trace.cadence_ids [1; 2; 3]));
     Closer.now_timestamp := example_clock 0;
     Closer.proposal_details := fun k =>
       match k with
       | O => Ok (Some (proposal_ending 176209919900000000))
       | _ => Ok (Some (example_struct
                          (<["endDate" := cadence_value (PStr (u "soon"))]>
                             example_fields)))
       end;
     Closer.closing := fun _ => sealing_close_env |}.

(** A sweep against a node that cannot be reached. *)
Definition unreachable_sweep : Closer.SweepEnv :=
  {| Closer.active_proposals_script := Raise (u "connection refused");
     Closer.now_timestamp := example_clock 0;
     Closer.proposal_details := fun _ => Raise (u "connection refused");
     Closer.closing := fun _ => sealing_close_env |}.

(** An analysis that names the park and holds no measurement. *)
Definition plain_analysis : gmap string pyobj :=
  {[ "parkName" := PStr (u "Rock Creek Park") ]}.

(** The transaction the example sweep sends. *)
Definition example_close_tx : option Tx :=
  Eval vm_compute in
    first_sent (fst (Closer.close_all_active_proposals example_closer example_sweep)).

End Scenarios.

(* ===================================================================== *)
(** * Properties *)
(* ===================================================================== *)

(** ** Floats and the two monads *)

Lemma SFcompare_antisym (a b : float) :
  SFcompare a b = option_map CompOpp (SFcompare b a).
Proof.
  destruct a as [sa|sa| |sa ma ea], b as [sb|sb| |sb mb eb]; simpl;
    try (destruct sa); try (destruct sb); try reflexivity;
    rewrite (Z.compare_antisym ea eb); destruct (ea ?= eb); simpl;
    try reflexivity;
    pose proof (Pos.compare_cont_antisym mb ma Eq) as E; simpl in E;
    rewrite <- E, ?CompOpp_involutive; reflexivity.
Qed.

(** [a < b] excludes [b <= a]. *)
Lemma fltb_not_fleb (a b : float) : fltb a b = true -> fleb b a = false.
Proof.
  unfold fltb, fleb, SFltb, SFleb. rewrite (SFcompare_antisym b a).
  destruct (SFcompare a b) as [[]|]; simpl; congruence.
Qed.

(** [a > b] is [b < a]. *)
Lemma fgtb_fltb (a b : float) : fgtb a b = fltb b a.
Proof.
  unfold fgtb, fltb, SFltb. rewrite (SFcompare_antisym b a).
  destruct (SFcompare a b) as [[]|]; reflexivity.
Qed.

(** ** End-date normalisation *)

Section EndDateFacts.
Import EndDate.
Context `{Calendar}.

Lemma apply_buffer_later (end_timestamp current_time : float) :
  fltb (fadd current_time buffer_time) end_timestamp = true ->
  apply_buffer end_timestamp current_time = end_timestamp.
Proof.
  intros L. unfold apply_buffer. rewrite (fltb_not_fleb _ _ L). reflexivity.
Qed.

Lemma apply_buffer_within (end_timestamp current_time : float) :
  fleb end_timestamp (fadd current_time buffer_time) = true ->
  apply_buffer end_timestamp current_time
  = fadd (fadd current_time thirty_days) buffer_time.
Proof. intros L. unfold apply_buffer. rewrite L. reflexivity. Qed.

(** A date that parses is submitted as the last second of that day. *)
Lemma parsed_end_timestamp_end_of_day (s : pystr) (d : datetime) :
  strptime_BdY s = Some d ->
  parsed_end_timestamp (PStr s) = timestamp (end_of_day d)
  /\ hour (end_of_day d) = 23 /\ minute (end_of_day d) = 59
  /\ second (end_of_day d) = 59.
Proof. intros E. unfold parsed_end_timestamp. rewrite E. auto. Qed.

(** C1.  The end timestamp of a draft whose end date parses and lies more
    than one hour after the current time is the timestamp parsed from it;
    when the parsed timestamp is not later than the current time plus the
    one-hour buffer (in the past, or inside the buffer) the end timestamp
    is now + 30 days + 1 hour; when the end date does not parse the default
    is now + 30 days, and it is the end timestamp submitted as soon as it
    is later than the second clock reading plus the buffer. *)
Theorem end_date_normalization (clock : nat -> float) (end_date_str : pyobj) :
  (forall t, parsed_end_timestamp end_date_str = Some t ->
     fltb (fadd (clock 0%nat) buffer_time) t = true ->
     normalize_end_date clock end_date_str = t)
  /\ (forall t, parsed_end_timestamp end_date_str = Some t ->
     fleb t (fadd (clock 0%nat) buffer_time) = true ->
     normalize_end_date clock end_date_str
     = fadd (fadd (clock 0%nat) thirty_days) buffer_time)
  /\ (parsed_end_timestamp end_date_str = None ->
     fst (initial_end_timestamp clock end_date_str) = fadd (clock 0%nat) thirty_days
     /\ (fltb (fadd (clock 1%nat) buffer_time) (fadd (clock 0%nat) thirty_days) = true ->
         normalize_end_date clock end_date_str = fadd (clock 0%nat) thirty_days)).
Proof.
  unfold normalize_end_date, initial_end_timestamp.
  split; [| split].
  - intros t E L. rewrite E. now apply apply_buffer_later.
  - intros t E L. rewrite E. now apply apply_buffer_within.
  - intros E. rewrite E. split; [reflexivity |].
    intros L. now apply apply_buffer_later.
Qed.

End EndDateFacts.


(** ** The fixed-point conversions *)

Section CodecFacts.
Import Codec.

(** Over exact decimals the two conversions are inverse on every value
    with at most 8 fractional digits. *)
Lemma spec_roundtrip_exact (n : Z) :
  (spec_ufix64ToDecimal (spec_decimalToUfix64 (inject_Z n / inject_Z 100000000))
   == inject_Z n / inject_Z 100000000)%Q.
Proof.
  unfold spec_ufix64ToDecimal, spec_decimalToUfix64.
  assert (E : (inject_Z n / inject_Z 100000000 * inject_Z 100000000 == inject_Z n)%Q)
    by (field; discriminate).
  rewrite E, Qfloor_Z. reflexivity.
Qed.

(** [f0_29] is the float nearest to 29/100. *)
Lemma f0_29_nearest : fdiv (float_of_Z 29) (float_of_Z 100) = f0_29.
Proof. vm_compute. reflexivity. Qed.

Context `{Platform}.

(** C2.  The round trip through the ledger's fixed-point format is not
    exact on the code: the float [0.29], a decimal with two fractional
    digits that is what [29000000] decodes to, is encoded by
    [int(x * 1e8)] as [28999999], which decodes to another float. *)
Theorem ufix64_roundtrip_loses_0_29 :
  ufix64_to_float (PInt 29000000) = Ok f0_29
  /\ to_ufix64 f0_29 = Ok 28999999
  /\ ufix64_to_float (PInt 28999999) <> Ok f0_29.
Proof.
  split; [vm_compute; reflexivity |].
  split; [vm_compute; reflexivity |].
  vm_compute. discriminate.
Qed.

End CodecFacts.

(** ** The summary *)

Section SummaryFacts.
Import Summary.

Lemma filler_length : length filler = 63%nat.
Proof. reflexivity. Qed.

(** What the length block does to a text of every length. *)
Lemma ensure_length_length (summary : pystr) :
  length (ensure_length summary)
  = if (length summary <? 230)%nat then (length summary + 63)%nat
    else Nat.min 240 (length summary).
Proof.
  unfold ensure_length.
  destruct (length summary <? 230)%nat eqn:A.
  - rewrite length_app, filler_length. reflexivity.
  - apply Nat.ltb_ge in A.
    destruct (240 <? length summary)%nat eqn:B.
    + rewrite length_take. reflexivity.
    + apply Nat.ltb_ge in B. lia.
Qed.

(** A text of 230 characters or more leaves the block with 230 to 240. *)
Lemma ensure_length_in_range (summary : pystr) :
  (230 <= length summary)%nat ->
  (230 <= length (ensure_length summary) <= 240)%nat.
Proof.
  intros L. rewrite ensure_length_length.
  destruct (length summary <? 230)%nat eqn:A; [apply Nat.ltb_lt in A; lia | lia].
Qed.

(** A text of less than 167 characters stays under 230, one of 178 to 229
    characters leaves the block with more than 240. *)
Lemma ensure_length_out_of_range (summary : pystr) :
  ((length summary < 167)%nat -> (length (ensure_length summary) < 230)%nat)
  /\ ((177 < length summary < 230)%nat -> (240 < length (ensure_length summary))%nat).
Proof.
  rewrite ensure_length_length.
  split; intros L;
    (destruct (length summary <? 230)%nat eqn:A;
     [lia | apply Nat.ltb_ge in A; lia]).
Qed.

(** C4.  The length of the description is not always between 230 and 240:
    a summarizer answer of 26 characters is returned with the filler
    appended once, 89 characters; an answer of 229 characters is returned
    with 292; and when the summarizer fails the templated fallback is
    returned as it is, 25 characters for an empty analysis. *)
Theorem summary_length_not_enforced `{Platform}
    (full_summary : pyobj) (analysis_data : gmap string pyobj) :
  _generate_blockchain_summary (Ok (PStr short_answer)) full_summary analysis_data
    = ([Summarize], Ok (short_answer ++ filler))
  /\ length (short_answer ++ filler) = 89%nat
  /\ (exists d, _generate_blockchain_summary (Ok (PStr (repeat 120%N 229)))
                  full_summary analysis_data = ([Summarize], Ok d)
                /\ length d = 292%nat)
  /\ _generate_blockchain_summary (H := Reference.platform) (Raise (u "quota exceeded"))
       full_summary ∅ = ([Summarize], Ok (u "Park: NDVI 0" ++ [8594%N] ++ u "0, PM2.5 +0%"))
  /\ length (u "Park: NDVI 0" ++ [8594%N] ++ u "0, PM2.5 +0%") = 25%nat.
Proof.
  split; [reflexivity |].
  split; [reflexivity |].
  split; [eexists; split; [vm_compute; reflexivity | reflexivity] |].
  split; reflexivity.
Qed.

End SummaryFacts.

(** ** Calls and traces *)

Section IoFacts.

Lemma io_bind_ok {A B : Type} (t : list event) (a : A) (f : A -> io B) :
  ((t, Ok a) ≫= f : io B) = (t ++ fst (f a), snd (f a)).
Proof. unfold mbind, io_bind. destruct (f a). reflexivity. Qed.

Lemma io_bind_raise {A B : Type} (t : list event) (e : pystr) (f : A -> io B) :
  ((t, Raise e) ≫= f : io B) = (t, Raise e).
Proof. reflexivity. Qed.

Lemma io_bind_events {A B : Type} (m : io A) (f : A -> io B) (ev : event) :
  In ev (fst (m ≫= f)) ->
  In ev (fst m) \/ exists a, snd m = Ok a /\ In ev (fst (f a)).
Proof.
  destruct m as [t [a|e]].
  - rewrite io_bind_ok. simpl. rewrite in_app_iff. intros [I|I]; eauto.
  - rewrite io_bind_raise. auto.
Qed.

Lemma try_except_events {A : Type} (body : io A) (handler : pystr -> io A)
    (ev : event) :
  In ev (fst (try_except body handler)) ->
  In ev (fst body) \/ exists e, snd body = Raise e /\ In ev (fst (handler e)).
Proof.
  destruct body as [t [a|e]]; simpl; auto.
  destruct (handler e) as [t' r] eqn:E. simpl. rewrite in_app_iff.
  intros [I|I]; auto. right. exists e. rewrite E. auto.
Qed.

End IoFacts.

(** ** The submission *)

Section SubmissionFacts.
Import Service EndDate Codec Summary Counter Submission.
Context `{Platform} `{FlowSdk} `{Calendar}.

Lemma dict_get_insert_ne (d : gmap string pyobj) (k k' : string) (v dflt : pyobj) :
  k <> k' -> dict_get (<[k := v]> d) k' dflt = dict_get d k' dflt.
Proof. intros N. unfold dict_get. rewrite lookup_insert_ne by exact N. reflexivity. Qed.

Lemma prepare_environmental_data_ignores (analysis_data : gmap string pyobj) (v : pyobj) :
  prepare_environmental_data (<["vegetationLossPercent" := v]> analysis_data)
  = prepare_environmental_data analysis_data.
Proof.
  unfold prepare_environmental_data.
  rewrite !dict_get_insert_ne by discriminate. reflexivity.
Qed.

Lemma prepare_demographics_ignores (analysis_data : gmap string pyobj) (v : pyobj) :
  prepare_demographics (<["vegetationLossPercent" := v]> analysis_data)
  = prepare_demographics analysis_data.
Proof.
  unfold prepare_demographics.
  rewrite !dict_get_insert_ne by discriminate. reflexivity.
Qed.

Lemma generate_summary_ignores (response_text : res pyobj) (full_summary : pyobj)
    (analysis_data : gmap string pyobj) (v : pyobj) :
  _generate_blockchain_summary response_text full_summary
      (<["vegetationLossPercent" := v]> analysis_data)
  = _generate_blockchain_summary response_text full_summary analysis_data.
Proof.
  unfold _generate_blockchain_summary, fallback_summary.
  rewrite !dict_get_insert_ne by discriminate. reflexivity.
Qed.

(** The total-proposal counter always returns, after one script execution. *)
Lemma get_total_proposals_returns (self : FlowBlockchainService)
    (answer : res (option pyobj)) :
  exists n, get_total_proposals self answer
            = ([ExecuteScript (GetTotalProposalsScript (contract_addr self)) []], Ok n).
Proof.
  unfold get_total_proposals, call, pure.
  destruct answer as [[v|]|e]; simpl; eauto.
  destruct (getattr v "value") as [w|]; simpl.
  - destruct (py_int w); simpl; eauto.
  - destruct (py_int v); simpl; eauto.
Qed.

(** The tenth argument of the create transaction. *)
Lemma transaction_arguments_vegetation (proposal_data : gmap string pyobj)
    (description : pystr) (end_timestamp : float) (e : environmental_args)
    (d : demographic_args) (account_address : pystr) (args : list cadence_arg) :
  transaction_arguments proposal_data description end_timestamp e d account_address
    = Ok args ->
  exists raw, to_ufix64 (vegetation_loss e) = Ok raw
              /\ args !! 9%nat = Some (CUFix64 raw).
Proof.
  unfold transaction_arguments. intros E.
  repeat match type of E with
         | (mbind _ ?m = _) => destruct m eqn:?; simpl in E; [| discriminate]
         end.
  injection E as <-. eexists. split; [reflexivity | reflexivity].
Qed.

Lemma poll_loop_S (self : FlowBlockchainService) (env : Env) (tx_id : pystr)
    (fuel attempt : nat) :
  poll_loop self env tx_id (S fuel) attempt
  = (_ ← call (Sleep 2) (Ok tt);
     tx_result_response ← call (GetTransactionResult tx_id)
                               (get_transaction_result env attempt);
     if 4 <=? status tx_result_response then
       if truthy (PStr (error_message tx_result_response)) then
         mret (Failed (u "Transaction failed: " ++ error_message tx_result_response)
                      (Some tx_id) None)
       else
         proposal_id ← get_total_proposals self (total_proposals_script env);
         mret (Succeeded tx_id proposal_id (status_code tx_result_response)
                         (explorer_url_of self tx_id))
     else poll_loop self env tx_id fuel (S attempt)).
Proof. reflexivity. Qed.

Lemma poll_loop_never_sends (self : FlowBlockchainService) (env : Env)
    (tx_id : pystr) (fuel attempt : nat) (tx : Tx) :
  ~ In (SendTransaction tx) (fst (poll_loop self env tx_id fuel attempt)).
Proof.
  revert attempt. induction fuel as [|fuel IH]; intros attempt.
  - simpl. tauto.
  - rewrite poll_loop_S. unfold call. rewrite io_bind_ok. cbn [fst snd app].
    destruct (get_transaction_result env attempt) as [r|e].
    + rewrite io_bind_ok. cbn [fst snd app].
      destruct (4 <=? status r).
      * destruct (truthy (PStr (error_message r))).
        -- simpl. intros [I|[I|[]]]; discriminate.
        -- destruct (get_total_proposals_returns self (total_proposals_script env)) as [n ->].
           rewrite io_bind_ok. simpl. intros [I|[I|[I|[]]]]; discriminate.
      * intros [I|[I|I]]; try discriminate. exact (IH _ I).
    + rewrite io_bind_raise. simpl. intros [I|[I|[]]]; discriminate.
Qed.

Lemma is_connected_events (env : Env) :
  is_connected env = ([Ping], Ok (match ping env with Ok _ => true | Raise _ => false end)).
Proof. unfold is_connected, call. destruct (ping env); reflexivity. Qed.

Lemma generate_summary_events (response_text : res pyobj) (full_summary : pyobj)
    (analysis_data : gmap string pyobj) :
  exists description,
    _generate_blockchain_summary response_text full_summary analysis_data
    = ([Summarize], Ok description).
Proof.
  unfold _generate_blockchain_summary, call, pure.
  destruct response_text as [text|e]; simpl; eauto.
  destruct (stripped_text text); simpl; eauto.
Qed.

Tactic Notation "io_step" hyp(I) "as" ident(a) ident(E) :=
  apply io_bind_events in I as [I|(a & E & I)];
  [ simpl in I; try tauto; try (destruct I as [I|[]]; discriminate) | simpl in E ].

(** A create transaction that is sent carries the arguments computed from
    the environmental data prepared from [analysisData]. *)
Lemma create_sends_prepared (self : FlowBlockchainService) (env : Env)
    (proposal_data : gmap string pyobj) (tx : Tx) :
  In (SendTransaction tx) (fst (create_proposal_on_blockchain self env proposal_data)) ->
  exists analysis_data e d description end_timestamp account_address,
    getitem proposal_data "analysisData" = Ok (PDict analysis_data)
    /\ prepare_environmental_data analysis_data = Ok e
    /\ transaction_arguments proposal_data description end_timestamp e d account_address
       = Ok (arguments tx).
Proof.
  intros I. unfold create_proposal_on_blockchain in I.
  apply try_except_events in I as [I|(e & _ & I)]; [| simpl in I; tauto].
  unfold create_proposal_body in I.
  rewrite is_connected_events, io_bind_ok in I. cbn [fst snd] in I.
  apply in_app_iff in I as [I|I]; [destruct I as [I|[]]; discriminate |].
  destruct (ping env); cbn [negb] in I; [| simpl in I; tauto].
  destruct (truthy (PStr (address self))); [| simpl in I; tauto].
  destruct (signer self) as [the_signer|]; [| simpl in I; tauto].
  io_step I as analysis_obj E1. io_step I as end_date_str E2.
  io_step I as analysis_data E3. io_step I as e E4. io_step I as d E5.
  io_step I as full_summary E6.
  destruct (generate_summary_events (summarizer env) full_summary analysis_data)
    as [description G].
  rewrite G, io_bind_ok in I. cbn [fst snd] in I.
  apply in_app_iff in I as [I|I]; [destruct I as [I|[]]; discriminate |].
  io_step I as account_address E7. io_step I as account E8.
  io_step I as account_balance E9.
  destruct (fltb (fdiv account_balance f1e8) f0_001); [simpl in I; tauto |].
  io_step I as latest_block E10. io_step I as key0 E11. io_step I as args E12.
  apply io_bind_events in I as [I|(tx_id & _ & I)].
  - simpl in I. destruct I as [I|[]]. injection I as <-. cbn [arguments].
    destruct analysis_obj as [| | | | | |dict|]; try discriminate.
    injection E3 as <-.
    exists dict, e, d, description,
      (normalize_end_date (clock env) end_date_str), account_address. auto.
  - exfalso. exact (poll_loop_never_sends _ _ _ _ _ _ I).
Qed.

(** C10.  The vegetation loss submitted is derived from the two NDVI
    values: the environmental data prepared from the analysis hold
    (ndviBefore - ndviAfter) * 100 when both values are nonzero and 0 when
    one of them is zero, a missing value counting as zero; the tenth
    argument of every create transaction sent is that value in fixed-point
    encoding; and the [vegetationLossPercent] of the draft changes neither
    the calls made nor the result. *)
Theorem vegetation_loss_is_derived (self : FlowBlockchainService) (env : Env)
    (proposal_data : gmap string pyobj) :
  (forall analysis_data e,
     prepare_environmental_data analysis_data = Ok e ->
     py_float (dict_get analysis_data "ndviBefore" (PInt 0)) = Ok (ndvi_before e)
     /\ py_float (dict_get analysis_data "ndviAfter" (PInt 0)) = Ok (ndvi_after e)
     /\ vegetation_loss e
        = (if float_truthy (ndvi_before e) && float_truthy (ndvi_after e)
           then fmul (fsub (ndvi_before e) (ndvi_after e)) f100
           else S754_zero false)
     /\ (analysis_data !! "ndviBefore" = None \/ analysis_data !! "ndviAfter" = None ->
         vegetation_loss e = S754_zero false))
  /\ (forall tx,
     In (SendTransaction tx)
        (fst (create_proposal_on_blockchain self env proposal_data)) ->
     exists analysis_data e raw,
       getitem proposal_data "analysisData" = Ok (PDict analysis_data)
       /\ prepare_environmental_data analysis_data = Ok e
       /\ to_ufix64 (vegetation_loss e) = Ok raw
       /\ arguments tx !! 9%nat = Some (CUFix64 raw))
  /\ (forall analysis_data v,
     create_proposal_on_blockchain self env
       (<["analysisData" := PDict (<["vegetationLossPercent" := v]> analysis_data)]>
          proposal_data)
     = create_proposal_on_blockchain self env
       (<["analysisData" := PDict analysis_data]> proposal_data)).
Proof.
  split; [| split].
  - intros analysis_data e P. unfold prepare_environmental_data in P.
    destruct (py_float (dict_get analysis_data "ndviBefore" (PInt 0))) as [b|] eqn:Eb;
      [| discriminate].
    destruct (py_float (dict_get analysis_data "ndviAfter" (PInt 0))) as [a|] eqn:Ea;
      [| discriminate].
    simpl in P.
    repeat match type of P with
           | (mbind _ ?m = _) => destruct m eqn:?; simpl in P; [| discriminate]
           end.
    injection P as <-. cbn [ndvi_before ndvi_after vegetation_loss].
    repeat split.
    intros [M|M]; unfold dict_get in Eb, Ea; rewrite M in *; simpl in *.
    + injection Eb as <-. reflexivity.
    + injection Ea as <-. rewrite andb_false_r. reflexivity.
  - intros tx I.
    destruct (create_sends_prepared _ _ _ _ I)
      as (analysis_data & e & d & description & end_timestamp & account_address
          & G & P & T).
    destruct (transaction_arguments_vegetation _ _ _ _ _ _ _ T) as (raw & U & A).
    exists analysis_data, e, raw. auto.
  - intros analysis_data v.
    unfold create_proposal_on_blockchain, create_proposal_body, getitem, transaction_arguments, getitem.
    rewrite !lookup_insert_eq, !lookup_insert_ne by discriminate.
    rewrite is_connected_events, !io_bind_ok. cbn [fst snd].
    destruct (ping env); cbn [negb]; [| reflexivity].
    destruct (truthy (PStr (address self))); [| reflexivity].
    destruct (signer self) as [the_signer|]; [| reflexivity].
    unfold pure. rewrite !io_bind_ok. cbn [fst snd].
    destruct (proposal_data !! "endDate") as [end_date_str|]; [| reflexivity].
    rewrite !io_bind_ok. cbn [fst snd as_dict]. rewrite !io_bind_ok. cbn [fst snd].
    rewrite prepare_environmental_data_ignores, prepare_demographics_ignores.
    destruct (prepare_environmental_data analysis_data) as [e|]; [| reflexivity].
    rewrite !io_bind_ok. cbn [fst snd].
    destruct (prepare_demographics analysis_data) as [d|]; [| reflexivity].
    rewrite !io_bind_ok. cbn [fst snd].
    destruct (proposal_data !! "proposalSummary") as [full_summary|]; [| reflexivity].
    rewrite !io_bind_ok. cbn [fst snd].
    rewrite generate_summary_ignores. reflexivity.
Qed.

End SubmissionFacts.

(** ** The sealing poll *)

Section PollFacts.
Import Service Counter Submission.
Context `{Platform}.

Lemma polls_S (tx_id : pystr) (n : nat) :
  polls tx_id (S n) = Sleep 2 :: GetTransactionResult tx_id :: polls tx_id n.
Proof. reflexivity. Qed.

Lemma poll_loop_unsealed (self : FlowBlockchainService) (env : Env) (tx_id : pystr)
    (n fuel attempt : nat) :
  unsealed env attempt n ->
  poll_loop self env tx_id (n + fuel) attempt
  = (polls tx_id n ++ fst (poll_loop self env tx_id fuel (attempt + n)),
     snd (poll_loop self env tx_id fuel (attempt + n))).
Proof.
  revert attempt. induction n as [|n IH]; intros attempt U.
  - rewrite Nat.add_0_r. simpl. destruct (poll_loop self env tx_id fuel attempt).
    reflexivity.
  - destruct (U 0%nat) as (r & E & L); [lia |]. rewrite Nat.add_0_r in E.
    change (S n + fuel)%nat with (S (n + fuel)).
    rewrite poll_loop_S. unfold call. rewrite io_bind_ok. cbn [fst snd].
    rewrite E, io_bind_ok. cbn [fst snd].
    destruct (4 <=? status r) eqn:S4; [apply Z.leb_le in S4; lia |].
    rewrite IH.
    + rewrite polls_S. replace (S attempt + n)%nat with (attempt + S n)%nat by lia.
      reflexivity.
    + intros k Lk. destruct (U (S k)) as (r' & E' & L'); [lia |].
      exists r'. replace (S attempt + k)%nat with (attempt + S k)%nat by lia. auto.
Qed.

Lemma poll_loop_sealed (self : FlowBlockchainService) (env : Env) (tx_id : pystr)
    (fuel attempt : nat) (r : tx_result_response) :
  get_transaction_result env attempt = Ok r -> 4 <= status r ->
  poll_loop self env tx_id (S fuel) attempt
  = if truthy (PStr (error_message r))
    then (polls tx_id 1,
          Ok (Failed (u "Transaction failed: " ++ error_message r) (Some tx_id) None))
    else (polls tx_id 1
            ++ [ExecuteScript (GetTotalProposalsScript (contract_addr self)) []],
          Ok (Succeeded tx_id (total_proposals self env) (status_code r)
                        (explorer_url_of self tx_id))).
Proof.
  intros E L. rewrite poll_loop_S. unfold call. rewrite io_bind_ok. cbn [fst snd].
  rewrite E, io_bind_ok. cbn [fst snd].
  apply Z.leb_le in L. rewrite L.
  destruct (truthy (PStr (error_message r))); [reflexivity |].
  unfold total_proposals.
  destruct (get_total_proposals_returns self (total_proposals_script env)) as [n ->].
  reflexivity.
Qed.

Lemma poll_loop_shape (self : FlowBlockchainService) (env : Env) (tx_id : pystr)
    (fuel attempt : nat) :
  exists n rest,
    (n <= fuel)%nat
    /\ fst (poll_loop self env tx_id fuel attempt) = polls tx_id n ++ rest
    /\ (rest = [] \/ rest = [ExecuteScript (GetTotalProposalsScript (contract_addr self)) []]).
Proof.
  revert attempt. induction fuel as [|fuel IH]; intros attempt.
  - exists 0%nat, []. simpl. auto.
  - rewrite poll_loop_S. unfold call. rewrite io_bind_ok. cbn [fst snd].
    destruct (get_transaction_result env attempt) as [r|e].
    + rewrite io_bind_ok. cbn [fst snd].
      destruct (4 <=? status r).
      * destruct (truthy (PStr (error_message r))).
        -- exists 1%nat, []. split; [lia | split; [reflexivity | auto]].
        -- destruct (get_total_proposals_returns self (total_proposals_script env)) as [n ->].
           exists 1%nat, [ExecuteScript (GetTotalProposalsScript (contract_addr self)) []].
           split; [lia | split; [reflexivity | auto]].
      * destruct (IH (S attempt)) as (n & rest & L & E & R).
        exists (S n), rest. rewrite E. split; [lia | split; [reflexivity | exact R]].
    + exists 1%nat, []. split; [lia | split; [reflexivity | auto]].
Qed.

(** C3.  The poll makes at most 30 queries, each after a sleep of two
    seconds; when the [n]-th answer ([n] at most 30) is the first that
    reports status 4 or more, it returns after exactly [n] polls: a
    failure that carries the transaction hash when the answer has an error
    message, otherwise, after one call for the total-proposal count, a
    success whose proposal id is that count; when none of 30 answers
    reports it, the result is the timeout failure with the transaction
    hash and the explorer URL. *)
Theorem sealing_poll (self : FlowBlockchainService) (env : Env) (tx_id : pystr) :
  (exists n rest,
     (n <= 30)%nat
     /\ fst (poll_for_seal self env tx_id) = polls tx_id n ++ rest
     /\ (rest = [] \/ rest = [ExecuteScript (GetTotalProposalsScript (contract_addr self)) []]))
  /\ (forall n r,
       (n < 30)%nat -> unsealed env 0 n ->
       get_transaction_result env n = Ok r -> 4 <= status r ->
       poll_for_seal self env tx_id
       = if truthy (PStr (error_message r))
         then (polls tx_id (S n),
               Ok (Failed (u "Transaction failed: " ++ error_message r)
                          (Some tx_id) None))
         else (polls tx_id (S n)
                 ++ [ExecuteScript (GetTotalProposalsScript (contract_addr self)) []],
               Ok (Succeeded tx_id (total_proposals self env) (status_code r)
                             (explorer_url_of self tx_id))))
  /\ (unsealed env 0 30 ->
      poll_for_seal self env tx_id
      = (polls tx_id 30,
         Ok (Failed (u "Transaction timeout - please check explorer")
                    (Some tx_id) (Some (explorer_url_of self tx_id))))).
Proof.
  unfold poll_for_seal, max_attempts. rewrite Nat.sub_0_r.
  split; [apply poll_loop_shape | split].
  - intros n r L U E S4.
    replace 30%nat with (n + S (29 - n))%nat by lia.
    rewrite (poll_loop_unsealed _ _ _ _ _ _ U). cbn [Nat.add].
    rewrite (poll_loop_sealed _ _ _ _ _ _ E S4).
    replace (S n) with (n + 1)%nat by lia.
    unfold polls. rewrite repeat_app, concat_app.
    destruct (truthy (PStr (error_message r))); cbn [fst snd];
      rewrite <- ?app_assoc; reflexivity.
  - intros U. change 30%nat with (30 + 0)%nat.
    rewrite (poll_loop_unsealed _ _ _ _ _ _ U). simpl poll_loop. cbn [fst snd].
    rewrite app_nil_r. reflexivity.
Qed.

End PollFacts.

(** ** The read-path decoder *)

Section ParseFacts.
Import Service Codec Counter Query.
Context `{Platform}.

Lemma get_field_value_struct (s : pyobj) (fields : gmap string pyobj) (name : string) :
  is_struct s fields ->
  get_field_value s name
  = match fields !! name with
    | None => PNone
    | Some PNone => PNone
    | Some (PStr t) => PStr t
    | Some field_obj => default field_obj (getattr field_obj "value")
    end.
Proof.
  intros (attrs & -> & _ & F). unfold get_field_value. simpl. rewrite F.
  destruct (fields !! name) as [[]|]; try reflexivity;
    simpl; match goal with |- context [?m !! "value"] => destruct (m !! "value") end;
    reflexivity.
Qed.

Lemma is_struct_shape (s : pyobj) (fields : gmap string pyobj) :
  is_struct s fields -> truthy s = true /\ getattr s "value" = None.
Proof. intros (attrs & -> & V & _). auto. Qed.

Lemma cadence_struct_is_struct (type_id : pystr) (fields : gmap string pyobj) :
  is_struct (cadence_struct type_id fields) fields.
Proof. eexists. split; [reflexivity |]. split; reflexivity. Qed.

Lemma cadence_value_is_optional (v : pyobj) : is_optional (cadence_value v) v.
Proof. eexists. split; reflexivity. Qed.

(** A field that is absent reads as [None], the others as before. *)
Lemma get_field_value_absent (s s' : pyobj) (fields fields' : gmap string pyobj)
    (name other : string) :
  is_struct s fields -> is_struct s' fields' ->
  absent fields fields' name ->
  get_field_value s' other
  = if bool_decide (name = other) then PNone else get_field_value s other.
Proof.
  intros S S' A.
  rewrite (get_field_value_struct s fields) by exact S.
  rewrite (get_field_value_struct s' fields') by exact S'.
  destruct A as [-> | [-> | ->]];
    destruct (bool_decide_reflect (name = other)) as [<-|N];
    rewrite ?lookup_delete_eq, ?lookup_insert_eq,
      ?lookup_delete_ne, ?lookup_insert_ne by exact N;
    reflexivity.
Qed.

(** An optional that holds a struct is decoded as the struct. *)
Lemma parse_body_optional (o s : pyobj) (fields : gmap string pyobj)
    (proposal_id : option Z) :
  is_optional o s -> is_struct s fields ->
  parse_body o proposal_id = parse_body s proposal_id.
Proof.
  intros (attrs & -> & V) (attrs' & -> & V' & F).
  unfold parse_body. cbn [truthy negb getattr]. rewrite V, V'. reflexivity.
Qed.

Ltac res_inv P :=
  repeat match type of P with
         | context [mbind _ ?m] =>
             destruct m eqn:?; cbn [mbind res_bind] in P |- *; try discriminate P
         end.

(** What [parse_body] does to an object that has no [value] and is true. *)
Lemma parse_body_struct (s : pyobj) (proposal_id : option Z) :
  truthy s = true -> getattr s "value" = None ->
  parse_body s proposal_id
  = (proposal_id ← match proposal_id with
                   | Some i => Ok i
                   | None => uint64_to_int (get_field_value s "id")
                   end;
     yes_votes ← uint64_to_int (get_field_value s "yesVotes");
     no_votes ← uint64_to_int (get_field_value s "noVotes");
     end_date ← ufix64_to_float (get_field_value s "endDate");
     let status_enum := get_field_value s "status" in
     let status_value :=
       match getattr status_enum "value" with
       | Some v => v
       | None =>
           if hasattr status_enum "rawValue"
           then get_field_value status_enum "rawValue"
           else status_enum
       end in
     status_key ← (if is_none status_value then Ok 0 else py_int status_value);
     let env_data := get_field_value s "environmentalData" in
     e_ndviBefore ← ufix64_to_float (get_field_value env_data "ndviBefore");
     e_ndviAfter ← ufix64_to_float (get_field_value env_data "ndviAfter");
     e_pm25Before ← ufix64_to_float (get_field_value env_data "pm25Before");
     e_pm25After ← ufix64_to_float (get_field_value env_data "pm25After");
     e_pm25IncreasePercent ← ufix64_to_float (get_field_value env_data "pm25IncreasePercent");
     e_vegetationLossPercent ← ufix64_to_float (get_field_value env_data "vegetationLossPercent");
     let demo_data := get_field_value s "demographics" in
     d_children ← uint64_to_int (get_field_value demo_data "children");
     d_adults ← uint64_to_int (get_field_value demo_data "adults");
     d_seniors ← uint64_to_int (get_field_value demo_data "seniors");
     d_total ← uint64_to_int (get_field_value demo_data "totalAffectedPopulation");
     end_date_int ← py_int (PFloat end_date);
     Ok (Some
       {| id := proposal_id;
          parkName := str_or_empty (get_field_value s "parkName");
          parkId := str_or_empty (get_field_value s "parkId");
          description := str_or_empty (get_field_value s "description");
          yesVotes := yes_votes;
          noVotes := no_votes;
          endDate := end_date_int;
          creator := str_or_empty (get_field_value s "creator");
          status := status_map_get status_key;
          environmentalData :=
            {| ndviBefore := e_ndviBefore; ndviAfter := e_ndviAfter;
               pm25Before := e_pm25Before; pm25After := e_pm25After;
               pm25IncreasePercent := e_pm25IncreasePercent;
               vegetationLossPercent := e_vegetationLossPercent |};
          demographics :=
            {| children := d_children; adults := d_adults; seniors := d_seniors;
               totalAffectedPopulation := d_total |} |})).
Proof.
  intros T V. unfold parse_body. rewrite V. cbn [default]. rewrite T. reflexivity.
Qed.

(** The struct without any field decodes to the record of defaults. *)
Lemma parse_empty_struct (s : pyobj) (proposal_id : option Z) :
  is_struct s ∅ ->
  _parse_proposal_result s proposal_id = Some (zero_proposal (default 0 proposal_id)).
Proof.
  intros S. destruct (is_struct_shape s ∅ S) as (T & V).
  unfold _parse_proposal_result. rewrite (parse_body_struct s _ T V).
  rewrite !(get_field_value_struct s ∅ _ S), !lookup_empty.
  destruct proposal_id; reflexivity.
Qed.

(** With the id supplied, the decoder reads the struct only through the
    fields other than [id]. *)
Lemma parse_body_ext (s s' : pyobj) (proposal_id : Z) :
  truthy s = true -> getattr s "value" = None ->
  truthy s' = true -> getattr s' "value" = None ->
  (forall n, n <> "id" -> get_field_value s' n = get_field_value s n) ->
  parse_body s' (Some proposal_id) = parse_body s (Some proposal_id).
Proof.
  intros T V T' V' E.
  rewrite (parse_body_struct s _ T V), (parse_body_struct s' _ T' V').
  rewrite (E "yesVotes"), (E "noVotes"), (E "endDate"), (E "status"),
    (E "environmentalData"), (E "demographics"), (E "parkName"), (E "parkId"),
    (E "description"), (E "creator") by discriminate.
  reflexivity.
Qed.

(** The decoder does not read the field [id] when the caller supplies the id. *)
Lemma parse_ignores_id_field (s s' : pyobj) (fields : gmap string pyobj)
    (v v' : pyobj) (proposal_id : Z) :
  is_struct s (<["id" := v]> fields) -> is_struct s' (<["id" := v']> fields) ->
  _parse_proposal_result s (Some proposal_id)
  = _parse_proposal_result s' (Some proposal_id).
Proof.
  intros S S'. unfold _parse_proposal_result.
  destruct (is_struct_shape _ _ S) as (T & V).
  destruct (is_struct_shape _ _ S') as (T' & V').
  rewrite (parse_body_ext s' s proposal_id T' V' T V); [reflexivity |].
  intros n N.
  rewrite (get_field_value_struct _ _ n S), (get_field_value_struct _ _ n S').
  rewrite !lookup_insert_ne by congruence. reflexivity.
Qed.

(** The record returned holds the id the caller supplied. *)
Lemma parse_keeps_supplied_id (result : pyobj) (proposal_id : Z) (r : proposal) :
  _parse_proposal_result result (Some proposal_id) = Some r -> id r = proposal_id.
Proof.
  unfold _parse_proposal_result, parse_body. intros P.
  destruct (negb (truthy result)); [discriminate |].
  destruct (getattr result "value") as [[]|];
    try discriminate;
    (destruct (negb (truthy _)); [discriminate |]);
    cbn [mbind res_bind] in P; res_inv P;
    injection P as <-; reflexivity.
Qed.

Ltac decide_names :=
  repeat match goal with
         | |- context [bool_decide (?a = ?b)] =>
             first [ rewrite (bool_decide_eq_true_2 (a = b)) by reflexivity
                   | rewrite (bool_decide_eq_false_2 (a = b))
                       by (discriminate || congruence) ]
         end.

(** A decodable struct stays decodable when one of its fields becomes
    absent, and the record has the default in that place. *)
Lemma parse_absent_field (s s' : pyobj) (fields fields' : gmap string pyobj)
    (name : string) (proposal_id : option Z) (r : proposal) :
  is_struct s fields -> is_struct s' fields' ->
  absent fields fields' name ->
  _parse_proposal_result s proposal_id = Some r ->
  _parse_proposal_result s' proposal_id = Some (without_field name proposal_id r).
Proof.
  intros S S' A. unfold _parse_proposal_result.
  destruct (is_struct_shape _ _ S) as (T & V).
  destruct (is_struct_shape _ _ S') as (T' & V').
  rewrite (parse_body_struct s _ T V), (parse_body_struct s' _ T' V').
  pose proof (fun other => get_field_value_absent s s' fields fields' name other S S' A)
    as G.
  rewrite (G "id"), (G "yesVotes"), (G "noVotes"), (G "endDate"), (G "status"),
    (G "environmentalData"), (G "demographics"), (G "parkName"), (G "parkId"),
    (G "description"), (G "creator").
  clear G A S S' T V T' V'. intros P.
  unfold without_field.
  destruct (decide (name = "id")) as [->|?];
  [| destruct (decide (name = "yesVotes")) as [->|?];
  [| destruct (decide (name = "noVotes")) as [->|?];
  [| destruct (decide (name = "endDate")) as [->|?];
  [| destruct (decide (name = "status")) as [->|?];
  [| destruct (decide (name = "environmentalData")) as [->|?];
  [| destruct (decide (name = "demographics")) as [->|?];
  [| destruct (decide (name = "parkName")) as [->|?];
  [| destruct (decide (name = "parkId")) as [->|?];
  [| destruct (decide (name = "description")) as [->|?];
  [| destruct (decide (name = "creator")) as [->|?] ]]]]]]]]]];
    decide_names;
    destruct proposal_id as [i|]; cbn [mbind res_bind] in P |- *;
    res_inv P; injection P as <-; reflexivity.
Qed.

End ParseFacts.

Section QueryFacts.
Import Service Codec Counter Query.
Context `{Platform}.

Lemma get_proposal_loop_cons (self : FlowBlockchainService)
    (answers : nat -> res (option pyobj)) (proposal_id : Z)
    (attempt : nat) (rest : list nat) (retry_delay : Z) :
  let exec := ExecuteScript (GetProposalScript (contract_addr self)) [CUInt64 proposal_id] in
  get_proposal_loop self answers proposal_id (attempt :: rest) retry_delay
  = match answers attempt with
    | Ok (Some cadence_value) =>
        ([exec], Ok (_parse_proposal_result cadence_value (Some proposal_id)))
    | Ok None => ([exec], Ok None)
    | Raise error_msg =>
        if rate_limited error_msg && (attempt <? max_retries - 1)%nat
        then (exec :: Sleep retry_delay
                :: fst (get_proposal_loop self answers proposal_id rest (retry_delay * 2)),
              snd (get_proposal_loop self answers proposal_id rest (retry_delay * 2)))
        else ([exec], Ok None)
    end.
Proof.
  cbn [get_proposal_loop]. unfold call.
  destruct (answers attempt) as [[v|]|e]; try reflexivity.
  cbn [mbind io_bind try_except].
  destruct (rate_limited e && (attempt <? max_retries - 1)%nat); [| reflexivity].
  destruct (get_proposal_loop self answers proposal_id rest (retry_delay * 2)).
  reflexivity.
Qed.

(** A record returned by [get_proposal] holds the id that was asked for. *)
Lemma get_proposal_loop_id (self : FlowBlockchainService)
    (answers : nat -> res (option pyobj)) (proposal_id : Z)
    (attempts : list nat) (retry_delay : Z) (t : list event) (r : proposal) :
  get_proposal_loop self answers proposal_id attempts retry_delay = (t, Ok (Some r)) ->
  id r = proposal_id.
Proof.
  revert retry_delay t. induction attempts as [|attempt rest IH]; intros retry_delay t.
  - discriminate.
  - rewrite get_proposal_loop_cons.
    destruct (answers attempt) as [[v|]|e].
    + intros E. injection E as _ E. now apply parse_keeps_supplied_id in E.
    + discriminate.
    + destruct (rate_limited e && (attempt <? max_retries - 1)%nat); [| discriminate].
      destruct (get_proposal_loop self answers proposal_id rest (retry_delay * 2))
        as [t' r'] eqn:L.
      intros E. injection E as _ ->. exact (IH _ _ L).
Qed.

(** C6.  When the caller supplies the id, every record the decoder returns
    holds that id, also through [get_proposal]; and what the decoder
    returns for a struct, bare or inside an optional, does not depend on
    what its field [id] holds: with the type tag there the result is the
    one for any other value of the field. *)
Theorem id_override (proposal_id : Z) :
  (forall result r,
     _parse_proposal_result result (Some proposal_id) = Some r -> id r = proposal_id)
  /\ (forall self answers t r,
       get_proposal self answers proposal_id = (t, Ok (Some r)) -> id r = proposal_id)
  /\ (forall s s' o o' fields tag v,
       is_struct s (<["id" := PStr tag]> fields) -> is_struct s' (<["id" := v]> fields) ->
       is_optional o s -> is_optional o' s' ->
       _parse_proposal_result s (Some proposal_id)
         = _parse_proposal_result s' (Some proposal_id)
       /\ _parse_proposal_result o (Some proposal_id)
         = _parse_proposal_result o' (Some proposal_id)).
Proof.
  split; [intros result r; apply parse_keeps_supplied_id |].
  split; [intros self answers t r; apply get_proposal_loop_id |].
  intros s s' o o' fields tag v S S' O O'.
  assert (E := parse_ignores_id_field s s' fields (PStr tag) v proposal_id S S').
  split; [exact E |].
  unfold _parse_proposal_result in *.
  rewrite (parse_body_optional o s _ _ O S), (parse_body_optional o' s' _ _ O' S').
  exact E.
Qed.

(** C8.  A struct without any field decodes to the record of defaults; and
    when a struct decodes, it still decodes, bare or inside an optional,
    after any of its fields has become absent (missing, [None], or an
    empty optional), to the same record with the default in that place:
    0, 0.0, the empty text, [active] for the status, the zero structs for
    the environmental data and the demographics. *)
Theorem tolerant_decoding (proposal_id : option Z) :
  (forall s, is_struct s ∅ ->
     _parse_proposal_result s proposal_id
     = Some (zero_proposal (default 0 proposal_id)))
  /\ (forall s s' o' fields fields' name r,
       is_struct s fields -> is_struct s' fields' -> is_optional o' s' ->
       absent fields fields' name ->
       _parse_proposal_result s proposal_id = Some r ->
       _parse_proposal_result s' proposal_id = Some (without_field name proposal_id r)
       /\ _parse_proposal_result o' proposal_id
          = Some (without_field name proposal_id r)).
Proof.
  split; [intros s; apply parse_empty_struct |].
  intros s s' o' fields fields' name r S S' O' A P.
  assert (Q := parse_absent_field _ _ _ _ _ _ _ S S' A P).
  split; [exact Q |].
  unfold _parse_proposal_result in *.
  rewrite (parse_body_optional o' s' _ _ O' S'). exact Q.
Qed.

(** C7.  A query makes at most three script executions.  An error that is
    not a rate-limit error ends it at once with [None]; a rate-limit error
    at the first attempt is followed by a sleep of 2 seconds and a second
    attempt, one at the second attempt by a sleep of 4 seconds and a third
    attempt, and an error at the third attempt ends the query with [None]. *)
Theorem rate_limit_retry (self : FlowBlockchainService)
    (answers : nat -> res (option pyobj)) (proposal_id : Z) :
  let exec := ExecuteScript (GetProposalScript (contract_addr self)) [CUInt64 proposal_id] in
  (exists retries, (retries <= 2)%nat
     /\ fst (get_proposal self answers proposal_id) = attempts_trace exec 2 retries)
  /\ (forall m0, answers 0%nat = Raise m0 -> rate_limited m0 = false ->
      get_proposal self answers proposal_id = ([exec], Ok None))
  /\ (forall m0 m1, answers 0%nat = Raise m0 -> rate_limited m0 = true ->
      answers 1%nat = Raise m1 -> rate_limited m1 = false ->
      get_proposal self answers proposal_id = ([exec; Sleep 2; exec], Ok None))
  /\ (forall m0 m1 m2, answers 0%nat = Raise m0 -> rate_limited m0 = true ->
      answers 1%nat = Raise m1 -> rate_limited m1 = true ->
      answers 2%nat = Raise m2 ->
      get_proposal self answers proposal_id
      = ([exec; Sleep 2; exec; Sleep 4; exec], Ok None))
  /\ (forall m0 v, answers 0%nat = Raise m0 -> rate_limited m0 = true ->
      answers 1%nat = Ok (Some v) ->
      get_proposal self answers proposal_id
      = ([exec; Sleep 2; exec], Ok (_parse_proposal_result v (Some proposal_id)))).
Proof.
  intros exec. unfold get_proposal. cbn [seq max_retries].
  rewrite !get_proposal_loop_cons. fold exec.
  cbn [get_proposal_loop mret io_ret fst snd].
  split; [| split; [| split; [| split]]].
  - destruct (answers 0%nat) as [[v0|]|e0];
      [exists 0%nat; split; [lia | reflexivity] ..|].
    destruct (rate_limited e0); cbn [andb Nat.ltb Nat.leb max_retries Nat.sub];
      [| exists 0%nat; split; [lia | reflexivity]].
    destruct (answers 1%nat) as [[v1|]|e1];
      [exists 1%nat; split; [lia | reflexivity] ..|].
    destruct (rate_limited e1); cbn [andb Nat.ltb Nat.leb max_retries Nat.sub];
      [| exists 1%nat; split; [lia | reflexivity]].
    exists 2%nat. split; [lia |].
    destruct (answers 2%nat) as [[v2|]|e2]; try reflexivity.
    rewrite andb_false_r. reflexivity.
  - intros m0 -> ->. reflexivity.
  - intros m0 m1 -> -> -> ->. reflexivity.
  - intros m0 m1 m2 -> -> -> -> ->. rewrite andb_false_r. reflexivity.
  - intros m0 v -> -> ->. reflexivity.
Qed.

End QueryFacts.

(** ** The closure sweep *)

Section SweepFacts.
Import Closer.
Context `{Platform} `{FlowSdk}.

Lemma get_proposal_details_returns (self : ProposalCloser) (proposal_id : Z)
    (answer : res (option pyobj)) :
  get_proposal_details self proposal_id answer
  = ([ExecuteScript (GetProposalScript (contract_address self)) [CUInt64 proposal_id]],
     Ok (fetched answer)).
Proof. destruct answer as [[v|]|e]; reflexivity. Qed.

Lemma seal_loop_returns (env : CloseEnv) (tx_id : pystr) (fuel attempt : nat) :
  exists t, (exists b, seal_loop env tx_id fuel attempt = (t, Ok b))
            \/ (exists e, seal_loop env tx_id fuel attempt = (t, Raise e)).
Proof.
  destruct (seal_loop env tx_id fuel attempt) as [t [b|e]]; eauto.
Qed.

(** [close_proposal] always returns a truth value. *)
Lemma close_proposal_returns (self : ProposalCloser) (env : CloseEnv) (proposal_id : Z) :
  close_proposal self env proposal_id
  = (fst (close_proposal self env proposal_id),
     Ok (close_succeeds self env proposal_id)).
Proof.
  unfold close_succeeds, close_proposal.
  match goal with |- try_except ?body _ = _ => destruct body as [t [b|e]] end;
    reflexivity.
Qed.

Lemma counted_step (c : counts) :
  counted (count_closed c) = S (counted c)
  /\ counted (count_skipped c) = S (counted c)
  /\ counted (count_failed c) = S (counted c).
Proof. unfold counted. simpl. lia. Qed.

(** One turn of the loop when the fetch gives nothing usable. *)
Lemma sweep_step_failed (self : ProposalCloser) (env : SweepEnv) (current_time : float)
    (position : nat) (proposal_id : Z) (c : counts) :
  truthy (fetched (proposal_details env position)) = false
  \/ end_date_field_value (fetched (proposal_details env position)) = None ->
  sweep_step self env current_time position proposal_id c
  = ([ExecuteScript (GetProposalScript (contract_address self)) [CUInt64 proposal_id]],
     Ok (count_failed c)).
Proof.
  intros D. unfold sweep_step. rewrite get_proposal_details_returns, io_bind_ok.
  cbn [fst snd].
  destruct (truthy (fetched (proposal_details env position))); cbn [negb];
    [| reflexivity].
  destruct D as [D|D]; [discriminate |]. rewrite D. reflexivity.
Qed.

(** One turn of the loop when the end date is read. *)
Lemma sweep_step_dated (self : ProposalCloser) (env : SweepEnv) (current_time : float)
    (position : nat) (proposal_id : Z) (c : counts) (v : pyobj) (raw : float) :
  truthy (fetched (proposal_details env position)) = true ->
  end_date_field_value (fetched (proposal_details env position)) = Some v ->
  py_float v = Ok raw ->
  log_dates (fdiv raw f1e8) current_time = Ok tt ->
  sweep_step self env current_time position proposal_id c
  = if fgtb current_time (fdiv raw f1e8)
    then (ExecuteScript (GetProposalScript (contract_address self)) [CUInt64 proposal_id]
            :: fst (close_proposal self (closing env position) proposal_id),
          Ok (if close_succeeds self (closing env position) proposal_id
              then count_closed c else count_failed c))
    else ([ExecuteScript (GetProposalScript (contract_address self)) [CUInt64 proposal_id]],
          Ok (count_skipped c)).
Proof.
  intros T D F L. unfold sweep_step.
  rewrite get_proposal_details_returns, io_bind_ok. cbn [fst snd].
  rewrite T, D. cbn [negb]. unfold pure. rewrite F, io_bind_ok. cbn [fst snd].
  rewrite L, io_bind_ok. cbn [fst snd].
  destruct (fgtb current_time (fdiv raw f1e8)); [| reflexivity].
  rewrite close_proposal_returns, io_bind_ok. cbn [fst snd].
  destruct (close_succeeds self (closing env position) proposal_id);
    cbn [fst snd mret io_ret app]; rewrite app_nil_r; reflexivity.
Qed.

(** Every turn counts its id once. *)
Lemma sweep_step_counts (self : ProposalCloser) (env : SweepEnv) (current_time : float)
    (position : nat) (proposal_id : Z) (c : counts) :
  readable current_time (proposal_details env position) ->
  exists t c', sweep_step self env current_time position proposal_id c = (t, Ok c')
               /\ counted c' = S (counted c).
Proof.
  intros R. destruct (counted_step c) as (C1 & C2 & C3).
  destruct (truthy (fetched (proposal_details env position))) eqn:T;
    [| rewrite sweep_step_failed by auto; eauto].
  destruct (end_date_field_value (fetched (proposal_details env position))) as [v|] eqn:D;
    [| rewrite sweep_step_failed by auto; eauto].
  destruct (R v T D) as (raw & F & L).
  rewrite (sweep_step_dated _ _ _ _ _ _ v raw T D F L).
  destruct (fgtb current_time (fdiv raw f1e8)); [| eauto].
  destruct (close_succeeds self (closing env position) proposal_id); eauto.
Qed.

Lemma sweep_loop_counts (self : ProposalCloser) (env : SweepEnv) (current_time : float)
    (active_proposals : list Z) (position : nat) (c : counts) :
  (forall k, (k < length active_proposals)%nat ->
     readable current_time (proposal_details env (position + k))) ->
  exists t c', sweep_loop self env current_time position active_proposals c = (t, Ok c')
               /\ counted c' = (counted c + length active_proposals)%nat.
Proof.
  revert position c.
  induction active_proposals as [|proposal_id rest IH]; intros position c R.
  - exists [], c. split; [reflexivity | simpl; lia].
  - cbn [sweep_loop].
    destruct (sweep_step_counts self env current_time position proposal_id c)
      as (t1 & c1 & E1 & N1).
    { specialize (R 0%nat). rewrite Nat.add_0_r in R. apply R. simpl. lia. }
    rewrite E1, io_bind_ok. cbn [fst snd].
    destruct (IH (S position) c1) as (t2 & c2 & E2 & N2).
    { intros k L. replace (S position + k)%nat with (position + S k)%nat by lia.
      apply R. simpl. lia. }
    rewrite E2. exists (t1 ++ t2), c2. split; [reflexivity |]. simpl. lia.
Qed.





(** [get_all_active_proposals] always returns a list. *)
Lemma get_all_active_proposals_returns (self : ProposalCloser)
    (answer : res (option pyobj)) :
  exists active_proposals,
    get_all_active_proposals self answer
    = ([ExecuteScript (GetAllActiveProposalsScript (contract_address self)) []],
       Ok active_proposals).
Proof.
  unfold get_all_active_proposals, call, pure.
  destruct answer as [[v|]|e]; simpl; eauto.
  destruct (getattr v "value") as [w|]; simpl.
  - destruct (py_iter w) as [l|]; simpl; eauto.
    destruct (map_res id_of l); simpl; eauto.
  - destruct (truthy v); simpl; eauto.
    destruct (py_iter v) as [l|]; simpl; eauto.
    destruct (map_res id_of l); simpl; eauto.
Qed.

End SweepFacts.

(** ** Configuration *)

Section ConfigurationFacts.
Context `{Platform} `{FlowSdk} `{EndDate.Calendar}.

(** Without a private key the service has no signer. *)
Lemma init_without_key (environ : gmap string pystr) (FLOW_SDK_AVAILABLE : bool) :
  environ !! "FLOW_PRIVATE_KEY" = None ->
  Service.signer (Service.init environ FLOW_SDK_AVAILABLE) = None.
Proof. intros E. unfold Service.init. rewrite E. reflexivity. Qed.

(** Without a signer the creation makes the one call of the connectivity
    check and returns a failure: no transaction is sent. *)
Lemma create_without_signer (self : Service.FlowBlockchainService)
    (env : Submission.Env) (proposal_data : gmap string pyobj) :
  Service.signer self = None ->
  Submission.create_proposal_on_blockchain self env proposal_data
  = ([Ping],
     Ok (Submission.Failed
           (match Submission.ping env with
            | Ok _ => u "Flow account not configured"
            | Raise _ => u "Not connected to Flow blockchain"
            end) None None)).
Proof.
  intros S. unfold Submission.create_proposal_on_blockchain,
    Submission.create_proposal_body.
  rewrite is_connected_events, io_bind_ok. cbn [fst snd]. rewrite S.
  destruct (Submission.ping env); cbn [negb]; [| reflexivity].
  destruct (truthy (PStr (Service.address self))); reflexivity.
Qed.

(** C9.  Closing does not fail closed: with no private key configured the
    constructor of the closer hands [None] to the signer constructor, and
    an exception raised there leaves [main] before any call is made,
    instead of a configuration error result. *)
Theorem closer_without_key_raises (environ : gmap string pystr)
    (env : Closer.SweepEnv) (e : pystr) :
  environ !! "FLOW_PRIVATE_KEY" = None ->
  in_memory_signer PNone = Raise e ->
  Closer.main environ env = ([], Raise e).
Proof.
  intros K S. unfold Closer.main, Closer.init, Closer.getenv_obj, pure.
  rewrite K, S. reflexivity.
Qed.

End ConfigurationFacts.

(** ** The properties at the example data *)

Section Witnesses.
Import Examples.

Lemma end_date_normalization_witness :
  EndDate.normalize_end_date (H := Reference.calendar) example_clock
      (PStr (u "November 30, 2025")) = float_of_Z 1764547199
  /\ EndDate.normalize_end_date (H := Reference.calendar) example_clock
      (PStr (u "October 1, 2025")) = float_of_Z (1762183525 + 30 * 24 * 3600 + 3600)
  /\ EndDate.normalize_end_date (H := Reference.calendar) example_clock
      (PStr (u "next month")) = float_of_Z (1762183525 + 30 * 24 * 3600).
Proof.
  split; [| split].
  - destruct (end_date_normalization (H := Reference.calendar) example_clock
                (PStr (u "November 30, 2025"))) as (A & _ & _).
    apply A; vm_compute; reflexivity.
  - destruct (end_date_normalization (H := Reference.calendar) example_clock
                (PStr (u "October 1, 2025"))) as (_ & B & _).
    rewrite (B (float_of_Z 1759363199)); vm_compute; reflexivity.
  - destruct (end_date_normalization (H := Reference.calendar) example_clock
                (PStr (u "next month"))) as (_ & _ & C).
    destruct C as (_ & C); [vm_compute; reflexivity |].
    rewrite C; vm_compute; reflexivity.
Defined.

Lemma example_env_unsealed : Submission.unsealed example_env 0 2.
Proof.
  intros k L. destruct k as [|[|k]]; [| | lia];
    (exists pending; split; reflexivity).
Qed.

Lemma stalled_env_unsealed : Submission.unsealed stalled_env 0 30.
Proof. intros k L. exists pending. split; reflexivity. Qed.

Lemma sealing_poll_witness :
  Submission.poll_for_seal (H := Reference.platform) example_service example_env (u "abc123")
  = (Submission.polls (u "abc123") 3
       ++ [ExecuteScript (GetTotalProposalsScript (u "0123456789abcdef")) []],
     Ok (Submission.Succeeded (u "abc123") 12 0
           (u "https://testnet.flowdiver.io/transaction/abc123")))
  /\ Submission.poll_for_seal (H := Reference.platform) example_service stalled_env (u "abc123")
     = (Submission.polls (u "abc123") 30,
        Ok (Submission.Failed (u "Transaction timeout - please check explorer")
              (Some (u "abc123"))
              (Some (u "https://testnet.flowdiver.io/transaction/abc123")))).
Proof.
  split.
  - destruct (sealing_poll (H := Reference.platform) example_service example_env
                (u "abc123")) as (_ & B & _).
    rewrite (B 2%nat sealed);
      [vm_compute; reflexivity | lia | exact example_env_unsealed
       | reflexivity | vm_compute; discriminate].
  - destruct (sealing_poll (H := Reference.platform) example_service stalled_env
                (u "abc123")) as (_ & _ & C).
    rewrite (C stalled_env_unsealed). vm_compute. reflexivity.
Defined.

Lemma vegetation_loss_is_derived_witness :
  (exists e,
     Submission.prepare_environmental_data (H := Reference.platform) example_analysis = Ok e
     /\ Submission.vegetation_loss e
        = fmul (fsub (decimal 70 100) (decimal 20 100)) Submission.f100)
  /\ (exists tx raw,
       example_tx = Some tx
       /\ Codec.to_ufix64 (H := Reference.platform)
            (fmul (fsub (decimal 70 100) (decimal 20 100)) Submission.f100) = Ok raw
       /\ arguments tx !! 9%nat = Some (CUFix64 raw)
       /\ raw = 4999999999).
Proof.
  destruct (vegetation_loss_is_derived (H := Reference.platform) (H0 := Reference.sdk)
              (H1 := Reference.calendar) example_service example_env example_proposal_data)
    as (A & B & _).
  destruct (Submission.prepare_environmental_data (H := Reference.platform) example_analysis)
    as [e|] eqn:P; [| vm_compute in P; discriminate].
  destruct (A example_analysis e P) as (_ & _ & V & _).
  assert (T : float_truthy (Submission.ndvi_before e)
              && float_truthy (Submission.ndvi_after e) = true
              /\ Submission.ndvi_before e = decimal 70 100
              /\ Submission.ndvi_after e = decimal 20 100).
  { vm_compute in P. injection P as <-. repeat split. }
  destruct T as (T & Eb & Ea). rewrite T, Eb, Ea in V.
  split; [exists e; split; [reflexivity | exact V] |].
  destruct example_tx as [tx|] eqn:X; [| vm_compute in X; discriminate].
  assert (I : In (SendTransaction tx)
                 (fst (Submission.create_proposal_on_blockchain (H := Reference.platform)
                         (H0 := Reference.sdk) (H1 := Reference.calendar)
                         example_service example_env example_proposal_data))).
  { vm_compute in X. injection X as <-. vm_compute.
    do 4 right. left. reflexivity. }
  destruct (B tx I) as (analysis_data & e' & raw & G & P' & U & R).
  vm_compute in G. injection G as <-.
  change (gmap.GMap _) with example_analysis in P'.
  rewrite P in P'. injection P' as <-. rewrite V in U.
  exists tx, raw. split; [reflexivity |]. split; [exact U |]. split; [exact R |].
  vm_compute in U. injection U as <-. reflexivity.
Defined.

Lemma example_sweep_readable (k : nat) :
  (k < 3)%nat ->
  Closer.readable (H := Reference.platform) (Closer.now_timestamp example_sweep)
    (Closer.proposal_details example_sweep k).
Proof.
  intros L v T E. destruct k as [|[|[|k]]]; [| | | lia].
  - vm_compute in E. injection E as <-.
    exists (float_of_Z 176209919900000000). split; vm_compute; reflexivity.
  - vm_compute in E. injection E as <-.
    exists (float_of_Z 176454719900000000). split; vm_compute; reflexivity.
  - vm_compute in T. discriminate.
Qed.


(** The scenario of the specification: one closed, one skipped, one failed. *)
Example sweep_scenario :
  snd (Closer.close_all_active_proposals (H := Reference.platform) (H0 := Reference.sdk)
         example_closer example_sweep)
  = Ok (Some {| Closer.closed_count := 1; Closer.skipped_count := 1;
                Closer.failed_count := 1 |}).
Proof. vm_compute. reflexivity. Qed.

Lemma example_is_struct (fields : gmap string pyobj) :
  is_struct (cadence_struct type_tag fields) fields
  /\ is_optional (example_struct fields) (cadence_struct type_tag fields).
Proof.
  split; eexists; (split; [reflexivity |]); [split |]; reflexivity.
Qed.

Lemma id_override_witness :
  (exists r,
     Query._parse_proposal_result (H := Reference.platform)
       (example_struct example_fields) (Some 7) = Some r
     /\ Query.id r = 7)
  /\ Query._parse_proposal_result (H := Reference.platform)
       (example_struct example_fields) (Some 7)
     = Query._parse_proposal_result (H := Reference.platform)
       (example_struct (<["id" := cadence_value (PInt 7)]> example_fields)) (Some 7)
  /\ Query._parse_proposal_result (H := Reference.platform)
       (example_struct example_fields) None = None.
Proof.
  destruct (id_override (H := Reference.platform) 7) as (A & _ & C).
  split; [| split].
  - destruct (Query._parse_proposal_result (H := Reference.platform)
                (example_struct example_fields) (Some 7)) as [r|] eqn:P;
      [| vm_compute in P; discriminate].
    exists r. split; [reflexivity |]. exact (A _ r P).
  - refine (proj2 (C (cadence_struct type_tag example_fields)
                     (cadence_struct type_tag
                        (<["id" := cadence_value (PInt 7)]> example_fields))
                     _ _ (delete "id" example_fields) type_tag (cadence_value (PInt 7))
                     _ _ _ _)).
    + eexists. split; [reflexivity |]. split; vm_compute; reflexivity.
    + eexists. split; [reflexivity |]. split; vm_compute; reflexivity.
    + apply example_is_struct.
    + apply example_is_struct.
  - vm_compute. reflexivity.
Defined.

Lemma tolerant_decoding_witness :
  exists r,
    Query._parse_proposal_result (H := Reference.platform)
      (example_struct (delete "endDate" example_fields)) (Some 7) = Some r
    /\ Query.endDate r = 0 /\ Query.yesVotes r = 14.
Proof.
  destruct (tolerant_decoding (H := Reference.platform) (Some 7)) as (_ & B).
  destruct (Query._parse_proposal_result (H := Reference.platform)
              (cadence_struct type_tag example_fields) (Some 7)) as [r|] eqn:P;
    [| vm_compute in P; discriminate].
  destruct (B (cadence_struct type_tag example_fields)
              (cadence_struct type_tag (delete "endDate" example_fields))
              (example_struct (delete "endDate" example_fields))
              example_fields (delete "endDate" example_fields) "endDate"%string r)
    as (_ & Q).
  - apply example_is_struct.
  - apply example_is_struct.
  - apply example_is_struct.
  - left. reflexivity.
  - exact P.
  - exists (Query.without_field "endDate" (Some 7) r).
    split; [exact Q |]. split; [reflexivity |].
    vm_compute in P. injection P as <-. reflexivity.
Defined.

Lemma rate_limit_retry_witness :
  Query.get_proposal (H := Reference.platform) example_service unreachable_answers 7
  = ([ExecuteScript (GetProposalScript (u "0123456789abcdef")) [CUInt64 7]], Ok None)
  /\ Query.get_proposal (H := Reference.platform) example_service always_throttled 7
     = ([ExecuteScript (GetProposalScript (u "0123456789abcdef")) [CUInt64 7]; Sleep 2;
         ExecuteScript (GetProposalScript (u "0123456789abcdef")) [CUInt64 7]; Sleep 4;
         ExecuteScript (GetProposalScript (u "0123456789abcdef")) [CUInt64 7]],
        Ok None).
Proof.
  destruct (rate_limit_retry (H := Reference.platform) example_service
              unreachable_answers 7) as (_ & A & _).
  destruct (rate_limit_retry (H := Reference.platform) example_service
              always_throttled 7) as (_ & _ & _ & C & _).
  split.
  - rewrite (A (u "connection refused")); vm_compute; reflexivity.
  - rewrite (C (u "rate limited") (u "rate limited") (u "rate limited"));
      vm_compute; reflexivity.
Defined.

Lemma closer_without_key_raises_witness :
  Closer.main (H := Reference.platform) (H0 := Reference.sdk) keyless_environ example_sweep
  = ([], Raise (u "fromhex() argument must be str, not NoneType")).
Proof.
  apply (closer_without_key_raises (H0 := Reference.sdk)); vm_compute; reflexivity.
Defined.

(** The sibling path: with the same configuration the creation returns the
    configuration error after the connectivity check alone. *)
Example create_without_key :
  Submission.create_proposal_on_blockchain (H := Reference.platform)
    (H0 := Reference.sdk) (H1 := Reference.calendar)
    (Service.init (H := Reference.sdk) keyless_environ true)
    example_env example_proposal_data
  = ([Ping], Ok (Submission.Failed (u "Flow account not configured") None None)).
Proof. vm_compute. reflexivity. Qed.

(** The marker is looked for without regard to case. *)
Example rate_limited_marker :
  Query.rate_limited (u "GRPC error: Rate Limited, slow down") = true
  /\ Query.rate_limited (u "connection refused") = false.
Proof. split; reflexivity. Qed.

End Witnesses.

(* ===================================================================== *)
(** * Further properties of the service *)
(* ===================================================================== *)

(** ** The run of a submission *)

Section SubmissionRuns.
Import Service EndDate Codec Summary Counter Submission Trace.
Context `{Platform} `{FlowSdk} `{Calendar}.

Lemma sent_transactions_app (t t' : list event) :
  sent_transactions (t ++ t') = sent_transactions t ++ sent_transactions t'.
Proof.
  induction t as [|ev t IH]; [reflexivity |].
  destruct ev; simpl; rewrite IH; reflexivity.
Qed.

Lemma sent_transactions_polls (tx_id : pystr) (n : nat) :
  sent_transactions (polls tx_id n) = [].
Proof. induction n as [|n IH]; [reflexivity | exact IH]. Qed.

Lemma poll_for_seal_sends_nothing (self : FlowBlockchainService) (env : Env)
    (tx_id : pystr) :
  sent_transactions (fst (poll_for_seal self env tx_id)) = [].
Proof.
  unfold poll_for_seal.
  destruct (poll_loop_shape self env tx_id (max_attempts - 0) 0)
    as (n & rest & _ & -> & [-> | ->]);
    rewrite sent_transactions_app, sent_transactions_polls; reflexivity.
Qed.

(** A submission either stops before a transaction is sent, with a failure
    that holds no hash, or passes every step up to the submission. *)
Lemma create_run (self : FlowBlockchainService) (env : Env)
    (proposal_data : gmap string pyobj) :
  (exists t e account_address,
     create_proposal_on_blockchain self env proposal_data = (t, Ok (Failed e None None))
     /\ t `prefix_of` before_send account_address)
  \/ (exists the_signer analysis_data e d description account_address account
             account_balance latest_block key0 args,
       ping env = Ok tt
       /\ truthy (PStr (address self)) = true
       /\ signer self = Some the_signer
       /\ getitem proposal_data "analysisData" = Ok (PDict analysis_data)
       /\ prepare_environmental_data analysis_data = Ok e
       /\ prepare_demographics analysis_data = Ok d
       /\ address_from_hex (address self) = Ok account_address
       /\ get_account_at_latest_block env = Ok account
       /\ py_float (PInt (balance account)) = Ok account_balance
       /\ fltb (fdiv account_balance f1e8) f0_001 = false
       /\ get_latest_block env = Ok latest_block
       /\ first_key account = Ok key0
       /\ (exists end_date_str,
            getitem proposal_data "endDate" = Ok end_date_str
            /\ transaction_arguments proposal_data description
                 (normalize_end_date (clock env) end_date_str) e d account_address
               = Ok args)
       /\ let tx :=
            {| tx_code := CreateProposalTx (contract_addr self);
               reference_block_id := latest_block;
               payer := account_address;
               proposal_key := {| key_address := account_address; key_id := 0;
                                  key_sequence_number := sequence_number key0 |};
               authorizers := [account_address];
               arguments := args;
               envelope_signature := Some (account_address, 0, the_signer) |} in
          create_proposal_on_blockchain self env proposal_data
          = match send_transaction env tx with
            | Ok tx_id =>
                (before_send account_address ++ [SendTransaction tx]
                   ++ fst (poll_for_seal self env tx_id),
                 match snd (poll_for_seal self env tx_id) with
                 | Ok r => Ok r
                 | Raise e => Ok (Failed e None None)
                 end)
            | Raise e =>
                (before_send account_address ++ [SendTransaction tx],
                 Ok (Failed e None None))
            end).
Proof.
  unfold create_proposal_on_blockchain, create_proposal_body.
  rewrite is_connected_events, io_bind_ok. cbn [fst snd].
  assert (P0 : forall a, [Ping] `prefix_of` before_send a)
    by (intros a; exists [Summarize; GetAccount a; GetLatestBlock]; reflexivity).
  assert (P1 : forall a, [Ping; Summarize] `prefix_of` before_send a)
    by (intros a; exists [GetAccount a; GetLatestBlock]; reflexivity).
  assert (P2 : forall a, [Ping; Summarize; GetAccount a] `prefix_of` before_send a)
    by (intros a; exists [GetLatestBlock]; reflexivity).
  assert (P3 : forall a, before_send a `prefix_of` before_send a)
    by (intros a; exists []; reflexivity).
  destruct (ping env) as [[]|e0]; cbn [negb];
    [| left; eexists _, _, []; split; [reflexivity | apply P0]].
  destruct (truthy (PStr (address self))) eqn:TA;
    [| left; eexists _, _, []; split; [reflexivity | apply P0]].
  destruct (signer self) as [the_signer|] eqn:SG;
    [| left; eexists _, _, []; split; [reflexivity | apply P0]].
  unfold pure.
  destruct (getitem proposal_data "analysisData") as [analysis_obj|e1] eqn:E1;
    [rewrite io_bind_ok; cbn [fst snd]
    | left; eexists _, _, []; split; [reflexivity | apply P0]].
  destruct (getitem proposal_data "endDate") as [end_date_str|e2] eqn:E2;
    [rewrite io_bind_ok; cbn [fst snd]
    | left; eexists _, _, []; split; [reflexivity | apply P0]].
  destruct (as_dict analysis_obj) as [analysis_data|e3] eqn:E3;
    [rewrite io_bind_ok; cbn [fst snd]
    | left; eexists _, _, []; split; [reflexivity | apply P0]].
  destruct (prepare_environmental_data analysis_data) as [e|e4] eqn:E4;
    [rewrite io_bind_ok; cbn [fst snd]
    | left; eexists _, _, []; split; [reflexivity | apply P0]].
  destruct (prepare_demographics analysis_data) as [d|e5] eqn:E5;
    [rewrite io_bind_ok; cbn [fst snd]
    | left; eexists _, _, []; split; [reflexivity | apply P0]].
  destruct (getitem proposal_data "proposalSummary") as [full_summary|e6] eqn:E6;
    [rewrite io_bind_ok; cbn [fst snd]
    | left; eexists _, _, []; split; [reflexivity | apply P0]].
  destruct (generate_summary_events (summarizer env) full_summary analysis_data)
    as [description ->].
  rewrite io_bind_ok. cbn [fst snd].
  destruct (address_from_hex (address self)) as [account_address|e7] eqn:E7;
    [rewrite io_bind_ok; cbn [fst snd]
    | left; eexists _, _, []; split; [reflexivity | apply P1]].
  unfold call.
  destruct (get_account_at_latest_block env) as [account|e8] eqn:E8;
    [rewrite io_bind_ok; cbn [fst snd]
    | left; eexists _, _, account_address; split; [reflexivity | apply P2]].
  destruct (py_float (PInt (balance account))) as [account_balance|e9] eqn:E9;
    [rewrite io_bind_ok; cbn [fst snd]
    | left; eexists _, _, account_address; split; [reflexivity | apply P2]].
  destruct (fltb (fdiv account_balance f1e8) f0_001) eqn:BAL;
    [left; eexists _, _, account_address; split; [reflexivity | apply P2] |].
  destruct (get_latest_block env) as [latest_block|e10] eqn:E10;
    [rewrite io_bind_ok; cbn [fst snd]
    | left; eexists _, _, account_address; split; [reflexivity | apply P3]].
  destruct (first_key account) as [key0|e11] eqn:E11;
    [rewrite io_bind_ok; cbn [fst snd]
    | left; eexists _, _, account_address; split; [reflexivity | apply P3]].
  destruct (transaction_arguments proposal_data description
              (normalize_end_date (clock env) end_date_str) e d account_address)
    as [args|e12] eqn:E12;
    [rewrite io_bind_ok; cbn [fst snd]
    | left; eexists _, _, account_address; split; [reflexivity | apply P3]].
  right.
  destruct analysis_obj as [| | | | | |dict|]; try discriminate E3.
  injection E3 as ->.
  exists the_signer, analysis_data, e, d, description, account_address, account,
    account_balance, latest_block, key0, args.
  repeat (split; [first [reflexivity | assumption | eauto] |]).
  cbn zeta.
  match goal with
  | |- context [send_transaction env ?tx] => destruct (send_transaction env tx) as [tx_id|e13]
  end; [| reflexivity].
  rewrite io_bind_ok. cbn [fst snd].
  destruct (poll_for_seal self env tx_id) as [t [r|e14]];
    cbn [fst snd try_except mret io_ret]; rewrite <- ?app_assoc, ?app_nil_r;
    reflexivity.
Qed.

Lemma poll_loop_raises (self : FlowBlockchainService) (env : Env) (tx_id : pystr)
    (fuel attempt : nat) (e : pystr) :
  get_transaction_result env attempt = Raise e ->
  poll_loop self env tx_id (S fuel) attempt = (polls tx_id 1, Raise e).
Proof.
  intros E. rewrite poll_loop_S. unfold call. rewrite io_bind_ok. cbn [fst snd].
  rewrite E. reflexivity.
Qed.

(** What the poll returns is decided by the first answer that is not an
    unsealed status. *)
Lemma poll_loop_success (self : FlowBlockchainService) (env : Env) (tx_id : pystr)
    (fuel attempt : nat) (h : pystr) (i c : Z) (url : pystr) :
  snd (poll_loop self env tx_id fuel attempt) = Ok (Succeeded h i c url) ->
  exists n r,
    (n < fuel)%nat /\ unsealed env attempt n
    /\ get_transaction_result env (attempt + n) = Ok r
    /\ 4 <= status r /\ error_message r = []
    /\ h = tx_id /\ i = total_proposals self env /\ c = status_code r
    /\ url = explorer_url_of self tx_id.
Proof.
  revert attempt. induction fuel as [|fuel IH]; intros attempt; [discriminate |].
  rewrite poll_loop_S. unfold call. rewrite io_bind_ok. cbn [fst snd].
  destruct (get_transaction_result env attempt) as [r|e] eqn:E; [| discriminate].
  rewrite io_bind_ok. cbn [fst snd].
  destruct (4 <=? status r) eqn:S4.
  - destruct (error_message r) as [|ch msg] eqn:M; cbn [truthy]; [| discriminate].
    unfold total_proposals.
    destruct (get_total_proposals_returns self (total_proposals_script env)) as [n ->].
    rewrite io_bind_ok. cbn [fst snd mret io_ret]. intros R. injection R as <- <- <- <-.
    exists 0%nat, r. rewrite Nat.add_0_r. apply Z.leb_le in S4.
    repeat split; try assumption; try lia. intros k L. lia.
  - intros R. destruct (IH (S attempt) R) as (n & r' & L & U & E' & S' & M & Hh & Hi & Hc & Hu).
    exists (S n), r'. replace (attempt + S n)%nat with (S attempt + n)%nat by lia.
    repeat split; try assumption; try lia.
    intros k Lk. destruct k as [|k].
    + exists r. rewrite Nat.add_0_r. apply Z.leb_gt in S4. auto.
    + destruct (U k) as (r'' & E'' & L''); [lia |].
      exists r''. replace (attempt + S k)%nat with (S attempt + k)%nat by lia. auto.
Qed.

Lemma sent_transactions_prefix (t : list event) (account_address : pystr) :
  t `prefix_of` before_send account_address -> sent_transactions t = [].
Proof.
  intros [k E]. apply (f_equal sent_transactions) in E.
  rewrite sent_transactions_app in E. simpl in E.
  symmetry in E. apply app_eq_nil in E. tauto.
Qed.

(** X1.  A submission never raises and is a single attempt: it returns a
    result dictionary and sends at most one transaction. *)
Theorem create_is_a_single_attempt (self : FlowBlockchainService) (env : Env)
    (proposal_data : gmap string pyobj) :
  (exists t r, create_proposal_on_blockchain self env proposal_data = (t, Ok r))
  /\ (length (sent_transactions
                (fst (create_proposal_on_blockchain self env proposal_data))) <= 1)%nat.
Proof.
  destruct (create_run self env proposal_data)
    as [(t & e & a & -> & P)
       |(sg & ad & e & d & ds & a & ac & ab & lb & k0 & args & _ & _ & _ & _ & _ & _
         & _ & _ & _ & _ & _ & _ & _ & R)].
  - split; [eauto |]. cbn [fst]. rewrite (sent_transactions_prefix t a P). simpl. lia.
  - cbn zeta in R. rewrite R. clear R.
    match goal with
    | |- context [send_transaction env ?tx] => destruct (send_transaction env tx) as [tx_id|e13]
    end.
    + split.
      * destruct (snd (poll_for_seal self env tx_id)); eauto.
      * cbn [fst]. rewrite !sent_transactions_app, poll_for_seal_sends_nothing.
        simpl. lia.
    + split; [eauto |]. simpl. lia.
Qed.

(** X2.  A transaction is sent only after the connectivity check passed,
    with an address and a signer configured, and from an account whose
    balance is not below 0.001; it is signed with the configured signer. *)
Theorem create_sends_only_when_ready (self : FlowBlockchainService) (env : Env)
    (proposal_data : gmap string pyobj) (tx : Tx) :
  In tx (sent_transactions (fst (create_proposal_on_blockchain self env proposal_data))) ->
  ping env = Ok tt
  /\ address self <> []
  /\ (exists the_signer account_address,
        signer self = Some the_signer
        /\ address_from_hex (address self) = Ok account_address
        /\ envelope_signature tx = Some (account_address, 0, the_signer))
  /\ (exists account account_balance,
        get_account_at_latest_block env = Ok account
        /\ py_float (PInt (balance account)) = Ok account_balance
        /\ fltb (fdiv account_balance f1e8) f0_001 = false).
Proof.
  destruct (create_run self env proposal_data)
    as [(t & e & a & -> & P)
       |(sg & ad & e & d & ds & a & ac & ab & lb & k0 & args & PI & TA & SG & _ & _ & _
         & AD & GA & PF & BAL & _ & _ & _ & R)].
  - cbn [fst]. rewrite (sent_transactions_prefix t a P). intros [].
  - cbn zeta in R. rewrite R. clear R. intros I.
    assert (E : tx = {| tx_code := CreateProposalTx (contract_addr self);
                        reference_block_id := lb; payer := a;
                        proposal_key := {| key_address := a; key_id := 0;
                                           key_sequence_number := sequence_number k0 |};
                        authorizers := [a]; arguments := args;
                        envelope_signature := Some (a, 0, sg) |}).
    { revert I.
      match goal with
      | |- context [send_transaction env ?tx] => destruct (send_transaction env tx) as [tx_id|e13]
      end; cbn [fst]; rewrite ?sent_transactions_app, ?poll_for_seal_sends_nothing;
        simpl; intros [I|[]]; congruence. }
    subst tx. split; [exact PI |]. split.
    + intros N. rewrite N in TA. discriminate.
    + split; [exists sg, a; auto | exists ac, ab; auto].
Qed.

(** X3.  The transaction sent is built from the account that was read: the
    account pays and is the one authorizer, the proposal key is its key 0
    with the sequence number read, the reference block is the latest block,
    the code is the create template for the contract address, and there are
    fifteen arguments, the last of them the account address. *)
Theorem create_transaction_is_built_from_account (self : FlowBlockchainService)
    (env : Env) (proposal_data : gmap string pyobj) (tx : Tx) :
  In tx (sent_transactions (fst (create_proposal_on_blockchain self env proposal_data))) ->
  exists account_address account key0 latest_block,
    address_from_hex (address self) = Ok account_address
    /\ get_account_at_latest_block env = Ok account
    /\ keys account !! 0%nat = Some key0
    /\ get_latest_block env = Ok latest_block
    /\ tx_code tx = CreateProposalTx (contract_addr self)
    /\ reference_block_id tx = latest_block
    /\ payer tx = account_address
    /\ authorizers tx = [account_address]
    /\ proposal_key tx = {| key_address := account_address; key_id := 0;
                            key_sequence_number := sequence_number key0 |}
    /\ length (arguments tx) = 15%nat
    /\ arguments tx !! 14%nat = Some (CAddress account_address).
Proof.
  destruct (create_run self env proposal_data)
    as [(t & e & a & -> & P)
       |(sg & ad & e & d & ds & a & ac & ab & lb & k0 & args & _ & _ & _ & _ & _ & _
         & AD & GA & _ & _ & LB & FK & (eds & _ & TA) & R)].
  - cbn [fst]. rewrite (sent_transactions_prefix t a P). intros [].
  - cbn zeta in R. rewrite R. clear R. intros I.
    assert (E : tx = {| tx_code := CreateProposalTx (contract_addr self);
                        reference_block_id := lb; payer := a;
                        proposal_key := {| key_address := a; key_id := 0;
                                           key_sequence_number := sequence_number k0 |};
                        authorizers := [a]; arguments := args;
                        envelope_signature := Some (a, 0, sg) |}).
    { revert I.
      match goal with
      | |- context [send_transaction env ?tx] => destruct (send_transaction env tx) as [tx_id|e13]
      end; cbn [fst]; rewrite ?sent_transactions_app, ?poll_for_seal_sends_nothing;
        simpl; intros [I|[]]; congruence. }
    subst tx. exists a, ac, k0, lb. cbn.
    assert (K : keys ac !! 0%nat = Some k0).
    { unfold first_key in FK. destruct (keys ac); [discriminate |].
      injection FK as ->. reflexivity. }
    assert (A : length args = 15%nat /\ args !! 14%nat = Some (CAddress a)).
    { unfold transaction_arguments in TA.
      repeat match type of TA with
             | (mbind _ ?m = _) => destruct m eqn:?; simpl in TA; [| discriminate]
             end.
      injection TA as <-. split; reflexivity. }
    destruct A. repeat split; assumption.
Qed.

(** X4.  A success is reported only for a transaction that was sent and
    for which a poll within the first thirty reported status 4 or more
    without an error message; the hash is the one the node gave, the
    proposal id the total-proposal count, the URL the explorer URL of the
    hash. *)
Theorem create_success_means_sealed (self : FlowBlockchainService) (env : Env)
    (proposal_data : gmap string pyobj) (h : pystr) (i c : Z) (url : pystr) :
  snd (create_proposal_on_blockchain self env proposal_data) = Ok (Succeeded h i c url) ->
  exists tx n r,
    sent_transactions (fst (create_proposal_on_blockchain self env proposal_data)) = [tx]
    /\ send_transaction env tx = Ok h
    /\ (n < 30)%nat /\ unsealed env 0 n
    /\ get_transaction_result env n = Ok r
    /\ 4 <= status r /\ error_message r = []
    /\ i = total_proposals self env /\ c = status_code r
    /\ url = explorer_url_of self h.
Proof.
  destruct (create_run self env proposal_data)
    as [(t & e & a & -> & P)
       |(sg & ad & e & d & ds & a & ac & ab & lb & k0 & args & _ & _ & _ & _ & _ & _
         & _ & _ & _ & _ & _ & _ & _ & R)].
  - discriminate.
  - cbn zeta in R. rewrite R. clear R.
    match goal with
    | |- context [send_transaction env ?tx] =>
        set (the_tx := tx); destruct (send_transaction env the_tx) as [tx_id|e13] eqn:SE
    end; [| discriminate].
    cbn [fst snd]. intros S.
    destruct (snd (poll_for_seal self env tx_id)) as [r|e14] eqn:PS; [| discriminate].
    injection S as ->. unfold poll_for_seal in PS.
    destruct (poll_loop_success _ _ _ _ _ _ _ _ _ PS)
      as (n & r & L & U & E & S4 & M & -> & -> & -> & ->).
    exists the_tx, n, r.
    rewrite !sent_transactions_app, poll_for_seal_sends_nothing.
    unfold max_attempts in L. simpl in L.
    repeat split; auto.
Qed.

(** X5.  When a poll raises, the failure that is returned holds the
    message of the exception and neither the hash of the transaction that
    was sent nor the explorer URL. *)
Theorem create_poll_exception_drops_hash (self : FlowBlockchainService) (env : Env)
    (proposal_data : gmap string pyobj) (tx : Tx) (h : pystr) (n : nat) (e : pystr) :
  In tx (sent_transactions (fst (create_proposal_on_blockchain self env proposal_data))) ->
  send_transaction env tx = Ok h ->
  (n < 30)%nat -> unsealed env 0 n ->
  get_transaction_result env n = Raise e ->
  snd (create_proposal_on_blockchain self env proposal_data) = Ok (Failed e None None).
Proof.
  destruct (create_run self env proposal_data)
    as [(t & e0 & a & -> & P)
       |(sg & ad & e0 & d & ds & a & ac & ab & lb & k0 & args & _ & _ & _ & _ & _ & _
         & _ & _ & _ & _ & _ & _ & _ & R)].
  - cbn [fst]. rewrite (sent_transactions_prefix t a P). intros [].
  - cbn zeta in R. rewrite R. clear R. intros I SE L U E.
    match type of I with
    | context [send_transaction env ?tx0] => set (the_tx := tx0) in *
    end.
    assert (X : tx = the_tx).
    { revert I. destruct (send_transaction env the_tx) as [tx_id|e13]; cbn [fst];
        rewrite ?sent_transactions_app, ?poll_for_seal_sends_nothing;
        simpl; intros [I|[]]; congruence. }
    subst tx. rewrite SE. cbn [snd].
    unfold poll_for_seal, max_attempts. rewrite Nat.sub_0_r.
    replace 30%nat with (n + S (29 - n))%nat by lia.
    rewrite (poll_loop_unsealed _ _ _ _ _ _ U). cbn [Nat.add snd].
    rewrite (poll_loop_raises _ _ _ _ _ _ E). reflexivity.
Qed.

End SubmissionRuns.

(** ** The counter, the decoder and the query *)

Section DecoderRuns.
Import Service Codec Counter Query Trace.
Context `{Platform}.

(** X6.  The total-proposal count is read with one script execution and
    never raises: it is 0 when the execution raises, gives nothing, or
    gives a value [int] refuses, and the number held when the node gives a
    [UInt64]. *)
Theorem total_proposals_defaults_to_zero (self : FlowBlockchainService)
    (answer : res (option pyobj)) :
  exists n,
    get_total_proposals self answer
    = ([ExecuteScript (GetTotalProposalsScript (contract_addr self)) []], Ok n)
    /\ ((exists e, answer = Raise e) \/ answer = Ok None -> n = 0)
    /\ (forall k, answer = Ok (Some (cadence_value (PInt k))) -> n = k)
    /\ (forall v e, answer = Ok (Some (cadence_value v)) -> py_int v = Raise e -> n = 0).
Proof.
  assert (CV : forall x, getattr (cadence_value x) "value" = Some x) by reflexivity.
  exists (match answer with
          | Ok (Some v) =>
              match (match getattr v "value" with
                     | Some w => py_int w
                     | None => py_int v
                     end) with
              | Ok k => k
              | Raise _ => 0
              end
          | _ => 0
          end).
  split; [| split; [| split]].
  - unfold get_total_proposals, call, pure.
    destruct answer as [[v|]|e]; try reflexivity.
    cbn [mbind io_bind try_except].
    destruct (getattr v "value") as [w|].
    + destruct (py_int w); reflexivity.
    + destruct (py_int v); reflexivity.
  - intros [[e ->]| ->]; reflexivity.
  - intros k ->. rewrite CV. reflexivity.
  - intros v e -> I. rewrite CV, I. reflexivity.
Qed.

Ltac res_invert P :=
  repeat match type of P with
         | context [mbind _ ?m] =>
             destruct m eqn:?; cbn [mbind res_bind] in P |- *; try discriminate P
         end.

Lemma status_map_get_range (k : Z) :
  status_map_get k = u "active" \/ status_map_get k = u "passed"
  \/ status_map_get k = u "rejected".
Proof.
  unfold status_map_get.
  destruct (k =? 0); [auto |]. destruct (k =? 1); [auto |].
  destruct (k =? 2); auto.
Qed.

(** X7.  The status of every record the decoder returns is [active],
    [passed] or [rejected]: the raw values 0, 1 and 2 of the enum are
    mapped to them in this order and every other raw value to [active]. *)
Theorem decoded_status_is_one_of_three (result : pyobj) (proposal_id : option Z)
    (r : proposal) :
  _parse_proposal_result result proposal_id = Some r ->
  (status r = u "active" \/ status r = u "passed" \/ status r = u "rejected")
  /\ (forall s fields type_id k,
        is_struct s fields ->
        (result = s \/ is_optional result s) ->
        fields !! "status" = Some (cadence_enum type_id k)
        \/ fields !! "status" = Some (cadence_value (PInt k)) ->
        status r = if k =? 1 then u "passed"
                   else if k =? 2 then u "rejected" else u "active").
Proof.
  intros P. split.
  - unfold _parse_proposal_result, parse_body in P.
    destruct (negb (truthy result)); [discriminate |].
    destruct (getattr result "value") as [[]|];
      try discriminate;
      (destruct (negb (truthy _)); [discriminate |]);
      cbn [mbind res_bind] in P; res_invert P;
      injection P as <-; cbn [status]; apply status_map_get_range.
  - intros s fields type_id k S R F.
    assert (P' : _parse_proposal_result s proposal_id = Some r).
    { destruct R as [<-|O]; [exact P |].
      unfold _parse_proposal_result in *.
      rewrite <- (parse_body_optional result s fields proposal_id O S). exact P. }
    clear P R. unfold _parse_proposal_result in P'.
    destruct (is_struct_shape s fields S) as (T & V).
    rewrite (parse_body_struct s _ T V) in P'.
    assert (G : get_field_value s "status" = cadence_enum type_id k
                \/ get_field_value s "status" = PInt k).
    { rewrite (get_field_value_struct s fields "status" S).
      destruct F as [F|F]; rewrite F; [left | right]; reflexivity. }
    assert (K1 : match getattr (cadence_enum type_id k) "value" with
                 | Some v => v
                 | None =>
                     if hasattr (cadence_enum type_id k) "rawValue"
                     then get_field_value (cadence_enum type_id k) "rawValue"
                     else cadence_enum type_id k
                 end = PInt k) by reflexivity.
    assert (K2 : match getattr (PInt k) "value" with
                 | Some v => v
                 | None =>
                     if hasattr (PInt k) "rawValue"
                     then get_field_value (PInt k) "rawValue"
                     else PInt k
                 end = PInt k) by reflexivity.
    destruct G as [G|G]; rewrite G in P'; cbv zeta in P';
      rewrite ?K1, ?K2 in P'; cbn [is_none] in P';
      res_invert P'; injection P' as <-; cbn [status];
      match goal with I : py_int (PInt k) = Ok _ |- _ => injection I as <- end;
      unfold status_map_get; destruct (k =? 0) eqn:K0;
      try (apply Z.eqb_eq in K0; subst k); reflexivity.
Qed.

(** X8.  The decoder returns [None] for [None] and for an empty optional;
    for any other true object that has neither a [value] nor a dictionary
    [fields] (a number, a text, a list) it returns the record of defaults
    with the id of the caller, not [None]. *)
Theorem decoding_what_is_no_struct (proposal_id : option Z) :
  _parse_proposal_result PNone proposal_id = None
  /\ (forall o, is_optional o PNone -> _parse_proposal_result o proposal_id = None)
  /\ (forall o,
        truthy o = true -> getattr o "value" = None ->
        (forall d, getattr o "fields" <> Some (PDict d)) ->
        _parse_proposal_result o proposal_id
        = Some (zero_proposal (default 0 proposal_id))).
Proof.
  split; [reflexivity |]. split.
  - intros o (attrs & -> & V). unfold _parse_proposal_result, parse_body.
    cbn [truthy negb getattr]. rewrite V. reflexivity.
  - intros o T V F. unfold _parse_proposal_result.
    rewrite (parse_body_struct o _ T V).
    assert (G : forall n, get_field_value o n = PNone).
    { intros n. unfold get_field_value.
      destruct (getattr o "fields") as [[]|] eqn:E; try reflexivity.
      exfalso. exact (F _ eq_refl). }
    rewrite !G. destruct proposal_id; reflexivity.
Qed.

(** X9.  Without an id from the caller the decoder takes the id from the
    field [id], and a text there that is no integer numeral loses the whole
    record: the result is [None]. *)
Theorem decoding_without_id_needs_a_number (s : pyobj) (fields : gmap string pyobj)
    (tag : pystr) :
  is_struct s fields ->
  fields !! "id" = Some (PStr tag) ->
  int_of_str tag = None ->
  _parse_proposal_result s None = None.
Proof.
  intros S F I. destruct (is_struct_shape s fields S) as (T & V).
  unfold _parse_proposal_result. rewrite (parse_body_struct s _ T V).
  rewrite (get_field_value_struct s fields "id" S), F.
  unfold uint64_to_int. cbn [is_none py_int]. rewrite I. reflexivity.
Qed.

(** X10.  The fields of a struct that hold values of their types are
    returned as they are: a [UInt64] vote count as its number, a [String]
    as its text, and the [UFix64] end date as the whole seconds of its raw
    value divided by [1e8]. *)
Theorem decoded_fields_are_the_values_held (s : pyobj) (fields : gmap string pyobj)
    (proposal_id : option Z) (r : proposal) :
  is_struct s fields ->
  _parse_proposal_result s proposal_id = Some r ->
  (forall n, fields !! "yesVotes" = Some (cadence_value (PInt n)) -> yesVotes r = n)
  /\ (forall n, fields !! "noVotes" = Some (cadence_value (PInt n)) -> noVotes r = n)
  /\ (forall t, fields !! "parkName" = Some (cadence_value (PStr t)) -> parkName r = t)
  /\ (forall t, fields !! "parkId" = Some (cadence_value (PStr t)) -> parkId r = t)
  /\ (forall t, fields !! "description" = Some (cadence_value (PStr t)) ->
       description r = t)
  /\ (forall t, fields !! "creator" = Some (cadence_value (PStr t)) -> creator r = t)
  /\ (forall raw, fields !! "endDate" = Some (cadence_value (PInt raw)) ->
       exists f, py_float (PInt raw) = Ok f
                 /\ ftrunc (fdiv f f1e8) = Some (endDate r)).
Proof.
  intros S P. destruct (is_struct_shape s fields S) as (T & V).
  unfold _parse_proposal_result in P. rewrite (parse_body_struct s _ T V) in P.
  assert (GI : forall name n, fields !! name = Some (cadence_value (PInt n)) ->
                              get_field_value s name = PInt n).
  { intros name n F. rewrite (get_field_value_struct s fields name S), F. reflexivity. }
  assert (GS : forall name t, fields !! name = Some (cadence_value (PStr t)) ->
                              str_or_empty (get_field_value s name) = t).
  { intros name t F. rewrite (get_field_value_struct s fields name S), F.
    destruct t; reflexivity. }
  destruct (match proposal_id with
            | Some i => Ok i
            | None => uint64_to_int (get_field_value s "id")
            end) as [i|] eqn:EI; [| discriminate].
  cbn [mbind res_bind] in P.
  destruct (uint64_to_int (get_field_value s "yesVotes")) as [yes|] eqn:EY;
    [| discriminate].
  destruct (uint64_to_int (get_field_value s "noVotes")) as [no|] eqn:EN;
    [| discriminate].
  destruct (ufix64_to_float (get_field_value s "endDate")) as [ed|] eqn:EE;
    [| discriminate].
  cbn [mbind res_bind] in P. res_invert P.
  match goal with I : py_int (PFloat ed) = Ok _ |- _ => rename I into EDI end.
  injection P as <-.
  cbn [yesVotes noVotes parkName parkId description creator endDate].
  split; [intros n F; rewrite (GI _ _ F) in EY; injection EY as <-; reflexivity |].
  split; [intros n F; rewrite (GI _ _ F) in EN; injection EN as <-; reflexivity |].
  split; [intros t F; exact (GS _ _ F) |].
  split; [intros t F; exact (GS _ _ F) |].
  split; [intros t F; exact (GS _ _ F) |].
  split; [intros t F; exact (GS _ _ F) |].
  intros raw F. rewrite (GI _ _ F) in EE. unfold ufix64_to_float in EE.
  cbn [is_none] in EE.
  destruct (py_float (PInt raw)) as [f|] eqn:PF; [| discriminate].
  cbn [mbind res_bind] in EE. injection EE as <-.
  exists f. split; [reflexivity |].
  cbn [py_int] in EDI. destruct (ftrunc (fdiv f f1e8)); [| discriminate].
  injection EDI as <-. reflexivity.
Qed.

(** X11.  A query never raises and sleeps at most 2 + 4 = 6 seconds; when
    the node gives nothing at the first attempt the result is [None] after
    that one execution. *)
Theorem query_returns_within_six_seconds (self : FlowBlockchainService)
    (answers : nat -> res (option pyobj)) (proposal_id : Z) :
  (exists t r, get_proposal self answers proposal_id = (t, Ok r))
  /\ 0 <= slept (fst (get_proposal self answers proposal_id)) <= 6
  /\ (answers 0%nat = Ok None ->
      get_proposal self answers proposal_id
      = ([ExecuteScript (GetProposalScript (contract_addr self)) [CUInt64 proposal_id]],
         Ok None)).
Proof.
  unfold get_proposal. cbn [seq max_retries].
  rewrite !get_proposal_loop_cons.
  cbn [get_proposal_loop mret io_ret fst snd].
  change (0 <? max_retries - 1)%nat with true.
  change (1 <? max_retries - 1)%nat with true.
  change (2 <? max_retries - 1)%nat with false.
  split; [| split].
  - destruct (answers 0%nat) as [[v0|]|e0]; eauto.
    rewrite andb_true_r. destruct (rate_limited e0); eauto.
    destruct (answers 1%nat) as [[v1|]|e1]; eauto.
    rewrite andb_true_r. destruct (rate_limited e1); eauto.
    destruct (answers 2%nat) as [[v2|]|e2]; eauto.
    rewrite andb_false_r. eauto.
  - destruct (answers 0%nat) as [[v0|]|e0]; try (simpl; lia).
    rewrite andb_true_r. destruct (rate_limited e0); try (simpl; lia).
    destruct (answers 1%nat) as [[v1|]|e1]; try (simpl; lia).
    rewrite andb_true_r. destruct (rate_limited e1); try (simpl; lia).
    destruct (answers 2%nat) as [[v2|]|e2]; try (simpl; lia).
    rewrite andb_false_r. simpl. lia.
  - intros ->. reflexivity.
Qed.

End DecoderRuns.

(** ** Configuration, summary and balance *)

Section ServiceFacts.
Import Service Counter Summary Account.
Context `{Platform} `{FlowSdk}.

(** X12.  The service has a signer exactly when a private key that is not
    empty is configured, the SDK was imported, and the constructor of the
    signer accepted the key; it is then the signer built from that key. *)
Theorem signer_requires_key_and_sdk (environ : gmap string pystr)
    (FLOW_SDK_AVAILABLE : bool) (s : Signer) :
  signer (init environ FLOW_SDK_AVAILABLE) = Some s
  <-> exists k : pystr, environ !! "FLOW_PRIVATE_KEY" = Some k /\ k <> []
                /\ FLOW_SDK_AVAILABLE = true
                /\ in_memory_signer (PStr k) = Ok s.
Proof.
  unfold init. cbn [signer]. split.
  - match goal with
    | |- context [match ?l with Some _ => _ | None => _ end] =>
        destruct l as [k|] eqn:K; [| discriminate]
    end.
    destruct k as [|c k]; [discriminate |]. cbn [truthy andb].
    destruct FLOW_SDK_AVAILABLE; [| discriminate].
    destruct (in_memory_signer (PStr (c :: k))) as [s'|] eqn:E; [| discriminate].
    intros I. injection I as ->. exists (c :: k). auto.
  - intros (k & -> & N & -> & E). destruct k as [|c k]; [congruence |].
    cbn [truthy andb]. rewrite E. reflexivity.
Qed.

Lemma strip_0x_cons (c : N) (s : pystr) :
  strip_0x (c :: s)
  = match s with
    | c' :: s' => if ((c =? 48) && (c' =? 120))%N then strip_0x s'
                  else c :: strip_0x s
    | [] => [c]
    end.
Proof.
  destruct c as [|p]; [destruct s; reflexivity |].
  do 6 (try (destruct p as [p|p|]; try (destruct s; reflexivity))).
  destruct s as [|c' s']; [reflexivity |].
  destruct c' as [|q]; [reflexivity |].
  do 7 (try (destruct q as [q|q|]; try reflexivity)).
Qed.

Lemma strip_0x_without_x (s : pystr) : ~ In 120%N s -> strip_0x s = s.
Proof.
  induction s as [|c s IH]; [reflexivity |]. intros N.
  assert (Ns : ~ In 120%N s) by (intros I; apply N; right; exact I).
  rewrite strip_0x_cons. destruct s as [|c' s']; [reflexivity |].
  destruct (c' =? 120)%N eqn:X.
  - apply N.eqb_eq in X. subst c'. exfalso. apply N. right. left. reflexivity.
  - rewrite andb_false_r, (IH Ns). reflexivity.
Qed.

(** X13.  An account address configured as [0x] followed by digits that
    hold no [x] is kept without the prefix, and when no contract address is
    configured the contract address, also the one the scripts import from,
    is that address. *)
Theorem address_prefix_is_removed (environ : gmap string pystr)
    (FLOW_SDK_AVAILABLE : bool) (digits : pystr) :
  ~ In 120%N digits ->
  environ !! "FLOW_ADDRESS" = Some (u "0x" ++ digits : pystr) ->
  address (init environ FLOW_SDK_AVAILABLE) = digits
  /\ (environ !! "FLOW_CONTRACT_ADDRESS" = @None pystr ->
      contract_address (init environ FLOW_SDK_AVAILABLE) = digits
      /\ contract_addr (init environ FLOW_SDK_AVAILABLE) = digits).
Proof.
  intros N A.
  assert (E : address (init environ FLOW_SDK_AVAILABLE) = digits).
  { unfold init, getenv. cbn [address]. rewrite A.
    change (strip_0x digits = digits). now apply strip_0x_without_x. }
  split; [exact E |]. intros C.
  assert (E' : contract_address (init environ FLOW_SDK_AVAILABLE) = digits).
  { change (contract_address (init environ FLOW_SDK_AVAILABLE))
      with (strip_0x (getenv environ "FLOW_CONTRACT_ADDRESS"
                        (address (init environ FLOW_SDK_AVAILABLE)))).
    rewrite E. unfold getenv. rewrite C. now apply strip_0x_without_x. }
  split; [exact E' |].
  unfold contract_addr. rewrite E', E.
  destruct (truthy (PStr digits)); now apply strip_0x_without_x.
Qed.

(** X14.  The summary generator never fails and calls the summarizer once:
    when the summarizer raises or gives no text the description is the
    templated fallback; a text is stripped and, when it then has more than
    240 characters, cut to the first 240, and returned as it is when it
    has 230 to 240. *)
Theorem summary_generator_never_fails (response_text : res pyobj)
    (full_summary : pyobj) (analysis_data : gmap string pyobj) :
  exists description,
    _generate_blockchain_summary response_text full_summary analysis_data
    = ([Summarize], Ok description)
    /\ ((exists e, response_text = Raise e)
        \/ (exists o, response_text = Ok o /\ forall t, o <> PStr t) ->
        description = fallback_summary analysis_data)
    /\ (forall t, response_text = Ok (PStr t) ->
        description = ensure_length (strip t)
        /\ ((240 < length (strip t))%nat ->
            description = take 240 (strip t) /\ length description = 240%nat)
        /\ ((230 <= length (strip t) <= 240)%nat -> description = strip t)).
Proof.
  unfold _generate_blockchain_summary, call, pure.
  destruct response_text as [o|e].
  - destruct o as [| | | |t| | |];
      try (eexists; split; [reflexivity |]; split;
           [reflexivity | intros t' E; discriminate E]).
    exists (ensure_length (strip t)). split; [reflexivity |]. split.
    + intros [[e E]|(o & E & N)]; [discriminate |].
      injection E as <-. exfalso. exact (N t eq_refl).
    + intros t' E. injection E as <-. split; [reflexivity |].
      unfold ensure_length. split.
      * intros L.
        destruct (length (strip t) <? 230)%nat eqn:A; [apply Nat.ltb_lt in A; lia |].
        destruct (240 <? length (strip t))%nat eqn:B; [| apply Nat.ltb_ge in B; lia].
        split; [reflexivity |]. rewrite length_take. lia.
      * intros L.
        destruct (length (strip t) <? 230)%nat eqn:A; [apply Nat.ltb_lt in A; lia |].
        destruct (240 <? length (strip t))%nat eqn:B; [apply Nat.ltb_lt in B; lia |].
        reflexivity.
  - eexists. split; [reflexivity |]. split; [reflexivity |].
    intros t E. discriminate E.
Qed.

(** X15.  The balance query never raises: without an address it returns
    0.0 and makes no call; when the account is read it returns the balance
    divided by [1e8]; when the reading raises it returns 0.0. *)
Theorem balance_defaults_to_zero (self : FlowBlockchainService)
    (answer : res Ledger.Account) :
  (exists t b, get_balance self answer = (t, Ok b))
  /\ (address self = [] -> get_balance self answer = ([], Ok (S754_zero false)))
  /\ (forall a,
       address self <> [] -> address_from_hex (address self) = Ok a ->
       (forall account f,
          answer = Ok account -> py_float (PInt (balance account)) = Ok f ->
          get_balance self answer = ([GetAccount a], Ok (fdiv f f1e8)))
       /\ (forall e, answer = Raise e ->
           get_balance self answer = ([GetAccount a], Ok (S754_zero false)))).
Proof.
  unfold get_balance. split; [| split].
  - destruct (negb (truthy (PStr (address self)))); [eauto |].
    match goal with |- context [try_except ?m _] => destruct m as [t [b|e]] end;
      simpl; eauto.
  - intros ->. reflexivity.
  - intros a N A. destruct (address self) as [|c s] eqn:AD; [congruence |].
    cbn [truthy negb]. unfold pure, call. rewrite A. split.
    + intros account f -> F. rewrite !io_bind_ok. cbn [fst snd]. rewrite F. reflexivity.
    + intros e ->. reflexivity.
Qed.

End ServiceFacts.

(** ** The run of a close transaction and of the sweep *)

Section CloserRuns.
Import Closer Trace.
Context `{Platform} `{FlowSdk}.

Lemma sent_app (t t' : list event) :
  sent_transactions (t ++ t') = sent_transactions t ++ sent_transactions t'.
Proof.
  induction t as [|ev t IH]; [reflexivity |].
  destruct ev; simpl; rewrite IH; reflexivity.
Qed.

Lemma fetched_ids_cons (ev : event) (t : list event) :
  fetched_ids (ev :: t)
  = match ev with
    | ExecuteScript (GetProposalScript _) [CUInt64 n] => n :: fetched_ids t
    | _ => fetched_ids t
    end.
Proof. destruct ev; reflexivity. Qed.

Lemma fetched_ids_app (t t' : list event) :
  fetched_ids (t ++ t') = fetched_ids t ++ fetched_ids t'.
Proof.
  induction t as [|ev t IH]; [reflexivity |].
  rewrite <- app_comm_cons, !fetched_ids_cons, IH.
  destruct ev as [| | | | | | |c args]; try reflexivity.
  destruct c; try reflexivity.
  destruct args as [|[] [|]]; reflexivity.
Qed.

Lemma slept_app (t t' : list event) : slept (t ++ t') = slept t + slept t'.
Proof.
  induction t as [|ev t IH]; [reflexivity |].
  destruct ev; simpl; rewrite IH; lia.
Qed.

Lemma seal_loop_S (env : CloseEnv) (tx_id : pystr) (fuel attempt : nat) :
  seal_loop env tx_id (S fuel) attempt
  = (_ ← call (Sleep 2) (Ok tt);
     tx_result_response ← call (GetTransactionResult tx_id)
                               (get_transaction_result env attempt);
     if 4 <=? status tx_result_response then
       if truthy (PStr (error_message tx_result_response))
       then mret false else mret true
     else seal_loop env tx_id fuel (S attempt)).
Proof. reflexivity. Qed.

(** The polls of a close transaction: nothing is sent or fetched, two
    seconds are slept before each poll, and [True] is returned only at a
    poll that reports status 4 or more without an error message. *)
Lemma seal_loop_run (env : CloseEnv) (tx_id : pystr) (fuel attempt : nat) :
  sent_transactions (fst (seal_loop env tx_id fuel attempt)) = []
  /\ fetched_ids (fst (seal_loop env tx_id fuel attempt)) = []
  /\ 0 <= slept (fst (seal_loop env tx_id fuel attempt)) <= 2 * Z.of_nat fuel
  /\ (snd (seal_loop env tx_id fuel attempt) = Ok true ->
      exists k r,
        (k < fuel)%nat
        /\ (forall j, (j < k)%nat ->
              exists r', get_transaction_result env (attempt + j) = Ok r'
                         /\ status r' < 4)
        /\ get_transaction_result env (attempt + k) = Ok r
        /\ 4 <= status r /\ error_message r = []
        /\ slept (fst (seal_loop env tx_id fuel attempt)) = 2 * (Z.of_nat k + 1)).
Proof.
  revert attempt. induction fuel as [|fuel IH]; intros attempt.
  - simpl. repeat split; try lia. discriminate.
  - rewrite seal_loop_S. unfold call. rewrite io_bind_ok. cbn [fst snd].
    destruct (get_transaction_result env attempt) as [r|e] eqn:E.
    + rewrite io_bind_ok. cbn [fst snd].
      destruct (4 <=? status r) eqn:S4.
      * apply Z.leb_le in S4.
        destruct (error_message r) as [|ch msg] eqn:M; cbn [truthy].
        -- simpl. repeat split; try lia. intros _. exists 0%nat, r.
           rewrite Nat.add_0_r. repeat split; try assumption; try lia.
        -- simpl. repeat split; try lia. discriminate.
      * apply Z.leb_gt in S4.
        destruct (IH (S attempt)) as (I1 & I2 & I3 & I4).
        rewrite !sent_app, !fetched_ids_app, !slept_app, I1, I2.
        change (slept [Sleep 2]) with 2.
        change (slept [GetTransactionResult tx_id]) with 0.
        repeat split; try reflexivity; try lia.
        intros R. destruct (I4 R) as (k & r' & L & U & E' & S' & M & SL).
        exists (S k), r'.
        replace (attempt + S k)%nat with (S attempt + k)%nat by lia.
        repeat split; try assumption; try lia.
        intros j Lj. destruct j as [|j].
        ++ exists r. rewrite Nat.add_0_r. auto.
        ++ destruct (U j) as (r'' & E'' & L''); [lia |].
           exists r''. replace (attempt + S j)%nat with (S attempt + j)%nat by lia.
           auto.
    + rewrite io_bind_raise. simpl. repeat split; try lia. discriminate.
Qed.

(** A close either stops before a transaction is sent and returns [False],
    or reads the account and the block and sends the transaction built
    from them. *)
Lemma close_run (self : ProposalCloser) (env : CloseEnv) (proposal_id : Z) :
  (exists t, close_proposal self env proposal_id = (t, Ok false)
             /\ sent_transactions t = [] /\ fetched_ids t = [] /\ slept t = 0)
  \/ (exists account_address account latest_block key0,
        address_from_hex (address self) = Ok account_address
        /\ get_account_at_latest_block env = Ok account
        /\ get_latest_block env = Ok latest_block
        /\ first_key account = Ok key0
        /\ let tx :=
             {| tx_code := UpdateProposalStatusTx (contract_address self);
                reference_block_id := latest_block;
                payer := account_address;
                proposal_key := {| key_address := account_address; key_id := 0;
                                   key_sequence_number := sequence_number key0 |};
                authorizers := [account_address];
                arguments := [CUInt64 proposal_id];
                envelope_signature := Some (account_address, 0, signer self) |} in
           close_proposal self env proposal_id
           = try_except
               (([GetAccount account_address; GetLatestBlock; SendTransaction tx],
                 send_transaction env tx)
                ≫= fun tx_id => seal_loop env tx_id (max_attempts - 0) 0)
               (fun _ => mret false)).
Proof.
  unfold close_proposal, pure, call.
  destruct (address_from_hex (address self)) as [a|e1] eqn:E1;
    [| left; eexists; split; [reflexivity | repeat split; reflexivity]].
  rewrite io_bind_ok. cbn [fst snd].
  destruct (get_account_at_latest_block env) as [account|e2] eqn:E2;
    [| left; eexists; split; [reflexivity | repeat split; reflexivity]].
  rewrite io_bind_ok. cbn [fst snd].
  destruct (get_latest_block env) as [latest_block|e3] eqn:E3;
    [| left; eexists; split; [reflexivity | repeat split; reflexivity]].
  rewrite io_bind_ok. cbn [fst snd].
  destruct (first_key account) as [key0|e4] eqn:E4;
    [| left; eexists; split; [reflexivity | repeat split; reflexivity]].
  rewrite io_bind_ok. cbn [fst snd].
  right. exists a, account, latest_block, key0.
  repeat (split; [first [assumption | reflexivity] |]). cbn zeta.
  match goal with
  | |- context [send_transaction env ?tx] => destruct (send_transaction env tx)
  end; rewrite ?io_bind_ok; reflexivity.
Qed.

(** X16.  A close is a single attempt that never raises: it sends at most
    one transaction, which is the status update of the contract for the id
    alone, paid, authorized and signed by the configured account; it sleeps
    at most 60 seconds; and it returns [True] only when that transaction
    was accepted and one of the first thirty polls, the earlier ones
    reporting a status below 4, reported status 4 or more without an error
    message. *)
Theorem close_is_a_single_attempt (self : ProposalCloser) (env : CloseEnv)
    (proposal_id : Z) :
  let t := fst (close_proposal self env proposal_id) in
  (exists b, close_proposal self env proposal_id = (t, Ok b))
  /\ (forall tx, In tx (sent_transactions t) ->
        sent_transactions t = [tx]
        /\ tx_code tx = UpdateProposalStatusTx (contract_address self)
        /\ arguments tx = [CUInt64 proposal_id]
        /\ exists account_address,
             address_from_hex (address self) = Ok account_address
             /\ payer tx = account_address
             /\ authorizers tx = [account_address]
             /\ envelope_signature tx = Some (account_address, 0, signer self))
  /\ 0 <= slept t <= 60
  /\ (close_succeeds self env proposal_id = true ->
      exists tx tx_id k r,
        sent_transactions t = [tx]
        /\ send_transaction env tx = Ok tx_id
        /\ (k < 30)%nat
        /\ (forall j, (j < k)%nat ->
              exists r', get_transaction_result env j = Ok r' /\ status r' < 4)
        /\ get_transaction_result env k = Ok r
        /\ 4 <= status r /\ error_message r = []
        /\ slept t = 2 * (Z.of_nat k + 1)).
Proof.
  cbn zeta. split; [eexists; apply close_proposal_returns |].
  unfold close_succeeds.
  destruct (close_run self env proposal_id)
    as [(t & -> & S0 & _ & SL)
       |(a & account & latest_block & key0 & E1 & E2 & E3 & E4 & R)].
  - cbn [fst snd]. rewrite S0, SL.
    split; [intros tx [] |]. split; [lia | discriminate].
  - cbn zeta in R. rewrite R. clear R.
    match goal with
    | |- context [send_transaction env ?tx0] =>
        set (tx := tx0); destruct (send_transaction env tx) as [tx_id|e5] eqn:E5
    end.
    + rewrite io_bind_ok. cbn [fst snd].
      destruct (seal_loop_run env tx_id (max_attempts - 0) 0) as (I1 & I2 & I3 & I4).
      destruct (seal_loop env tx_id (max_attempts - 0) 0) as [t' [b|e]] eqn:SLoop;
        cbn [fst snd try_except mret io_ret] in *;
        rewrite ?app_nil_r;
        change (sent_transactions
                  ([GetAccount a; GetLatestBlock; SendTransaction tx] ++ t'))
          with (tx :: sent_transactions t');
        change (slept ([GetAccount a; GetLatestBlock; SendTransaction tx] ++ t'))
          with (slept t');
        rewrite I1; change (max_attempts - 0)%nat with 30%nat in *.
      * split; [| split; [lia |]].
        -- intros tx' [<-|[]]. repeat split. exists a. repeat split. exact E1.
        -- intros ->. destruct (I4 eq_refl) as (k & r & L & U & E & S4 & M & SL).
           exists tx, tx_id, k, r. repeat split; assumption.
      * split; [| split; [lia | discriminate]].
        intros tx' [<-|[]]. repeat split. exists a. repeat split. exact E1.
    + cbn [fst snd try_except mret io_ret mbind io_bind]. simpl.
      split; [| split; [lia | discriminate]].
      intros tx' [<-|[]]. repeat split. exists a. repeat split. exact E1.
Qed.

Lemma close_proposal_sends (self : ProposalCloser) (env : CloseEnv) (proposal_id : Z) :
  fetched_ids (fst (close_proposal self env proposal_id)) = []
  /\ (length (sent_transactions (fst (close_proposal self env proposal_id))) <= 1)%nat
  /\ (forall tx,
        In tx (sent_transactions (fst (close_proposal self env proposal_id))) ->
        tx_code tx = UpdateProposalStatusTx (contract_address self)
        /\ arguments tx = [CUInt64 proposal_id]).
Proof.
  destruct (close_run self env proposal_id)
    as [(t & -> & S0 & F0 & _)
       |(a & account & latest_block & key0 & _ & _ & _ & _ & R)].
  - cbn [fst]. rewrite S0, F0.
    split; [reflexivity |]. split; [simpl; lia |]. intros tx [].
  - cbn zeta in R. rewrite R. clear R.
    match goal with
    | |- context [send_transaction env ?tx0] =>
        set (tx := tx0); destruct (send_transaction env tx) as [tx_id|e5]
    end.
    + rewrite io_bind_ok. cbn [fst snd].
      destruct (seal_loop_run env tx_id (max_attempts - 0) 0) as (I1 & I2 & _).
      destruct (seal_loop env tx_id (max_attempts - 0) 0) as [t' [b|e]];
        cbn [fst snd try_except mret io_ret] in *;
        rewrite ?app_nil_r;
        change (sent_transactions
                  ([GetAccount a; GetLatestBlock; SendTransaction tx] ++ t'))
          with (tx :: sent_transactions t');
        change (fetched_ids ([GetAccount a; GetLatestBlock; SendTransaction tx] ++ t'))
          with (fetched_ids t');
        rewrite I1, I2;
        (split; [reflexivity |]); (split; [simpl; lia |]);
        intros tx' [<-|[]]; split; reflexivity.
    + simpl. split; [reflexivity |]. split; [lia |].
      intros tx' [<-|[]]; split; reflexivity.
Qed.

(** One turn of the sweep either ends after the fetch alone, or has read an
    end date that lies before the current time and runs a close. *)
Lemma sweep_step_run (self : ProposalCloser) (env : SweepEnv) (current_time : float)
    (position : nat) (proposal_id : Z) (c : counts) :
  let fetch := ExecuteScript (GetProposalScript (contract_address self))
                             [CUInt64 proposal_id] in
  (exists r, sweep_step self env current_time position proposal_id c = ([fetch], r))
  \/ (exists v raw,
        end_date_field_value (fetched (proposal_details env position)) = Some v
        /\ py_float v = Ok raw
        /\ fgtb current_time (fdiv raw f1e8) = true
        /\ sweep_step self env current_time position proposal_id c
           = (fetch :: fst (close_proposal self (closing env position) proposal_id),
              Ok (if close_succeeds self (closing env position) proposal_id
                  then count_closed c else count_failed c))).
Proof.
  cbn zeta.
  destruct (truthy (fetched (proposal_details env position))) eqn:T;
    [| left; rewrite sweep_step_failed by auto; eauto].
  destruct (end_date_field_value (fetched (proposal_details env position)))
    as [v|] eqn:D; [| left; rewrite sweep_step_failed by auto; eauto].
  destruct (py_float v) as [raw|e] eqn:F.
  - destruct (log_dates (fdiv raw f1e8) current_time) as [[]|e] eqn:L.
    + rewrite (sweep_step_dated _ _ _ _ _ _ v raw T D F L).
      destruct (fgtb current_time (fdiv raw f1e8)) eqn:G; [| eauto].
      right. exists v, raw. auto.
    + left. unfold sweep_step.
      rewrite get_proposal_details_returns, io_bind_ok. cbn [fst snd].
      rewrite T, D. cbn [negb]. unfold pure. rewrite F, io_bind_ok. cbn [fst snd].
      rewrite L. eauto.
  - left. unfold sweep_step.
    rewrite get_proposal_details_returns, io_bind_ok. cbn [fst snd].
    rewrite T, D. cbn [negb]. unfold pure. rewrite F. eauto.
Qed.

Lemma sweep_step_raises (self : ProposalCloser) (env : SweepEnv) (current_time : float)
    (position : nat) (proposal_id : Z) (c : counts) (v : pyobj) (e : pystr) :
  truthy (fetched (proposal_details env position)) = true ->
  end_date_field_value (fetched (proposal_details env position)) = Some v ->
  py_float v = Raise e ->
  sweep_step self env current_time position proposal_id c
  = ([ExecuteScript (GetProposalScript (contract_address self)) [CUInt64 proposal_id]],
     Raise e).
Proof.
  intros T D F. unfold sweep_step.
  rewrite get_proposal_details_returns, io_bind_ok. cbn [fst snd].
  rewrite T, D. cbn [negb]. unfold pure. rewrite F. reflexivity.
Qed.

(** The trace of one turn: its id is fetched once; at most one transaction
    is sent. *)
Lemma sweep_step_trace (self : ProposalCloser) (env : SweepEnv) (current_time : float)
    (position : nat) (proposal_id : Z) (c : counts) :
  fetched_ids (fst (sweep_step self env current_time position proposal_id c))
  = [proposal_id]
  /\ (length (sent_transactions
                (fst (sweep_step self env current_time position proposal_id c)))
      <= 1)%nat.
Proof.
  destruct (sweep_step_run self env current_time position proposal_id c)
    as [[r ->]|(v & raw & _ & _ & _ & ->)]; cbn zeta; cbn [fst].
  - split; [reflexivity | simpl; lia].
  - destruct (close_proposal_sends self (closing env position) proposal_id)
      as (F & L & _).
    rewrite fetched_ids_cons, F. split; [reflexivity | exact L].
Qed.

Lemma sweep_loop_cons (self : ProposalCloser) (env : SweepEnv) (current_time : float)
    (position : nat) (proposal_id : Z) (rest : list Z) (c : counts) :
  sweep_loop self env current_time position (proposal_id :: rest) c
  = (sweep_step self env current_time position proposal_id c
     ≫= fun c' => sweep_loop self env current_time (S position) rest c').
Proof. reflexivity. Qed.

(** Every transaction of the loop closes an id of the list whose end date
    was read and lies before the current time. *)
Lemma sweep_loop_sent (self : ProposalCloser) (env : SweepEnv) (current_time : float)
    (active_proposals : list Z) (position : nat) (c : counts) (tx : Tx) :
  In tx (sent_transactions
           (fst (sweep_loop self env current_time position active_proposals c))) ->
  exists k proposal_id v raw,
    active_proposals !! k = Some proposal_id
    /\ tx_code tx = UpdateProposalStatusTx (contract_address self)
    /\ arguments tx = [CUInt64 proposal_id]
    /\ end_date_field_value (fetched (proposal_details env (position + k))) = Some v
    /\ py_float v = Ok raw
    /\ fgtb current_time (fdiv raw f1e8) = true.
Proof.
  revert position c.
  induction active_proposals as [|proposal_id rest IH]; intros position c.
  - intros [].
  - rewrite sweep_loop_cons.
    assert (Later : forall c', In tx (sent_transactions
                       (fst (sweep_loop self env current_time (S position) rest c'))) ->
              exists k proposal_id0 v raw,
                (proposal_id :: rest) !! k = Some proposal_id0
                /\ tx_code tx = UpdateProposalStatusTx (contract_address self)
                /\ arguments tx = [CUInt64 proposal_id0]
                /\ end_date_field_value (fetched (proposal_details env (position + k)))
                   = Some v
                /\ py_float v = Ok raw
                /\ fgtb current_time (fdiv raw f1e8) = true).
    { intros c' I. destruct (IH _ _ I) as (k & i & v & raw & K & P).
      exists (S k), i, v, raw.
      replace (position + S k)%nat with (S position + k)%nat by lia.
      split; [exact K | exact P]. }
    destruct (sweep_step_run self env current_time position proposal_id c)
      as [[r ->]|(v & raw & D & F & G & ->)]; cbn zeta.
    + destruct r as [c'|e]; [| intros []].
      rewrite io_bind_ok. cbn [fst snd app].
      change (sent_transactions (?ev :: ?t)) with (sent_transactions t).
      apply Later.
    + rewrite io_bind_ok. cbn [fst snd]. rewrite <- app_comm_cons.
      change (sent_transactions (?ev :: ?t)) with (sent_transactions t).
      rewrite sent_app, in_app_iff. intros [I|I]; [| exact (Later _ I)].
      destruct (close_proposal_sends self (closing env position) proposal_id)
        as (_ & _ & S). destruct (S tx I) as (S1 & S2).
      exists 0%nat, proposal_id, v, raw. rewrite Nat.add_0_r.
      repeat split; first [assumption | reflexivity].
Qed.

(** When the end date of the [k]-th id does not convert, the loop raises
    there, after the fetches of the ids up to it. *)
Lemma sweep_loop_stops (self : ProposalCloser) (env : SweepEnv) (current_time : float)
    (active_proposals : list Z) (position : nat) (c : counts) (k : nat)
    (v : pyobj) (e : pystr) :
  (k < length active_proposals)%nat ->
  (forall j, (j < k)%nat -> readable current_time (proposal_details env (position + j))) ->
  truthy (fetched (proposal_details env (position + k))) = true ->
  end_date_field_value (fetched (proposal_details env (position + k))) = Some v ->
  py_float v = Raise e ->
  snd (sweep_loop self env current_time position active_proposals c) = Raise e
  /\ fetched_ids (fst (sweep_loop self env current_time position active_proposals c))
     = take (S k) active_proposals.
Proof.
  revert position c k.
  induction active_proposals as [|proposal_id rest IH]; intros position c k L R T D F.
  - simpl in L. lia.
  - rewrite sweep_loop_cons. destruct k as [|k].
    + rewrite Nat.add_0_r in T, D.
      rewrite (sweep_step_raises _ _ _ _ _ _ v e T D F). split; reflexivity.
    + destruct (sweep_step_counts self env current_time position proposal_id c)
        as (t1 & c1 & E1 & _).
      { specialize (R 0%nat). rewrite Nat.add_0_r in R. apply R. lia. }
      destruct (sweep_step_trace self env current_time position proposal_id c)
        as (F1 & _).
      rewrite E1 in F1 |- *. cbn [fst] in F1. rewrite io_bind_ok. cbn [fst snd].
      replace (position + S k)%nat with (S position + k)%nat in T, D by lia.
      destruct (IH (S position) c1 k) as (I1 & I2); try assumption.
      { simpl in L. lia. }
      { intros j Lj. replace (S position + j)%nat with (position + S j)%nat by lia.
        apply R. lia. }
      rewrite fetched_ids_app, F1, I1, I2. split; reflexivity.
Qed.

(** When every end date can be read, each id is fetched once, in the order
    of the list, and at most one transaction is sent for each. *)
Lemma sweep_loop_trace (self : ProposalCloser) (env : SweepEnv) (current_time : float)
    (active_proposals : list Z) (position : nat) (c : counts) :
  (forall k, (k < length active_proposals)%nat ->
     readable current_time (proposal_details env (position + k))) ->
  fetched_ids (fst (sweep_loop self env current_time position active_proposals c))
  = active_proposals
  /\ (length (sent_transactions
                (fst (sweep_loop self env current_time position active_proposals c)))
      <= length active_proposals)%nat.
Proof.
  revert position c.
  induction active_proposals as [|proposal_id rest IH]; intros position c R.
  - split; [reflexivity | simpl; lia].
  - rewrite sweep_loop_cons.
    destruct (sweep_step_counts self env current_time position proposal_id c)
      as (t1 & c1 & E1 & _).
    { specialize (R 0%nat). rewrite Nat.add_0_r in R. apply R. simpl. lia. }
    destruct (sweep_step_trace self env current_time position proposal_id c)
      as (F1 & S1).
    rewrite E1 in F1, S1 |- *. cbn [fst] in F1, S1. rewrite io_bind_ok. cbn [fst snd].
    destruct (IH (S position) c1) as (I1 & I2).
    { intros k L. replace (S position + k)%nat with (position + S k)%nat by lia.
      apply R. simpl. lia. }
    rewrite fetched_ids_app, sent_app, length_app, F1, I1. split; [reflexivity |].
    simpl. lia.
Qed.

(** The sweep, for the list its first call returned. *)
Lemma close_all_run (self : ProposalCloser) (env : SweepEnv) :
  exists active_proposals,
    let listing := ExecuteScript (GetAllActiveProposalsScript (contract_address self)) [] in
    get_all_active_proposals self (active_proposals_script env)
    = ([listing], Ok active_proposals)
    /\ close_all_active_proposals self env
       = match active_proposals with
         | [] => ([listing], Ok None)
         | _ :: _ =>
             (listing :: fst (sweep_loop self env (now_timestamp env) 0 active_proposals
                                {| closed_count := 0; skipped_count := 0;
                                   failed_count := 0 |}),
              match snd (sweep_loop self env (now_timestamp env) 0 active_proposals
                           {| closed_count := 0; skipped_count := 0;
                              failed_count := 0 |}) with
              | Ok c => Ok (Some c)
              | Raise e => Raise e
              end)
         end.
Proof.
  destruct (get_all_active_proposals_returns self (active_proposals_script env))
    as [active_proposals G].
  exists active_proposals. cbn zeta. split; [exact G |].
  unfold close_all_active_proposals. rewrite G, io_bind_ok. cbn [fst snd].
  destruct active_proposals as [|proposal_id rest]; [reflexivity |].
  destruct (sweep_loop self env (now_timestamp env) 0 (proposal_id :: rest) _)
    as [t [c|e]]; [rewrite io_bind_ok |]; cbn [fst snd mret io_ret app];
    rewrite ?app_nil_r; reflexivity.
Qed.

(** X17.  The sweep never closes early: every transaction it sends is the
    status update for an id of the active list whose fetched proposal had
    an end date that was read, converted to a number, and lies strictly
    before the current time. *)
Theorem sweep_closes_only_ended (self : ProposalCloser) (env : SweepEnv) (tx : Tx) :
  In tx (sent_transactions (fst (close_all_active_proposals self env))) ->
  exists active_proposals k proposal_id v raw,
    snd (get_all_active_proposals self (active_proposals_script env))
    = Ok active_proposals
    /\ active_proposals !! k = Some proposal_id
    /\ tx_code tx = UpdateProposalStatusTx (contract_address self)
    /\ arguments tx = [CUInt64 proposal_id]
    /\ end_date_field_value (fetched (proposal_details env k)) = Some v
    /\ py_float v = Ok raw
    /\ fgtb (now_timestamp env) (fdiv raw f1e8) = true.
Proof.
  destruct (close_all_run self env) as (active_proposals & G & ->). cbn zeta in G.
  rewrite G. destruct active_proposals as [|proposal_id rest]; [intros [] |].
  cbn [fst snd].
  change (sent_transactions (?ev :: ?t)) with (sent_transactions t).
  intros I. apply sweep_loop_sent in I as (k & i & v & raw & K & P).
  exists (proposal_id :: rest), k, i, v, raw. split; [reflexivity |].
  split; [exact K | exact P].
Qed.

(** X18.  The sweep has no handler around the conversion of the end date:
    when the [endDate] of a fetched proposal holds a value [float] refuses,
    the exception leaves the sweep, and the ids after it are not fetched;
    no summary is reported. *)
Theorem sweep_stops_at_unreadable_end_date (self : ProposalCloser) (env : SweepEnv)
    (active_proposals : list Z) (k : nat) (v : pyobj) (e : pystr) :
  snd (get_all_active_proposals self (active_proposals_script env))
  = Ok active_proposals ->
  (k < length active_proposals)%nat ->
  (forall j, (j < k)%nat -> readable (now_timestamp env) (proposal_details env j)) ->
  truthy (fetched (proposal_details env k)) = true ->
  end_date_field_value (fetched (proposal_details env k)) = Some v ->
  py_float v = Raise e ->
  snd (close_all_active_proposals self env) = Raise e
  /\ fetched_ids (fst (close_all_active_proposals self env))
     = take (S k) active_proposals.
Proof.
  intros G L R T D F.
  destruct (close_all_run self env) as (ids & G' & ->). cbn zeta in G'.
  rewrite G' in G. injection G as ->.
  destruct active_proposals as [|proposal_id rest]; [simpl in L; lia |].
  destruct (sweep_loop_stops self env (now_timestamp env) (proposal_id :: rest) 0
              {| closed_count := 0; skipped_count := 0; failed_count := 0 |} k v e)
    as (S1 & S2); try assumption.
  cbn [fst snd]. rewrite S1, fetched_ids_cons, S2. split; reflexivity.
Qed.

(** X19.  When every end date can be read, the sweep fetches each active
    id once, in the order of the list, sends at most one transaction for
    each, and reports counts. *)
Theorem sweep_fetches_each_id_once (self : ProposalCloser) (env : SweepEnv)
    (active_proposals : list Z) :
  snd (get_all_active_proposals self (active_proposals_script env))
  = Ok active_proposals ->
  (forall k, (k < length active_proposals)%nat ->
     readable (now_timestamp env) (proposal_details env k)) ->
  fetched_ids (fst (close_all_active_proposals self env)) = active_proposals
  /\ (length (sent_transactions (fst (close_all_active_proposals self env)))
      <= length active_proposals)%nat
  /\ exists r, snd (close_all_active_proposals self env) = Ok r.
Proof.
  intros G R.
  destruct (close_all_run self env) as (ids & G' & ->). cbn zeta in G'.
  rewrite G' in G. injection G as ->.
  destruct active_proposals as [|proposal_id rest].
  - cbn [fst snd]. repeat split; try (simpl; lia). eauto.
  - destruct (sweep_loop_trace self env (now_timestamp env) (proposal_id :: rest) 0
                {| closed_count := 0; skipped_count := 0; failed_count := 0 |} R)
      as (T1 & T2).
    destruct (sweep_loop_counts self env (now_timestamp env) (proposal_id :: rest) 0
                {| closed_count := 0; skipped_count := 0; failed_count := 0 |} R)
      as (t1 & c1 & E1 & _).
    cbn [fst snd]. rewrite fetched_ids_cons, T1.
    change (sent_transactions (?ev :: ?t)) with (sent_transactions t).
    rewrite E1 in T2 |- *. cbn [fst snd] in T2 |- *. eauto.
Qed.

End CloserRuns.

(** ** The list of active ids and the endpoints *)

Section ListingRuns.
Import Service Counter Query Trace.
Context `{Platform} `{FlowSdk}.

Lemma map_res_ids (ids : list Z) :
  map_res Closer.id_of (List.map (fun n => cadence_value (PInt n)) ids) = Ok ids.
Proof.
  induction ids as [|n ids IH]; [reflexivity |].
  cbn [List.map map_res]. rewrite IH. reflexivity.
Qed.

Lemma map_res_raises {A B : Type} (f : A -> res B) (l : list A) (x : A) (e : pystr) :
  In x l -> f x = Raise e -> exists e', map_res f l = Raise e'.
Proof.
  induction l as [|y l IH]; [intros [] |].
  intros [->|I] E; cbn [map_res].
  - rewrite E. eauto.
  - destruct (f y) as [b|e0]; [| eauto].
    destruct (IH I E) as [e' ->]. eauto.
Qed.

(** The service and the closer decode the list in the same way. *)
Lemma listing_same (service : FlowBlockchainService) (closer : Closer.ProposalCloser)
    (answer : res (option pyobj)) :
  Listing.get_all_active_proposals service answer
  = ([ExecuteScript (GetAllActiveProposalsScript (contract_addr service)) []],
     snd (Closer.get_all_active_proposals closer answer)).
Proof.
  unfold Listing.get_all_active_proposals, Closer.get_all_active_proposals, call, pure.
  destruct answer as [[v|]|e]; try reflexivity. simpl.
  destruct (getattr v "value") as [w|]; simpl.
  - destruct (py_iter w) as [l|]; simpl; [| reflexivity].
    change (map_res Listing.id_of l) with (map_res Closer.id_of l).
    destruct (map_res Closer.id_of l); reflexivity.
  - destruct (truthy v); simpl; [| reflexivity].
    destruct (py_iter v) as [l|]; simpl; [| reflexivity].
    change (map_res Listing.id_of l) with (map_res Closer.id_of l).
    destruct (map_res Closer.id_of l); reflexivity.
Qed.

Lemma listing_returns (self : FlowBlockchainService) (answer : res (option pyobj)) :
  exists active_proposals,
    Listing.get_all_active_proposals self answer
    = ([ExecuteScript (GetAllActiveProposalsScript (contract_addr self)) []],
       Ok active_proposals).
Proof.
  unfold Listing.get_all_active_proposals, call, pure.
  destruct answer as [[v|]|e]; simpl; eauto.
  destruct (getattr v "value") as [w|]; simpl.
  - destruct (py_iter w) as [l|]; simpl; eauto.
    destruct (map_res Listing.id_of l); simpl; eauto.
  - destruct (truthy v); simpl; eauto.
    destruct (py_iter v) as [l|]; simpl; eauto.
    destruct (map_res Listing.id_of l); simpl; eauto.
Qed.

Lemma cadence_value_value (v : pyobj) : getattr (cadence_value v) "value" = Some v.
Proof. reflexivity. Qed.

Lemma closer_listing_value (closer : Closer.ProposalCloser) (v w : pyobj) :
  getattr v "value" = Some w ->
  snd (Closer.get_all_active_proposals closer (Ok (Some v)))
  = Ok (match l ← py_iter w; map_res Closer.id_of l with
        | Ok ids => ids
        | Raise _ => []
        end).
Proof.
  intros V. unfold Closer.get_all_active_proposals, call, pure. simpl. rewrite V.
  destruct (py_iter w) as [l|]; simpl; [| reflexivity].
  destruct (map_res Closer.id_of l); reflexivity.
Qed.

(** X20.  The list of active ids never raises, and the service and the
    closer decode it alike: an array of [UInt64] gives its numbers in
    order; an exception of the node, an empty result, and an array in which
    one element is no integer all give the empty list. *)
Theorem active_ids_are_decoded_or_dropped (service : FlowBlockchainService)
    (closer : Closer.ProposalCloser) (answer : res (option pyobj)) :
  snd (Listing.get_all_active_proposals service answer)
  = snd (Closer.get_all_active_proposals closer answer)
  /\ (exists ids, snd (Closer.get_all_active_proposals closer answer) = Ok ids)
  /\ (forall ids,
        answer = Ok (Some (cadence_ids ids)) ->
        snd (Closer.get_all_active_proposals closer answer) = Ok ids)
  /\ ((exists e, answer = Raise e) \/ answer = Ok None ->
      snd (Closer.get_all_active_proposals closer answer) = Ok [])
  /\ (forall l v e,
        answer = Ok (Some (cadence_value (PList l))) ->
        In v l -> Closer.id_of v = Raise e ->
        snd (Closer.get_all_active_proposals closer answer) = Ok []).
Proof.
  split; [rewrite (listing_same service closer); reflexivity |].
  split; [destruct (get_all_active_proposals_returns closer answer) as [ids ->]; eauto |].
  split; [| split].
  - intros ids ->. unfold cadence_ids.
    rewrite (closer_listing_value closer _ _ (cadence_value_value _)).
    cbn [py_iter mbind res_bind]. rewrite map_res_ids. reflexivity.
  - intros [[e ->] | ->]; reflexivity.
  - intros l v e -> I E.
    rewrite (closer_listing_value closer _ _ (cadence_value_value _)).
    cbn [py_iter mbind res_bind].
    destruct (map_res_raises Closer.id_of l v e I E) as [e' ->]. reflexivity.
Qed.

(** X21.  When the node cannot be reached for the list, the script ends
    after that one call: nothing is fetched, no transaction is sent, and no
    summary is reported, as when no proposal is active. *)
Theorem sweep_of_unreachable_node_is_silent (environ : gmap string pystr)
    (env : Closer.SweepEnv) (closer : Closer.ProposalCloser) :
  Closer.init environ = Ok closer ->
  (exists e, Closer.active_proposals_script env = Raise e)
  \/ Closer.active_proposals_script env = Ok None
  \/ Closer.active_proposals_script env = Ok (Some (cadence_ids [])) ->
  Closer.main environ env
  = ([ExecuteScript (GetAllActiveProposalsScript (Closer.contract_address closer)) []],
     Ok None).
Proof.
  intros I A. unfold Closer.main, pure. rewrite I, io_bind_ok. cbn [fst snd app].
  unfold Closer.close_all_active_proposals, Closer.get_all_active_proposals, call, pure.
  destruct A as [[e ->] | [-> | ->]]; reflexivity.
Qed.

Lemma api_is_connected_run (ping : res unit) :
  Api.is_connected ping
  = ([Ping], Ok (match ping with Ok _ => true | Raise _ => false end)).
Proof. unfold Api.is_connected, call. destruct ping; reflexivity. Qed.

(** A query returns and sends nothing. *)
Lemma get_proposal_loop_quiet (self : FlowBlockchainService)
    (answers : nat -> res (option pyobj)) (proposal_id : Z)
    (attempts : list nat) (retry_delay : Z) :
  exists t r,
    get_proposal_loop self answers proposal_id attempts retry_delay = (t, Ok r)
    /\ sent_transactions t = [].
Proof.
  revert retry_delay. induction attempts as [|attempt rest IH]; intros retry_delay.
  - exists [], None. split; reflexivity.
  - rewrite get_proposal_loop_cons. cbn zeta.
    destruct (answers attempt) as [[v|]|e]; try (eexists _, _; split; reflexivity).
    destruct (rate_limited e && (attempt <? max_retries - 1)%nat);
      [| eexists _, _; split; reflexivity].
    destruct (IH (retry_delay * 2)) as (t & r & -> & S).
    eexists _, _. split; [reflexivity |]. exact S.
Qed.

(** The loop of the listing endpoint returns records whose ids are among
    the ids asked for, in their order, and sends nothing. *)
Lemma collect_run (self : FlowBlockchainService) (env : Api.ListingEnv)
    (active_proposal_ids : list Z) (position : nat) :
  exists t proposals,
    Api.collect self env position active_proposal_ids = (t, Ok proposals)
    /\ sent_transactions t = []
    /\ sublist (List.map id proposals) active_proposal_ids.
Proof.
  revert position.
  induction active_proposal_ids as [|proposal_id rest IH]; intros position.
  - exists [], []. repeat split. constructor.
  - cbn [Api.collect]. unfold get_proposal.
    destruct (get_proposal_loop_quiet self (Api.fetch env position) proposal_id
                (seq 0 max_retries) 2) as (t1 & r1 & E1 & S1).
    rewrite E1. cbn [try_except]. rewrite io_bind_ok. cbn [fst snd].
    destruct (IH (S position)) as (t2 & ps & E2 & S2 & L2).
    rewrite E2, io_bind_ok. cbn [fst snd mret io_ret].
    eexists _, _. split; [reflexivity |].
    rewrite app_nil_r, sent_app, S1, S2. split; [reflexivity |].
    destruct r1 as [p|].
    + apply get_proposal_loop_id in E1. cbn [List.map]. rewrite E1.
      now apply sublist_skip.
    + now apply sublist_cons.
Qed.

(** X22.  The listing endpoint never raises and never sends a transaction.
    When the ping fails it answers that the chain is not connected after
    that one call; otherwise it answers with a list whose [count] is its
    length and whose records hold, in order, ids of the active list: an id
    whose query gave nothing is left out, and none is added. *)
Theorem listing_endpoint_reads_only (env : Api.ListingEnv) :
  exists t r,
    Api.get_proposals env = (t, Ok r)
    /\ sent_transactions t = []
    /\ ((exists e, Api.ping env = Raise e) ->
        t = [Ping] /\ r = Api.ListingFailed (u "Flow blockchain not connected"))
    /\ (Api.ping env = Ok tt ->
        exists proposals active_proposal_ids,
          r = Api.Listed proposals (length proposals)
          /\ snd (Listing.get_all_active_proposals
                    (Service.init (Api.environ env) (Api.FLOW_SDK_AVAILABLE env))
                    (Api.active_proposals_script env))
             = Ok active_proposal_ids
          /\ sublist (List.map id proposals) active_proposal_ids).
Proof.
  unfold Api.get_proposals. rewrite api_is_connected_run, io_bind_ok. cbn [fst snd].
  destruct (Api.ping env) as [[]|e0] eqn:P; cbn [negb].
  - destruct (listing_returns
                (Service.init (Api.environ env) (Api.FLOW_SDK_AVAILABLE env))
                (Api.active_proposals_script env)) as [ids G].
    rewrite G, !io_bind_ok. cbn [fst snd].
    destruct (collect_run (Service.init (Api.environ env) (Api.FLOW_SDK_AVAILABLE env))
                env ids 0) as (t & ps & C & S & L).
    rewrite C, io_bind_ok. cbn [fst snd mret io_ret try_except].
    eexists _, _. split; [reflexivity |].
    split; [rewrite app_nil_r; exact S |].
    split; [intros [e E]; discriminate E |].
    intros _. exists ps, ids. repeat split. exact L.
  - eexists _, _. split; [reflexivity |]. split; [reflexivity |].
    split; [intros _; split; reflexivity | discriminate].
Qed.

End ListingRuns.

(** ** The endpoints for one proposal *)

Section EndpointRuns.
Import Service EndDate Codec Summary Counter Submission Query Trace.
Context `{Platform} `{FlowSdk} `{Calendar}.

Lemma get_proposal_loop_slept (self : FlowBlockchainService)
    (answers : nat -> res (option pyobj)) (proposal_id : Z) :
  0 <= slept (fst (get_proposal self answers proposal_id)) <= 6.
Proof.
  unfold get_proposal. cbn [seq max_retries].
  rewrite !get_proposal_loop_cons.
  cbn [get_proposal_loop mret io_ret fst snd].
  change (0 <? max_retries - 1)%nat with true.
  change (1 <? max_retries - 1)%nat with true.
  change (2 <? max_retries - 1)%nat with false.
  destruct (answers 0%nat) as [[v0|]|e0]; try (simpl; lia).
  rewrite andb_true_r. destruct (rate_limited e0); try (simpl; lia).
  destruct (answers 1%nat) as [[v1|]|e1]; try (simpl; lia).
  rewrite andb_true_r. destruct (rate_limited e1); try (simpl; lia).
  destruct (answers 2%nat) as [[v2|]|e2]; try (simpl; lia).
  rewrite andb_false_r. simpl. lia.
Qed.

(** X23.  The endpoint for one proposal never raises and never sends a
    transaction.  When the ping fails it answers that the chain is not
    connected after that one call.  A proposal it returns holds the id that
    was asked for, and it sleeps at most 6 seconds. *)
Theorem details_endpoint_returns_the_id_asked (environ : gmap string pystr)
    (FLOW_SDK_AVAILABLE : bool) (ping : res unit)
    (answers : nat -> res (option pyobj)) (proposal_id : Z) :
  exists t r,
    Api.get_proposal_details environ FLOW_SDK_AVAILABLE ping answers proposal_id
    = (t, Ok r)
    /\ sent_transactions t = []
    /\ 0 <= slept t <= 6
    /\ ((exists e, ping = Raise e) ->
        t = [Ping] /\ r = Api.DetailsFailed (u "Flow blockchain not connected"))
    /\ (forall p, r = Api.Details p -> ping = Ok tt /\ id p = proposal_id).
Proof.
  unfold Api.get_proposal_details.
  rewrite api_is_connected_run, io_bind_ok. cbn [fst snd].
  destruct ping as [[]|e0]; cbn [negb].
  - pose proof (get_proposal_loop_slept (Service.init environ FLOW_SDK_AVAILABLE)
                  answers proposal_id) as SL.
    unfold get_proposal in *.
    destruct (get_proposal_loop_quiet (Service.init environ FLOW_SDK_AVAILABLE)
                answers proposal_id (seq 0 max_retries) 2) as (t & r & E & S).
    rewrite E in SL |- *. cbn [fst] in SL. rewrite io_bind_ok. cbn [fst snd].
    destruct r as [p|]; cbn [fst snd mret io_ret try_except];
      eexists _, _; (split; [reflexivity |]); rewrite app_nil_r;
      change (sent_transactions ([Ping] ++ t)) with (sent_transactions t);
      change (slept ([Ping] ++ t)) with (slept t);
      (split; [exact S |]); (split; [exact SL |]);
      (split; [intros [e E']; discriminate E' |]).
    + intros p' P. injection P as <-. split; [reflexivity |].
      exact (get_proposal_loop_id _ _ _ _ _ _ _ E).
    + intros p' P. discriminate P.
  - eexists _, _. split; [reflexivity |]. split; [reflexivity |].
    split; [simpl; lia |].
    split; [intros _; split; reflexivity | intros p P; discriminate P].
Qed.

(** A submission sends at most one transaction. *)
Lemma create_sends_at_most_one (self : FlowBlockchainService) (env : Env)
    (proposal_data : gmap string pyobj) :
  exists t r,
    create_proposal_on_blockchain self env proposal_data = (t, Ok r)
    /\ (length (sent_transactions t) <= 1)%nat.
Proof.
  destruct (create_run self env proposal_data)
    as [(t & e & a & -> & P)
       |(sg & ad & e & d & ds & a & ac & ab & lb & k0 & args & _ & _ & _ & _ & _ & _
         & _ & _ & _ & _ & _ & _ & _ & R)].
  - eexists _, _. split; [reflexivity |].
    rewrite (sent_transactions_prefix t a P). simpl. lia.
  - cbn zeta in R. rewrite R. clear R.
    match goal with
    | |- context [send_transaction env ?tx] => destruct (send_transaction env tx) as [tx_id|e13]
    end.
    + pose proof (poll_for_seal_sends_nothing self env tx_id) as Q.
      destruct (poll_for_seal self env tx_id) as [t' [r|e']]; cbn [fst] in Q;
        eexists _, _; (split; [reflexivity |]);
        rewrite !sent_transactions_app, ?Q; simpl; rewrite ?Q; simpl; lia.
    + eexists _, _. split; [reflexivity |]. simpl. lia.
Qed.

(** X24.  The creation endpoint never raises and sends at most one
    transaction.  When its ping fails it answers that the chain is not
    connected after that one call.  With no private key configured it sends
    no transaction, whatever the request holds. *)
Theorem create_endpoint_needs_a_key (environ : gmap string pystr)
    (FLOW_SDK_AVAILABLE : bool) (ping : res unit) (env : Env)
    (proposal_data : gmap string pyobj) :
  exists t r,
    Api.create_proposal environ FLOW_SDK_AVAILABLE ping env proposal_data = (t, Ok r)
    /\ (length (sent_transactions t) <= 1)%nat
    /\ ((exists e, ping = Raise e) ->
        t = [Ping] /\ r = Failed (u "Flow blockchain not connected") None None)
    /\ (environ !! "FLOW_PRIVATE_KEY" = @None pystr ->
        sent_transactions t = []
        /\ exists e, r = Failed e None None).
Proof.
  unfold Api.create_proposal.
  rewrite api_is_connected_run, io_bind_ok. cbn [fst snd].
  destruct ping as [[]|e0]; cbn [negb].
  - destruct (create_sends_at_most_one (Service.init environ FLOW_SDK_AVAILABLE)
                env proposal_data) as (t & r & E & L).
    pose proof (create_without_signer (Service.init environ FLOW_SDK_AVAILABLE)
                  env proposal_data) as W.
    rewrite E in W |- *. cbn [fst snd try_except].
    eexists _, _. split; [reflexivity |].
    change (sent_transactions ([Ping] ++ t)) with (sent_transactions t).
    split; [exact L |]. split; [intros [e E']; discriminate E' |].
    intros K. specialize (W (init_without_key environ FLOW_SDK_AVAILABLE K)).
    injection W as -> ->. split; [reflexivity | eauto].
  - eexists _, _. split; [reflexivity |]. split; [simpl; lia |].
    split; [intros _; split; reflexivity |]. intros _. split; [reflexivity | eauto].
Qed.

End EndpointRuns.

(** ** The further properties at the example data *)

Section FurtherWitnesses.
Import Examples Scenarios Trace.

Lemma example_tx_sent :
  match example_tx with
  | Some tx =>
      In tx (sent_transactions
               (fst (Submission.create_proposal_on_blockchain (H := Reference.platform)
                       (H0 := Reference.sdk) (H1 := Reference.calendar)
                       example_service example_env example_proposal_data)))
  | None => False
  end.
Proof. vm_compute. left. reflexivity. Qed.

Lemma create_sends_only_when_ready_witness :
  match example_tx with
  | Some tx =>
      envelope_signature tx
      = Some (u "0123456789abcdef", 0, {| signer_private_key_hex := example_key |})
  | None => False
  end.
Proof.
  pose proof example_tx_sent as I.
  destruct example_tx as [tx|]; [| exact I].
  destruct (create_sends_only_when_ready (H := Reference.platform) (H0 := Reference.sdk)
              (H1 := Reference.calendar) example_service example_env
              example_proposal_data tx I)
    as (_ & _ & (s & a & S & A & E) & _).
  vm_compute in S. injection S as <-.
  vm_compute in A. injection A as <-. exact E.
Defined.

Lemma create_transaction_is_built_from_account_witness :
  match example_tx with
  | Some tx =>
      payer tx = u "0123456789abcdef"
      /\ reference_block_id tx = u "b10c"
      /\ key_sequence_number (proposal_key tx) = 7
      /\ length (arguments tx) = 15%nat
  | None => False
  end.
Proof.
  pose proof example_tx_sent as I.
  destruct example_tx as [tx|]; [| exact I].
  destruct (create_transaction_is_built_from_account (H := Reference.platform)
              (H0 := Reference.sdk) (H1 := Reference.calendar) example_service
              example_env example_proposal_data tx I)
    as (a & account & key0 & b & A & G & K & B & _ & R & P & _ & PK & L & _).
  vm_compute in A. injection A as <-.
  vm_compute in G. injection G as <-.
  vm_compute in K. injection K as <-.
  vm_compute in B. injection B as <-.
  rewrite PK. repeat split; assumption.
Defined.

Lemma create_success_means_sealed_witness :
  exists tx n r,
    sent_transactions
      (fst (Submission.create_proposal_on_blockchain (H := Reference.platform)
              (H0 := Reference.sdk) (H1 := Reference.calendar)
              example_service example_env example_proposal_data)) = [tx]
    /\ Submission.send_transaction example_env tx = Ok (u "abc123")
    /\ (n < 30)%nat /\ Submission.unsealed example_env 0 n
    /\ Submission.get_transaction_result example_env n = Ok r
    /\ 4 <= status r /\ error_message r = [].
Proof.
  destruct (create_success_means_sealed (H := Reference.platform) (H0 := Reference.sdk)
              (H1 := Reference.calendar) example_service example_env
              example_proposal_data (u "abc123") 12 0
              (u "https://testnet.flowdiver.io/transaction/abc123"))
    as (tx & n & r & S & T & L & U & G & S4 & M & _).
  - vm_compute. reflexivity.
  - exists tx, n, r. repeat split; assumption.
Defined.

Lemma create_poll_exception_drops_hash_witness :
  snd (Submission.create_proposal_on_blockchain (H := Reference.platform)
         (H0 := Reference.sdk) (H1 := Reference.calendar)
         example_service poll_failing_env example_proposal_data)
  = Ok (Submission.Failed (u "deadline exceeded") None None).
Proof.
  assert (I : match example_tx with
              | Some tx =>
                  In tx (sent_transactions
                           (fst (Submission.create_proposal_on_blockchain
                                   (H := Reference.platform) (H0 := Reference.sdk)
                                   (H1 := Reference.calendar)
                                   example_service poll_failing_env
                                   example_proposal_data)))
              | None => False
              end).
  { vm_compute. left. reflexivity. }
  destruct example_tx as [tx|]; [| destruct I].
  apply (create_poll_exception_drops_hash (H := Reference.platform) (H0 := Reference.sdk)
           (H1 := Reference.calendar) example_service poll_failing_env
           example_proposal_data tx (u "abc123") 1%nat (u "deadline exceeded")).
  - exact I.
  - reflexivity.
  - lia.
  - intros k L. destruct k as [|k]; [| lia]. exists pending. split; reflexivity.
  - reflexivity.
Defined.

Lemma total_proposals_defaults_to_zero_witness :
  snd (Counter.get_total_proposals (H := Reference.platform) example_service
         (Ok (Some (cadence_value (PInt 12))))) = Ok 12
  /\ snd (Counter.get_total_proposals (H := Reference.platform) example_service
            (Raise (u "connection refused"))) = Ok 0.
Proof.
  split.
  - destruct (total_proposals_defaults_to_zero (H := Reference.platform) example_service
                (Ok (Some (cadence_value (PInt 12))))) as (n & -> & _ & K & _).
    rewrite (K 12 eq_refl). reflexivity.
  - destruct (total_proposals_defaults_to_zero (H := Reference.platform) example_service
                (Raise (u "connection refused"))) as (n & -> & K & _).
    rewrite K; [reflexivity |]. left. eauto.
Defined.

Lemma decoded_status_is_one_of_three_witness :
  exists r,
    Query._parse_proposal_result (H := Reference.platform)
      (example_struct example_fields) (Some 7) = Some r
    /\ Query.status r = u "passed".
Proof.
  destruct (Query._parse_proposal_result (H := Reference.platform)
              (example_struct example_fields) (Some 7)) as [r|] eqn:P;
    [| vm_compute in P; discriminate].
  exists r. split; [reflexivity |].
  destruct (decoded_status_is_one_of_three (H := Reference.platform)
              (example_struct example_fields) (Some 7) r P) as (_ & B).
  apply (B (cadence_struct type_tag example_fields) example_fields
           (u "A.0x01.CommunityVoting.ProposalStatus") 1).
  - apply example_is_struct.
  - right. apply example_is_struct.
  - left. vm_compute. reflexivity.
Defined.

Lemma decoding_what_is_no_struct_witness :
  Query._parse_proposal_result (H := Reference.platform) (PInt 5) (Some 7)
  = Some (Query.zero_proposal 7)
  /\ Query._parse_proposal_result (H := Reference.platform) (cadence_value PNone) (Some 7)
     = None.
Proof.
  destruct (decoding_what_is_no_struct (H := Reference.platform) (Some 7))
    as (_ & B & C).
  split.
  - apply C; [reflexivity | reflexivity | intros d E; discriminate E].
  - apply B. eexists. split; reflexivity.
Defined.

Lemma decoding_without_id_needs_a_number_witness :
  Query._parse_proposal_result (H := Reference.platform)
    (cadence_struct type_tag example_fields) None = None.
Proof.
  apply (decoding_without_id_needs_a_number (H := Reference.platform)
           (cadence_struct type_tag example_fields) example_fields type_tag).
  - apply example_is_struct.
  - vm_compute. reflexivity.
  - vm_compute. reflexivity.
Defined.

Lemma decoded_fields_are_the_values_held_witness :
  exists r,
    Query._parse_proposal_result (H := Reference.platform)
      (cadence_struct type_tag example_fields) (Some 7) = Some r
    /\ Query.yesVotes r = 14 /\ Query.noVotes r = 3
    /\ Query.parkName r = u "Rock Creek Park"
    /\ Query.endDate r = 1764547199.
Proof.
  destruct (Query._parse_proposal_result (H := Reference.platform)
              (cadence_struct type_tag example_fields) (Some 7)) as [r|] eqn:P;
    [| vm_compute in P; discriminate].
  exists r. split; [reflexivity |].
  destruct (decoded_fields_are_the_values_held (H := Reference.platform)
              (cadence_struct type_tag example_fields) example_fields (Some 7) r)
    as (Y & N & PN & _ & _ & _ & E).
  - apply example_is_struct.
  - exact P.
  - split; [apply Y; vm_compute; reflexivity |].
    split; [apply N; vm_compute; reflexivity |].
    split; [apply PN; vm_compute; reflexivity |].
    destruct (E 176454719900000000) as (f & F & T); [vm_compute; reflexivity |].
    vm_compute in F. injection F as <-.
    match type of T with
    | ?x = _ => assert (T' : x = Some 1764547199) by (vm_compute; reflexivity)
    end.
    congruence.
Defined.

Lemma query_returns_within_six_seconds_witness :
  Query.get_proposal (H := Reference.platform) example_service (fun _ => Ok None) 7
  = ([ExecuteScript (GetProposalScript (u "0123456789abcdef")) [CUInt64 7]], Ok None).
Proof.
  destruct (query_returns_within_six_seconds (H := Reference.platform) example_service
              (fun _ => Ok None) 7) as (_ & _ & C).
  rewrite (C eq_refl). vm_compute. reflexivity.
Defined.

Lemma signer_requires_key_and_sdk_witness :
  Service.signer (Service.init (H := Reference.sdk) example_environ true)
  = Some {| signer_private_key_hex := example_key |}.
Proof.
  apply (signer_requires_key_and_sdk (H0 := Reference.sdk)).
  exists example_key. split; [vm_compute; reflexivity |].
  split; [discriminate |]. split; [reflexivity | vm_compute; reflexivity].
Defined.

Lemma address_prefix_is_removed_witness :
  Service.address (Service.init (H := Reference.sdk) example_environ true)
  = u "0123456789abcdef"
  /\ Service.contract_address (Service.init (H := Reference.sdk) example_environ true)
     = u "0123456789abcdef".
Proof.
  destruct (address_prefix_is_removed (H0 := Reference.sdk)
              example_environ true (u "0123456789abcdef")) as (A & B).
  - vm_compute. intros I.
    repeat (destruct I as [I|I]; [discriminate I |]). exact I.
  - vm_compute. reflexivity.
  - split; [exact A |]. apply B. vm_compute. reflexivity.
Defined.

Lemma summary_generator_never_fails_witness :
  Summary._generate_blockchain_summary (H := Reference.platform)
    (Raise (u "quota exceeded")) (PStr (u "COMMUNITY PROPOSAL")) plain_analysis
  = ([Summarize],
     Ok (u "Rock Creek Park: NDVI 0" ++ [8594%N] ++ u "0, PM2.5 +0%")).
Proof.
  destruct (summary_generator_never_fails (H := Reference.platform)
              (Raise (u "quota exceeded")) (PStr (u "COMMUNITY PROPOSAL"))
              plain_analysis) as (d & -> & F & _).
  rewrite F; [vm_compute; reflexivity |]. left. eauto.
Defined.

Lemma balance_defaults_to_zero_witness :
  Account.get_balance (H := Reference.platform) (H0 := Reference.sdk) example_service
    (Ok {| balance := 1000000000; keys := [] |})
  = ([GetAccount (u "0123456789abcdef")], Ok (float_of_Z 10))
  /\ Account.get_balance (H := Reference.platform) (H0 := Reference.sdk) example_service
       (Raise (u "connection refused"))
     = ([GetAccount (u "0123456789abcdef")], Ok (S754_zero false)).
Proof.
  split.
  - destruct (balance_defaults_to_zero (H := Reference.platform) (H0 := Reference.sdk)
                example_service (Ok {| balance := 1000000000; keys := [] |}))
      as (_ & _ & C).
    destruct (C (u "0123456789abcdef")) as (D & _);
      [vm_compute; discriminate | vm_compute; reflexivity |].
    rewrite (D {| balance := 1000000000; keys := [] |} (float_of_Z 1000000000));
      vm_compute; reflexivity.
  - destruct (balance_defaults_to_zero (H := Reference.platform) (H0 := Reference.sdk)
                example_service (Raise (u "connection refused")))
      as (_ & _ & C).
    destruct (C (u "0123456789abcdef")) as (_ & D);
      [vm_compute; discriminate | vm_compute; reflexivity |].
    exact (D (u "connection refused") eq_refl).
Defined.

Lemma close_is_a_single_attempt_witness :
  exists tx tx_id k r,
    sent_transactions
      (fst (Closer.close_proposal (H0 := Reference.sdk) example_closer
              sealing_close_env 1)) = [tx]
    /\ Closer.send_transaction sealing_close_env tx = Ok tx_id
    /\ (k < 30)%nat
    /\ Closer.get_transaction_result sealing_close_env k = Ok r
    /\ 4 <= status r /\ error_message r = [].
Proof.
  destruct (close_is_a_single_attempt (H0 := Reference.sdk)
              example_closer sealing_close_env 1) as (_ & _ & _ & D).
  destruct D as (tx & tx_id & k & r & S & T & L & _ & G & S4 & M & _);
    [vm_compute; reflexivity |].
  exists tx, tx_id, k, r. repeat split; assumption.
Defined.

Lemma sweep_closes_only_ended_witness :
  match example_close_tx with
  | Some tx =>
      exists active_proposals k proposal_id v raw,
        snd (Closer.get_all_active_proposals (H := Reference.platform) example_closer
               (Closer.active_proposals_script example_sweep)) = Ok active_proposals
        /\ active_proposals !! k = Some proposal_id
        /\ tx_code tx = UpdateProposalStatusTx (Closer.contract_address example_closer)
        /\ arguments tx = [CUInt64 proposal_id]
        /\ Closer.end_date_field_value
             (Closer.fetched (Closer.proposal_details example_sweep k)) = Some v
        /\ py_float (H := Reference.platform) v = Ok raw
        /\ fgtb (Closer.now_timestamp example_sweep) (fdiv raw f1e8) = true
  | None => False
  end.
Proof.
  unfold example_close_tx.
  apply (sweep_closes_only_ended (H := Reference.platform) (H0 := Reference.sdk)
           example_closer example_sweep).
  vm_compute. left. reflexivity.
Defined.

Lemma garbled_sweep_readable (j : nat) :
  (j < 1)%nat ->
  Closer.readable (H := Reference.platform) (Closer.now_timestamp garbled_sweep)
    (Closer.proposal_details garbled_sweep j).
Proof.
  intros L v T E. destruct j as [|j]; [| lia].
  vm_compute in E. injection E as <-.
  exists (float_of_Z 176209919900000000). split; vm_compute; reflexivity.
Qed.

Lemma sweep_stops_at_unreadable_end_date_witness :
  snd (Closer.close_all_active_proposals (H := Reference.platform) (H0 := Reference.sdk)
         example_closer garbled_sweep)
  = Raise (u "could not convert string to float")
  /\ fetched_ids
       (fst (Closer.close_all_active_proposals (H := Reference.platform)
               (H0 := Reference.sdk) example_closer garbled_sweep))
     = [1; 2].
Proof.
  apply (sweep_stops_at_unreadable_end_date (H := Reference.platform)
           (H0 := Reference.sdk) example_closer garbled_sweep [1; 2; 3] 1
           (PStr (u "soon")) (u "could not convert string to float")).
  - vm_compute. reflexivity.
  - simpl. lia.
  - exact garbled_sweep_readable.
  - vm_compute. reflexivity.
  - vm_compute. reflexivity.
  - vm_compute. reflexivity.
Defined.

Lemma sweep_fetches_each_id_once_witness :
  fetched_ids
    (fst (Closer.close_all_active_proposals (H := Reference.platform)
            (H0 := Reference.sdk) example_closer example_sweep))
  = [1; 2; 3]
  /\ (length (sent_transactions
                (fst (Closer.close_all_active_proposals (H := Reference.platform)
                        (H0 := Reference.sdk) example_closer example_sweep)))
      <= 3)%nat.
Proof.
  destruct (sweep_fetches_each_id_once (H := Reference.platform) (H0 := Reference.sdk)
              example_closer example_sweep [1; 2; 3]) as (A & B & _).
  - vm_compute. reflexivity.
  - exact example_sweep_readable.
  - split; [exact A | exact B].
Defined.

Lemma active_ids_are_decoded_or_dropped_witness :
  snd (Closer.get_all_active_proposals (H := Reference.platform) example_closer
         (Ok (Some (cadence_ids [1; 2; 3])))) = Ok [1; 2; 3]
  /\ snd (Closer.get_all_active_proposals (H := Reference.platform) example_closer
            (Ok (Some (cadence_value
                         (PList [cadence_value (PInt 1);
                                 cadence_value (PStr (u "two"))]))))) = Ok [].
Proof.
  split.
  - destruct (active_ids_are_decoded_or_dropped (H := Reference.platform)
                example_service example_closer (Ok (Some (cadence_ids [1; 2; 3]))))
      as (_ & _ & C & _).
    exact (C [1; 2; 3] eq_refl).
  - destruct (active_ids_are_decoded_or_dropped (H := Reference.platform)
                example_service example_closer
                (Ok (Some (cadence_value
                             (PList [cadence_value (PInt 1);
                                     cadence_value (PStr (u "two"))])))))
      as (_ & _ & _ & _ & E).
    apply (E _ (cadence_value (PStr (u "two")))
             (u "invalid literal for int() with base 10") eq_refl).
    + right. left. reflexivity.
    + vm_compute. reflexivity.
Defined.

Lemma sweep_of_unreachable_node_is_silent_witness :
  Closer.main (H := Reference.platform) (H0 := Reference.sdk) example_environ
    unreachable_sweep
  = ([ExecuteScript (GetAllActiveProposalsScript (u "0123456789abcdef")) []], Ok None).
Proof.
  apply (sweep_of_unreachable_node_is_silent (H := Reference.platform)
           (H0 := Reference.sdk) example_environ unreachable_sweep example_closer).
  - vm_compute. reflexivity.
  - left. exists (u "connection refused"). reflexivity.
Defined.

Lemma listing_endpoint_reads_only_witness :
  exists t proposals,
    Api.get_proposals (H := Reference.platform) (H0 := Reference.sdk) example_listing
    = (t, Ok (Api.Listed proposals (length proposals)))
    /\ sent_transactions t = []
    /\ sublist (List.map Query.id proposals) [7; 8].
Proof.
  destruct (listing_endpoint_reads_only (H := Reference.platform) (H0 := Reference.sdk)
              example_listing) as (t & r & E & S & _ & B).
  destruct (B eq_refl) as (ps & ids & -> & G & L).
  vm_compute in G. injection G as <-.
  exists t, ps. repeat split; assumption.
Defined.

Lemma details_endpoint_returns_the_id_asked_witness :
  exists t p,
    Api.get_proposal_details (H := Reference.platform) (H0 := Reference.sdk)
      example_environ true (Ok tt) throttled_answers 7
    = (t, Ok (Api.Details p))
    /\ Query.id p = 7.
Proof.
  destruct (details_endpoint_returns_the_id_asked (H := Reference.platform)
              (H0 := Reference.sdk) example_environ true (Ok tt) throttled_answers 7)
    as (t & r & E & _ & _ & _ & B).
  destruct r as [e|p]; [vm_compute in E; discriminate E |].
  exists t, p. split; [exact E |]. exact (proj2 (B p eq_refl)).
Defined.

Lemma create_endpoint_needs_a_key_witness :
  exists t e,
    Api.create_proposal (H := Reference.platform) (H0 := Reference.sdk)
      (H1 := Reference.calendar) keyless_environ true (Ok tt) example_env
      example_proposal_data
    = (t, Ok (Submission.Failed e None None))
    /\ sent_transactions t = [].
Proof.
  destruct (create_endpoint_needs_a_key (H := Reference.platform) (H0 := Reference.sdk)
              (H1 := Reference.calendar) keyless_environ true (Ok tt) example_env
              example_proposal_data) as (t & r & E & _ & _ & K).
  destruct K as (S & e & ->); [vm_compute; reflexivity |].
  exists t, e. split; assumption.
Defined.

End FurtherWitnesses.
